(** * Black Magic Probe: ADIv5 engine and SAM D driver

    A shallow embedding of the parts of [src/target/samd.c] and
    [src/target/adiv5.c] that drive the target, and the properties of
    them that the specification states.

    Conventions.  C's [uint32_t] values are integers of [Z]; arithmetic
    that can wrap is reduced with [u32].  A function that talks to the
    target threads a state holding the transactions issued so far; the
    values the target answers with come from an environment, indexed by
    how many answers were consumed before.  A [while] loop whose exit
    depends on the target takes a fuel argument and yields [None] when
    the fuel does not suffice. *)

From Stdlib Require Import ZArith Ascii String List Lia Bool.
Import ListNotations.
Open Scope Z_scope.

(** ** Machine integers *)

Definition u32 (x : Z) : Z := x mod 2 ^ 32.

(** Conversion of an integer to C's [bool] ([_Bool]): any non-zero
    value becomes [true]. *)
Definition bool_of_int (x : Z) : bool := negb (x =? 0).

(** [x & m] seen as a condition. *)
Definition tst (x m : Z) : bool := negb (Z.land x m =? 0).

(* ================================================================== *)
(** ** SAM D driver ([src/target/samd.c]) *)

Module Samd.

(** Register map and bit fields, as [#define]d in the driver. *)
Definition SAMD_NVMC : Z := 0x41004000.
Definition SAMD_NVMC_CTRLA : Z := SAMD_NVMC + 0x00.
Definition SAMD_NVMC_INTFLAG : Z := SAMD_NVMC + 0x14.
Definition SAMD_NVMC_ADDRESS : Z := SAMD_NVMC + 0x1C.

Definition SAMD_CTRLA_CMD_KEY : Z := 0xA500.
Definition SAMD_CTRLA_CMD_ERASEAUXROW : Z := 0x0005.
Definition SAMD_CTRLA_CMD_WRITEAUXPAGE : Z := 0x0006.

Definition SAMD_NVMC_READY : Z := Z.shiftl 1 0.

Definition SAMD_NVM_USER_ROW_LOW : Z := 0x00804000.
Definition SAMD_NVM_USER_ROW_HIGH : Z := 0x00804004.

Definition SAMD_DSU : Z := 0x41002000.
Definition SAMD_DSU_EXT_ACCESS : Z := SAMD_DSU + 0x100.
Definition SAMD_DSU_CTRLSTAT : Z := SAMD_DSU_EXT_ACCESS + 0x0.

Definition SAMD_CTRL_CHIP_ERASE : Z := Z.shiftl 1 4.
Definition SAMD_STATUSA_PERR : Z := Z.shiftl 1 12.
Definition SAMD_STATUSA_FAIL : Z := Z.shiftl 1 11.
Definition SAMD_STATUSA_DONE : Z := Z.shiftl 1 8.

(** What the driver asks of the layers below it.  A read carries the
    value it returned, a check whether an error was latched. *)
Inductive call : Type :=
| MemWrite32 (addr val : Z)
| MemRead32 (addr val : Z)
| CheckError (latched : bool)
| TcPrintf (msg : string)
| PlatformTimeoutSet (ms : Z)
| PrintProgress.

(** The target under test: the answer to the [n]-th
    [target_mem_read32] (at the address asked) and to the [n]-th
    [target_check_error]. *)
Record bench : Type := {
  mem_read32 : nat -> Z -> Z;
  check_error : nat -> bool
}.

(** [target *t]: answers consumed so far and the calls made. *)
Record target : Type := {
  reads : nat;
  checks : nat;
  trace : list call
}.

Definition target_init : target :=
  {| reads := 0; checks := 0; trace := [] |}.

Definition emit (t : target) (c : call) : target :=
  {| reads := reads t; checks := checks t; trace := trace t ++ [c] |}.

Definition target_mem_write32 (t : target) (addr val : Z) : target :=
  emit t (MemWrite32 addr val).

Definition target_mem_read32 (b : bench) (t : target) (addr : Z) : Z * target :=
  let v := mem_read32 b (reads t) addr in
  (v, {| reads := S (reads t); checks := checks t;
         trace := trace t ++ [MemRead32 addr v] |}).

Definition target_check_error (b : bench) (t : target) : bool * target :=
  let e := check_error b (checks t) in
  (e, {| reads := reads t; checks := S (checks t);
         trace := trace t ++ [CheckError e] |}).

Definition tc_printf (t : target) (msg : string) : target :=
  emit t (TcPrintf msg).

Definition platform_timeout_set (t : target) (ms : Z) : target :=
  emit t (PlatformTimeoutSet ms).

(** Modelled from the spec: [target_print_progress(&timeout)] is not
    among the sources; the spec has the poll give user-visible progress
    ticks.  It returns [void] and receives nothing but the timeout, so
    the call is recorded and changes nothing the driver looks at. *)
Definition target_print_progress (t : target) : target :=
  emit t PrintProgress.

(** The messages printed to the user, in order. *)
Fixpoint messages (tr : list call) : list string :=
  match tr with
  | [] => []
  | TcPrintf m :: tr' => m :: messages tr'
  | _ :: tr' => messages tr'
  end.

(** *** [samd_mass_erase] *)

Definition DSU_STATUS_BITS : Z :=
  Z.lor (Z.lor SAMD_STATUSA_DONE SAMD_STATUSA_PERR) SAMD_STATUSA_FAIL.

(** How the poll loop is left: the condition of the [while] fails with
    [status], or the body returns [false]. *)
Inductive poll_exit : Type :=
| PollStatus (status : Z)
| PollError.

(** [while (((status = target_mem_read32(t, SAMD_DSU_CTRLSTAT)) &
            (DONE | PERR | FAIL)) == 0)
      { if (target_check_error(t)) return false;
        target_print_progress(&timeout); }] *)
Fixpoint mass_erase_poll (b : bench) (fuel : nat) (t : target)
  : option (poll_exit * target) :=
  match fuel with
  | O => None
  | S fuel' =>
      let (status, t1) := target_mem_read32 b t SAMD_DSU_CTRLSTAT in
      if Z.land status DSU_STATUS_BITS =? 0 then
        let (err, t2) := target_check_error b t1 in
        if err then Some (PollError, t2)
        else mass_erase_poll b fuel' (target_print_progress t2)
      else Some (PollStatus status, t1)
  end.

Definition samd_mass_erase (b : bench) (fuel : nat) (t : target)
  : option (bool * target) :=
  (* Clear the DSU status bits *)
  let t := target_mem_write32 t SAMD_DSU_CTRLSTAT DSU_STATUS_BITS in
  (* Erase all *)
  let t := target_mem_write32 t SAMD_DSU_CTRLSTAT SAMD_CTRL_CHIP_ERASE in
  let t := platform_timeout_set t 500 in
  (* Poll for DSU Ready *)
  match mass_erase_poll b fuel t with
  | None => None
  | Some (PollError, t) => Some (false, t)
  | Some (PollStatus status, t) =>
      (* Test the protection error bit in Status A *)
      if tst status SAMD_STATUSA_PERR then
        Some (true, tc_printf t "Erase failed due to a protection error.\n")
      (* Test the fail bit in Status A *)
      else if tst status SAMD_STATUSA_FAIL then
        Some (true, tc_printf t "Erase failed.\n")
      else Some (true, t)
  end.

(** *** [samd_set_flashlock] and its callers *)

(** [while ((target_mem_read32(t, SAMD_NVMC_INTFLAG) & SAMD_NVMC_READY) == 0)
      if (target_check_error(t)) return -1;]
    The result is [Some r] when the body returns the integer [r] and
    [None] when the loop is left through its condition. *)
Fixpoint nvm_ready_poll (b : bench) (fuel : nat) (t : target)
  : option (option Z * target) :=
  match fuel with
  | O => None
  | S fuel' =>
      let (flag, t1) := target_mem_read32 b t SAMD_NVMC_INTFLAG in
      if Z.land flag SAMD_NVMC_READY =? 0 then
        let (err, t2) := target_check_error b t1 in
        if err then Some (Some (-1), t2)
        else nvm_ready_poll b fuel' t2
      else Some (None, t1)
  end.

(** The function is declared [static bool]: the operand of each
    [return] is converted to [bool]. *)
Definition samd_set_flashlock (b : bench) (fuel : nat) (t : target) (value : Z)
  : option (bool * target) :=
  let (high, t) := target_mem_read32 b t SAMD_NVM_USER_ROW_HIGH in
  let (low, t) := target_mem_read32 b t SAMD_NVM_USER_ROW_LOW in
  (* Write address of a word in the row to erase it *)
  let t := target_mem_write32 t SAMD_NVMC_ADDRESS
             (Z.shiftr SAMD_NVM_USER_ROW_LOW 1) in
  (* Issue the erase command *)
  let t := target_mem_write32 t SAMD_NVMC_CTRLA
             (Z.lor SAMD_CTRLA_CMD_KEY SAMD_CTRLA_CMD_ERASEAUXROW) in
  (* Poll for NVM Ready *)
  match nvm_ready_poll b fuel t with
  | None => None
  | Some (Some r, t) => Some (bool_of_int r, t)
  | Some (None, t) =>
      (* Modify the high byte of the user row *)
      let high := Z.lor (Z.land high 0x0000FFFF)
                        (Z.land (Z.shiftl value 16) 0xFFFF0000) in
      (* Write back *)
      let t := target_mem_write32 t SAMD_NVM_USER_ROW_LOW low in
      let t := target_mem_write32 t SAMD_NVM_USER_ROW_HIGH high in
      (* Issue the page write command *)
      let t := target_mem_write32 t SAMD_NVMC_CTRLA
                 (Z.lor SAMD_CTRLA_CMD_KEY SAMD_CTRLA_CMD_WRITEAUXPAGE) in
      Some (true, t)
  end.

(** [samd_cmd_unlock_flash] ignores its arguments. *)
Definition samd_cmd_unlock_flash (b : bench) (fuel : nat) (t : target)
  : option (bool * target) :=
  samd_set_flashlock b fuel t 0xFFFF.

(** [samd_cmd_lock_flash] without a number on the command line
    ([argc < 2]). *)
Definition samd_cmd_lock_flash_default (b : bench) (fuel : nat) (t : target)
  : option (bool * target) :=
  samd_set_flashlock b fuel t 0x0000.

(** *** The samples a poll loop sees

    Counted from the state [t] in which the loop is entered: the [k]-th
    value read and the [k]-th error check. *)

Definition sample (b : bench) (t : target) (addr : Z) (k : nat) : Z :=
  mem_read32 b (reads t + k)%nat addr.

Definition latched (b : bench) (t : target) (k : nat) : bool :=
  check_error b (checks t + k)%nat.

Definition dsu_status (b : bench) (t : target) (k : nat) : Z :=
  sample b t SAMD_DSU_CTRLSTAT k.

(** One of DONE, PERR, FAIL is set. *)
Definition dsu_finished (status : Z) : bool := tst status DSU_STATUS_BITS.

(** The [k]-th iteration ends the mass-erase poll. *)
Definition poll_ends (b : bench) (t : target) (k : nat) : Prop :=
  dsu_finished (dsu_status b t k) = true \/ latched b t k = true.

(** No iteration before the [k]-th ends it. *)
Definition poll_quiet (b : bench) (t : target) (k : nat) : Prop :=
  forall j, (j < k)%nat ->
    dsu_finished (dsu_status b t j) = false /\ latched b t j = false.

(** A target on which the erase never completes and no error shows. *)
Definition silent_bench : bench :=
  {| mem_read32 := fun _ _ => 0; check_error := fun _ => false |}.

(** What [samd_mass_erase] prints for a final status. *)
Definition erase_message (status : Z) : list string :=
  if tst status SAMD_STATUSA_PERR then
    ["Erase failed due to a protection error.\n"%string]
  else if tst status SAMD_STATUSA_FAIL then ["Erase failed.\n"%string]
  else [].

(** The state in which the next iteration of the mass-erase poll
    starts, when the current one neither ends the loop nor returns. *)
Definition poll_skip (b : bench) (t : target) : target :=
  target_print_progress
    (snd (target_check_error b (snd (target_mem_read32 b t SAMD_DSU_CTRLSTAT)))).

(** How the poll ends at iteration [k]. *)
Definition poll_outcome (b : bench) (t : target) (k : nat) : poll_exit :=
  if dsu_finished (dsu_status b t k) then PollStatus (dsu_status b t k)
  else PollError.

(** The state in which the mass-erase poll is entered. *)
Definition erase_armed (t : target) : target :=
  platform_timeout_set
    (target_mem_write32
       (target_mem_write32 t SAMD_DSU_CTRLSTAT DSU_STATUS_BITS)
       SAMD_DSU_CTRLSTAT SAMD_CTRL_CHIP_ERASE) 500.

(** A target whose third status sample reports a protection error. *)
Definition protected_bench : bench :=
  {| mem_read32 := fun n _ => if (n <? 2)%nat then 0 else 0x1100;
     check_error := fun _ => false |}.

(** A target whose NVM controller never gets ready and which has an
    error latched. *)
Definition faulty_bench : bench :=
  {| mem_read32 := fun _ _ => 0; check_error := fun _ => true |}.

(** A target that reports DONE in its second status sample. *)
Definition done_bench : bench :=
  {| mem_read32 := fun n _ => if (n <? 1)%nat then 0 else 0x100;
     check_error := fun _ => false |}.

(** A target with a user row of 0xFFFFABCD12345678 whose NVM
    controller is ready at once. *)
Definition ready_bench : bench :=
  {| mem_read32 :=
       fun n _ =>
         match n with 0%nat => 0xFFFFABCD | 1%nat => 0x12345678 | _ => 1 end;
     check_error := fun _ => false |}.

(** *** Flash rows: [samd_flash_erase] *)

(* Non-Volatile Memory Controller (NVMC) Parameters *)
Definition SAMD_ROW_SIZE : Z := 256.
Definition SAMD_PAGE_SIZE : Z := 64.

Definition SAMD_CTRLA_CMD_ERASEROW : Z := 0x0002.
Definition SAMD_CTRLA_CMD_LOCK : Z := 0x0040.
Definition SAMD_CTRLA_CMD_UNLOCK : Z := 0x0041.

(** Temporary (until next reset) flash memory locking / unlocking *)
Definition samd_lock_current_address (t : target) : target :=
  target_mem_write32 t SAMD_NVMC_CTRLA
    (Z.lor SAMD_CTRLA_CMD_KEY SAMD_CTRLA_CMD_LOCK).

Definition samd_unlock_current_address (t : target) : target :=
  target_mem_write32 t SAMD_NVMC_CTRLA
    (Z.lor SAMD_CTRLA_CMD_KEY SAMD_CTRLA_CMD_UNLOCK).

(** [struct target_flash], with the fields [samd_add_flash] fills in
    with numbers; [length] is called [flash_length] here. *)
Record target_flash : Type := {
  start : Z;
  flash_length : Z;
  blocksize : Z;
  buf_size : Z
}.

(** [samd_add_flash], when [calloc] succeeds. *)
Definition samd_add_flash (addr length : Z) : target_flash :=
  {| start := addr; flash_length := length; blocksize := SAMD_ROW_SIZE;
     buf_size := SAMD_PAGE_SIZE |}.

(** Erase flash row by row.  [target_addr] and [size_t] are 32 bits
    wide on the probe; [addr += f->blocksize] can wrap.  The fuel
    bounds the rows and, for each row, the polls. *)
Fixpoint samd_flash_erase (b : bench) (fuel : nat) (f : target_flash)
  (t : target) (addr len : Z) : option (Z * target) :=
  match fuel with
  | O => None
  | S fuel' =>
      if len =? 0 then Some (0, t)
      else
        (* Write address of first word in row to erase it *)
        let t := target_mem_write32 t SAMD_NVMC_ADDRESS (Z.shiftr addr 1) in
        (* Unlock *)
        let t := samd_unlock_current_address t in
        (* Issue the erase command *)
        let t := target_mem_write32 t SAMD_NVMC_CTRLA
                   (Z.lor SAMD_CTRLA_CMD_KEY SAMD_CTRLA_CMD_ERASEROW) in
        (* Poll for NVM Ready *)
        match nvm_ready_poll b fuel' t with
        | None => None
        | Some (Some r, t) => Some (r, t)
        | Some (None, t) =>
            (* Lock *)
            let t := samd_lock_current_address t in
            let addr := u32 (addr + blocksize f) in
            let len := if blocksize f <? len then len - blocksize f else 0 in
            samd_flash_erase b fuel' f t addr len
        end
  end.

(** The values written to register [reg], in order. *)
Fixpoint writes_to (reg : Z) (tr : list call) : list Z :=
  match tr with
  | [] => []
  | MemWrite32 addr val :: tr' =>
      if addr =? reg then val :: writes_to reg tr' else writes_to reg tr'
  | _ :: tr' => writes_to reg tr'
  end.

(** Rows in [len] bytes, the last one possibly in part. *)
Definition erase_rows (f : target_flash) (len : Z) : nat :=
  Z.to_nat ((len + blocksize f - 1) / blocksize f).

(** What is written to the ADDRESS register for row [i]. *)
Definition row_address (f : target_flash) (addr : Z) (i : nat) : Z :=
  Z.shiftr (u32 (addr + Z.of_nat i * blocksize f)) 1.

(** The commands of a row that is erased. *)
Definition row_commands : list Z :=
  [Z.lor SAMD_CTRLA_CMD_KEY SAMD_CTRLA_CMD_UNLOCK;
   Z.lor SAMD_CTRLA_CMD_KEY SAMD_CTRLA_CMD_ERASEROW;
   Z.lor SAMD_CTRLA_CMD_KEY SAMD_CTRLA_CMD_LOCK].

(** The INTFLAG samples of a poll for NVM Ready entered in [t]. *)
Definition nvm_flag (b : bench) (t : target) (k : nat) : Z :=
  sample b t SAMD_NVMC_INTFLAG k.

Definition nvm_ready (flag : Z) : bool := tst flag SAMD_NVMC_READY.

(** Neither ready nor an error in the iterations before the [k]-th. *)
Definition nvm_waits (b : bench) (t : target) (k : nat) : Prop :=
  forall j, (j < k)%nat ->
    nvm_ready (nvm_flag b t j) = false /\ latched b t j = false.

(** The calls of a poll that finds the controller ready in its [k]-th
    iteration. *)
Definition nvm_poll_calls (b : bench) (t : target) (k : nat) : list call :=
  (flat_map (fun j => [MemRead32 SAMD_NVMC_INTFLAG (nvm_flag b t j);
                       CheckError false]) (seq 0 k)
   ++ [MemRead32 SAMD_NVMC_INTFLAG (nvm_flag b t k)])%list.

(** A target whose NVM controller is always ready. *)
Definition prompt_bench : bench :=
  {| mem_read32 := fun _ _ => 1; check_error := fun _ => false |}.

(** A target whose NVM controller gets ready for the first row and
    then stays busy with an error latched. *)
Definition stalling_bench : bench :=
  {| mem_read32 := fun n _ => if (n <? 1)%nat then 1 else 0;
     check_error := fun _ => true |}.

(** *** [samd_set_bootprot] and its callers *)

(** Declared [static bool], like [samd_set_flashlock]. *)
Definition samd_set_bootprot (b : bench) (fuel : nat) (t : target) (value : Z)
  : option (bool * target) :=
  let (high, t) := target_mem_read32 b t SAMD_NVM_USER_ROW_HIGH in
  let (low, t) := target_mem_read32 b t SAMD_NVM_USER_ROW_LOW in
  (* Write address of a word in the row to erase it *)
  let t := target_mem_write32 t SAMD_NVMC_ADDRESS
             (Z.shiftr SAMD_NVM_USER_ROW_LOW 1) in
  (* Issue the erase command *)
  let t := target_mem_write32 t SAMD_NVMC_CTRLA
             (Z.lor SAMD_CTRLA_CMD_KEY SAMD_CTRLA_CMD_ERASEAUXROW) in
  (* Poll for NVM Ready *)
  match nvm_ready_poll b fuel t with
  | None => None
  | Some (Some r, t) => Some (bool_of_int r, t)
  | Some (None, t) =>
      (* Modify the low word of the user row *)
      let low := Z.lor (Z.land low 0xFFFFFFF8)
                       (Z.land (Z.shiftl value 0) 0x00000007) in
      (* Write back *)
      let t := target_mem_write32 t SAMD_NVM_USER_ROW_LOW low in
      let t := target_mem_write32 t SAMD_NVM_USER_ROW_HIGH high in
      (* Issue the page write command *)
      let t := target_mem_write32 t SAMD_NVMC_CTRLA
                 (Z.lor SAMD_CTRLA_CMD_KEY SAMD_CTRLA_CMD_WRITEAUXPAGE) in
      Some (true, t)
  end.

(** [samd_cmd_unlock_bootprot] ignores its arguments. *)
Definition samd_cmd_unlock_bootprot (b : bench) (fuel : nat) (t : target)
  : option (bool * target) :=
  samd_set_bootprot b fuel t 7.

(** The state in which [samd_set_flashlock] and [samd_set_bootprot]
    enter their poll. *)
Definition user_row_armed (b : bench) (t : target) : target :=
  target_mem_write32
    (target_mem_write32
       (snd (target_mem_read32 b
               (snd (target_mem_read32 b t SAMD_NVM_USER_ROW_HIGH))
               SAMD_NVM_USER_ROW_LOW))
       SAMD_NVMC_ADDRESS (Z.shiftr SAMD_NVM_USER_ROW_LOW 1))
    SAMD_NVMC_CTRLA (Z.lor SAMD_CTRLA_CMD_KEY SAMD_CTRLA_CMD_ERASEAUXROW).

(** The two words of the user row as read in [t]. *)
Definition user_row_high (b : bench) (t : target) : Z :=
  mem_read32 b (reads t) SAMD_NVM_USER_ROW_HIGH.

Definition user_row_low (b : bench) (t : target) : Z :=
  mem_read32 b (S (reads t)) SAMD_NVM_USER_ROW_LOW.

(** *** [samd_reset] *)

(** What the driver takes from [cortexm.h], which is not among the
    sources at hand. *)
Record cortexm_h : Type := {
  CORTEXM_DHCSR : Z;
  CORTEXM_DHCSR_S_RESET_ST : Z;
  CORTEXM_AIRCR : Z;
  CORTEXM_AIRCR_VECTKEY : Z;
  CORTEXM_AIRCR_SYSRESETREQ : Z;
  CORTEXM_DFSR : Z;
  CORTEXM_DFSR_RESETALL : Z
}.

(** The values of the ARMv7-M architecture, to run the definitions. *)
Definition armv7m_h : cortexm_h :=
  {| CORTEXM_DHCSR := 0xE000EDF0;
     CORTEXM_DHCSR_S_RESET_ST := 0x2000000;
     CORTEXM_AIRCR := 0xE000ED0C;
     CORTEXM_AIRCR_VECTKEY := 0x05FA0000;
     CORTEXM_AIRCR_SYSRESETREQ := 0x4;
     CORTEXM_DFSR := 0xE000ED30;
     CORTEXM_DFSR_RESETALL := 0x1F |}.

Definition SAMD_STATUSA_CRSTEXT : Z := Z.shiftl 1 9.

(** [while (target_mem_read32(t, CORTEXM_DHCSR) & CORTEXM_DHCSR_S_RESET_ST)
      continue;] *)
Fixpoint reset_poll (cm : cortexm_h) (b : bench) (fuel : nat) (t : target)
  : option target :=
  match fuel with
  | O => None
  | S fuel' =>
      let (dhcsr, t) := target_mem_read32 b t (CORTEXM_DHCSR cm) in
      if tst dhcsr (CORTEXM_DHCSR_S_RESET_ST cm) then reset_poll cm b fuel' t
      else Some t
  end.

(** Overloads the default cortexm reset function with a version that
    removes the target from extended reset where required. *)
Definition samd_reset (cm : cortexm_h) (b : bench) (fuel : nat) (t : target)
  : option target :=
  (* Read DHCSR here to clear S_RESET_ST bit before reset *)
  let (_, t) := target_mem_read32 b t (CORTEXM_DHCSR cm) in
  (* Request System Reset from NVIC: nRST doesn't work correctly *)
  let t := target_mem_write32 t (CORTEXM_AIRCR cm)
             (Z.lor (CORTEXM_AIRCR_VECTKEY cm) (CORTEXM_AIRCR_SYSRESETREQ cm)) in
  (* Exit extended reset *)
  let (ctrlstat, t) := target_mem_read32 b t SAMD_DSU_CTRLSTAT in
  let t :=
    if tst ctrlstat SAMD_STATUSA_CRSTEXT then
      (* Write bit to clear from extended reset *)
      target_mem_write32 t SAMD_DSU_CTRLSTAT SAMD_STATUSA_CRSTEXT
    else t in
  (* Poll for release from reset *)
  match reset_poll cm b fuel t with
  | None => None
  | Some t =>
      (* Reset DFSR flags *)
      let t := target_mem_write32 t (CORTEXM_DFSR cm) (CORTEXM_DFSR_RESETALL cm) in
      (* Clear any target errors *)
      Some (snd (target_check_error b t))
  end.

(** The [k]-th DHCSR sample of the poll of [samd_reset] entered from
    [t], and whether it shows the core in reset. *)
Definition reset_dhcsr (cm : cortexm_h) (b : bench) (t : target) (k : nat) : Z :=
  mem_read32 b (reads t + 2 + k)%nat (CORTEXM_DHCSR cm).

Definition in_reset (cm : cortexm_h) (dhcsr : Z) : bool :=
  tst dhcsr (CORTEXM_DHCSR_S_RESET_ST cm).

(** The calls of [samd_reset] when the core leaves reset at sample
    [k]. *)
Definition reset_calls (cm : cortexm_h) (b : bench) (t : target) (k : nat)
  : list call :=
  ([MemRead32 (CORTEXM_DHCSR cm) (mem_read32 b (reads t) (CORTEXM_DHCSR cm));
    MemWrite32 (CORTEXM_AIRCR cm)
      (Z.lor (CORTEXM_AIRCR_VECTKEY cm) (CORTEXM_AIRCR_SYSRESETREQ cm));
    MemRead32 SAMD_DSU_CTRLSTAT (mem_read32 b (S (reads t)) SAMD_DSU_CTRLSTAT)]
   ++ (if tst (mem_read32 b (S (reads t)) SAMD_DSU_CTRLSTAT) SAMD_STATUSA_CRSTEXT
       then [MemWrite32 SAMD_DSU_CTRLSTAT SAMD_STATUSA_CRSTEXT] else [])
   ++ map (fun j => MemRead32 (CORTEXM_DHCSR cm) (reset_dhcsr cm b t j))
        (seq 0 (S k))
   ++ [MemWrite32 (CORTEXM_DFSR cm) (CORTEXM_DFSR_RESETALL cm);
       CheckError (check_error b (checks t))])%list.

(** A core that stays in reset, with an error latched. *)
Definition stuck_bench : bench :=
  {| mem_read32 := fun _ _ => 0x2000000; check_error := fun _ => true |}.

(** A target in extended reset whose core leaves reset at the second
    sample. *)
Definition crstext_bench : bench :=
  {| mem_read32 :=
       fun n _ =>
         match n with
         | 1%nat => 0x200
         | 2%nat => 0x2000000
         | _ => 0
         end;
     check_error := fun _ => false |}.

(** *** The device identification *)

(* Device Identification Register (DID) *)
Definition SAMD_DSU_DID : Z := SAMD_DSU_EXT_ACCESS + 0x018.
Definition SAMD_DID_MASK : Z := 0xFF380000.
Definition SAMD_DID_CONST_VALUE : Z := 0x10000000.
Definition SAMD_DID_DEVSEL_MASK : Z := 0xFF.
Definition SAMD_DID_DEVSEL_POS : Z := 0.
Definition SAMD_DID_REVISION_MASK : Z := 0x0F.
Definition SAMD_DID_REVISION_POS : Z := 8.
Definition SAMD_DID_SERIES_MASK : Z := 0x1F.
Definition SAMD_DID_SERIES_POS : Z := 16.
Definition SAMD_DID_FAMILY_MASK : Z := 0x3F.
Definition SAMD_DID_FAMILY_POS : Z := 23.

(** Conversion to [uint8_t]. *)
Definition u8 (x : Z) : Z := x mod 2 ^ 8.

(* Family parts *)
Record samd_part : Type := part {
  part_devsel : Z;
  part_pin : ascii;
  part_mem : Z;
  part_variant : ascii
}.

Definition samd_d21_parts : list samd_part := [
  part 0x00 "J" 18 "A"; (* SAMD21J18A *)
  part 0x01 "J" 17 "A"; (* SAMD21J17A *)
  part 0x02 "J" 16 "A"; (* SAMD21J16A *)
  part 0x03 "J" 15 "A"; (* SAMD21J15A *)
  part 0x05 "G" 18 "A"; (* SAMD21G18A *)
  part 0x06 "G" 17 "A"; (* SAMD21G17A *)
  part 0x07 "G" 16 "A"; (* SAMD21G16A *)
  part 0x08 "G" 15 "A"; (* SAMD21G15A *)
  part 0x0A "E" 18 "A"; (* SAMD21E18A *)
  part 0x0B "E" 17 "A"; (* SAMD21E17A *)
  part 0x0C "E" 16 "A"; (* SAMD21E16A *)
  part 0x0D "E" 15 "A"; (* SAMD21E15A *)
  part 0x0F "G" 18 "A"; (* SAMD21G18A (WLCSP) *)
  part 0x10 "G" 17 "A"; (* SAMD21G17A (WLCSP) *)
  part 0x20 "J" 16 "B"; (* SAMD21J16B *)
  part 0x21 "J" 15 "B"; (* SAMD21J15B *)
  part 0x23 "G" 16 "B"; (* SAMD21G16B *)
  part 0x24 "G" 15 "B"; (* SAMD21G15B *)
  part 0x26 "E" 16 "B"; (* SAMD21E16B *)
  part 0x27 "E" 15 "B"; (* SAMD21E15B *)
  part 0x55 "E" 16 "B"; (* SAMD21E16B (WLCSP) *)
  part 0x56 "E" 15 "B"; (* SAMD21E15B (WLCSP) *)
  part 0x62 "E" 16 "C"; (* SAMD21E16C (WLCSP) *)
  part 0x63 "E" 15 "C"; (* SAMD21E15C (WLCSP) *)
  part 0xFF zero 0 zero
].

Definition samd_l21_parts : list samd_part := [
  part 0x00 "J" 18 "A"; (* SAML21J18A *)
  part 0x01 "J" 17 "A"; (* SAML21J17A *)
  part 0x02 "J" 16 "A"; (* SAML21J16A *)
  part 0x05 "G" 18 "A"; (* SAML21G18A *)
  part 0x06 "G" 17 "A"; (* SAML21G17A *)
  part 0x07 "G" 16 "A"; (* SAML21G16A *)
  part 0x0A "E" 18 "A"; (* SAML21E18A *)
  part 0x0B "E" 17 "A"; (* SAML21E17A *)
  part 0x0C "E" 16 "A"; (* SAML21E16A *)
  part 0x0D "E" 15 "A"; (* SAML21E15A *)
  part 0x0F "J" 18 "B"; (* SAML21J18B *)
  part 0x10 "J" 17 "B"; (* SAML21J17B *)
  part 0x11 "J" 16 "B"; (* SAML21J16B *)
  part 0x14 "G" 18 "B"; (* SAML21G18B *)
  part 0x15 "G" 17 "B"; (* SAML21G17B *)
  part 0x16 "G" 16 "B"; (* SAML21G16B *)
  part 0x19 "E" 18 "B"; (* SAML21E18B *)
  part 0x1A "E" 17 "B"; (* SAML21E17B *)
  part 0x1B "E" 16 "B"; (* SAML21E16B *)
  part 0x1C "E" 15 "B"; (* SAML21E15B *)
  part 0xFF zero 0 zero
].

Definition samd_l22_parts : list samd_part := [
  part 0x00 "N" 18 "A"; (* SAML22N18 *)
  part 0x01 "N" 17 "A"; (* SAML22N17 *)
  part 0x02 "N" 16 "A"; (* SAML22N16 *)
  part 0x05 "J" 18 "A"; (* SAML22J18 *)
  part 0x06 "J" 17 "A"; (* SAML22J17 *)
  part 0x07 "J" 16 "A"; (* SAML22J16 *)
  part 0x0A "G" 18 "A"; (* SAML22G18 *)
  part 0x0B "G" 17 "A"; (* SAML22G17 *)
  part 0x0C "G" 16 "A"; (* SAML22G16 *)
  part 0xFF zero 0 zero
].

(** [struct samd_descr].  The function declares it without an
    initialiser and writes [family], [pin], [mem] and [variant] in some
    branches only: [None] is a field that was never written. *)
Record samd_descr : Type := {
  family : option ascii;
  series : Z;
  revision : ascii;
  pin : option ascii;
  ram_size : Z;
  flash_size : Z;
  mem : option Z;
  variant : option ascii;
  package : list ascii
}.

(** [i = 0; while (parts[i].devsel != 0xFF) {
      if (parts[i].devsel == devsel) { ...; break; } i++; }] *)
Fixpoint find_part (parts : list samd_part) (devsel : Z) : option samd_part :=
  match parts with
  | [] => None
  | e :: parts' =>
      if part_devsel e =? 0xFF then None
      else if part_devsel e =? devsel then Some e
      else find_part parts' devsel
  end.

(** Use the DSU Device Indentification Register to populate a struct
    describing the SAM D device. *)
Definition samd_parse_device_id (did : Z) : samd_descr :=
  let parts := samd_d21_parts in
  let family :=
    u8 (Z.land (Z.shiftr did SAMD_DID_FAMILY_POS) SAMD_DID_FAMILY_MASK) in
  let series :=
    u8 (Z.land (Z.shiftr did SAMD_DID_SERIES_POS) SAMD_DID_SERIES_MASK) in
  let revision :=
    u8 (Z.land (Z.shiftr did SAMD_DID_REVISION_POS) SAMD_DID_REVISION_MASK) in
  let devsel :=
    u8 (Z.land (Z.shiftr did SAMD_DID_DEVSEL_POS) SAMD_DID_DEVSEL_MASK) in
  (* Family *)
  let '(samd_family, parts) :=
    if family =? 0 then (Some "D"%char, parts)
    else if family =? 1 then (Some "L"%char, samd_l21_parts)
    else if family =? 2 then (Some "C"%char, parts)
    else (None, parts) in
  (* Series *)
  let '(samd_series, parts) :=
    if series =? 0 then (20, parts)
    else if series =? 1 then (21, parts)
    else if series =? 2 then
      if family =? 1 then (22, samd_l22_parts) else (10, parts)
    else if series =? 3 then (11, parts)
    else if series =? 4 then (9, parts)
    else (0, parts) in
  (* Revision *)
  let samd_revision := ascii_of_N (Z.to_N (u8 (65 + revision))) in
  let blank := [zero; zero; zero] in
  if samd_series =? 20 then (* SAM D20 *)
    {| family := samd_family; series := samd_series; revision := samd_revision;
       pin := Some (if devsel / 5 =? 0 then "J"%char
                    else if devsel / 5 =? 1 then "G"%char
                    else if devsel / 5 =? 2 then "E"%char
                    else "u"%char);
       ram_size := 0x8000; flash_size := 0x40000;
       mem := Some (u8 (18 - devsel mod 5));
       variant := Some "A"%char; package := blank |}
  else if (samd_series =? 21) || (samd_series =? 22) then
    (* SAM D21/L21, SAM L22 *)
    let e := find_part parts devsel in
    {| family := samd_family; series := samd_series; revision := samd_revision;
       pin := option_map part_pin e;
       ram_size := 0x8000; flash_size := 0x40000;
       mem := option_map part_mem e;
       variant := option_map part_variant e; package := blank |}
  else if (samd_series =? 10) || (samd_series =? 11) then
    (* SAM D10, SAM D11 *)
    {| family := samd_family; series := samd_series; revision := samd_revision;
       pin := Some "D"%char;
       ram_size := 0x8000; flash_size := 0x40000;
       mem := Some (u8 (14 - devsel mod 3));
       variant := Some "A"%char;
       package := if devsel / 3 =? 0 then ["M"%char; zero; zero]
                  else if devsel / 3 =? 1 then ["S"%char; "S"%char; zero]
                  else blank |}
  else if samd_series =? 9 then (* SAM D09 *)
    if devsel =? 0 then
      {| family := samd_family; series := samd_series; revision := samd_revision;
         pin := Some "D"%char; ram_size := 4096; flash_size := 16384;
         mem := Some 14; variant := Some "A"%char;
         package := ["M"%char; zero; zero] |}
    else if devsel =? 7 then
      {| family := samd_family; series := samd_series; revision := samd_revision;
         pin := Some "C"%char; ram_size := 4096; flash_size := 8192;
         mem := Some 13; variant := Some "A"%char; package := blank |}
    else
      {| family := samd_family; series := samd_series; revision := samd_revision;
         pin := None; ram_size := 4096; flash_size := 0x40000;
         mem := None; variant := Some "A"%char; package := blank |}
  else
    {| family := samd_family; series := samd_series; revision := samd_revision;
       pin := None; ram_size := 0x8000; flash_size := 0x40000;
       mem := None; variant := None; package := blank |}.

(** The fields of a DID. *)
Definition did_family (did : Z) : Z := (did / 2 ^ 23) mod 64.
Definition did_series (did : Z) : Z := (did / 2 ^ 16) mod 32.
Definition did_revision (did : Z) : Z := (did / 2 ^ 8) mod 16.
Definition did_devsel (did : Z) : Z := did mod 256.

(** The table searched for a family and series. *)
Definition parts_of (fam ser : Z) : list samd_part :=
  if ser =? 1 then if fam =? 1 then samd_l21_parts else samd_d21_parts
  else samd_l22_parts.

(** The rows of a table before its end mark. *)
Fixpoint listed (parts : list samd_part) : list samd_part :=
  match parts with
  | [] => []
  | e :: parts' => if part_devsel e =? 0xFF then [] else e :: listed parts'
  end.

(** *** [samd_flash_size] and [samd_cmd_mbist] *)

Definition SAMD_DSU_ADDRESS : Z := SAMD_DSU_EXT_ACCESS + 0x4.
Definition SAMD_DSU_LENGTH : Z := SAMD_DSU_EXT_ACCESS + 0x8.
Definition SAMD_CTRL_MBIST : Z := Z.shiftl 1 3.

(** Returns the size (in bytes) of the current SAM D20's flash memory. *)
Definition samd_flash_size (b : bench) (t : target) : Z * target :=
  (* Read the Device ID *)
  let (did, t) := target_mem_read32 b t SAMD_DSU_DID in
  (* Mask off the device select bits *)
  let devsel := u8 (Z.land did SAMD_DID_DEVSEL_MASK) in
  (* Shift the maximum flash size (256KB) down as appropriate *)
  (Z.shiftr 0x40000 (devsel mod 5), t).

End Samd.

(* ================================================================== *)
(** ** ADIv5 engine ([src/target/adiv5.c])

    The file is taken as built for the probe: [PC_HOSTED] is 0 and
    [ENABLE_DEBUG] is not defined, so that the [DEBUG_WARN] and
    [DEBUG_INFO] lines and their arguments are not there.  The counting
    of references to DPs and APs is left out, and of the release of
    memory only the two places where [adiv5_dp_init] frees the DP and
    returns are recorded; no property below depends on them. *)

Module Adiv5.

(** *** What the file takes from its headers

    [adiv5.h], [cortexm.h] and [target.h] are not among the sources at
    hand.  The register addresses and bit fields they [#define] are
    collected here and every definition below is parametric in them. *)
Record header : Type := {
  (* DP registers *)
  ADIV5_DP_DPIDR : Z;
  ADIV5_DP_CTRLSTAT : Z;
  ADIV5_DP_TARGETID : Z;
  ADIV5_DP_SELECT : Z;
  ADIV5_DP_RDBUFF : Z;
  ADIV5_DP_ABORT_DAPABORT : Z;
  (* DPIDR and TARGETID fields *)
  ADIV5_DP_DPIDR_VERSION_MASK : Z;
  ADIV5_DP_DPIDR_VERSION_OFFSET : Z;
  ADIV5_DP_DPIDR_DESIGNER_MASK : Z;
  ADIV5_DP_DPIDR_DESIGNER_OFFSET : Z;
  ADIV5_DP_DPIDR_PARTNO_MASK : Z;
  ADIV5_DP_DPIDR_PARTNO_OFFSET : Z;
  ADIV5_DP_DPIDR_MINDP : Z;
  ADIV5_DP_DESIGNER_JEP106_CONT_MASK : Z;
  ADIV5_DP_DESIGNER_JEP106_CODE_MASK : Z;
  ADIV5_DP_TARGETID_TDESIGNER_MASK : Z;
  ADIV5_DP_TARGETID_TDESIGNER_OFFSET : Z;
  ADIV5_DP_TARGETID_TPARTNO_MASK : Z;
  ADIV5_DP_TARGETID_TPARTNO_OFFSET : Z;
  ADIV5_DP_TARGETSEL_TINSTANCE_OFFSET : Z;
  (* CTRL/STAT fields *)
  ADIV5_DP_CTRLSTAT_CSYSPWRUPACK : Z;
  ADIV5_DP_CTRLSTAT_CSYSPWRUPREQ : Z;
  ADIV5_DP_CTRLSTAT_CDBGPWRUPACK : Z;
  ADIV5_DP_CTRLSTAT_CDBGPWRUPREQ : Z;
  ADIV5_DP_CTRLSTAT_CDBGRSTACK : Z;
  ADIV5_DP_CTRLSTAT_CDBGRSTREQ : Z;
  ADIV5_DP_CTRLSTAT_TRNCNT : Z;
  (* AP registers and CSW fields *)
  ADIV5_AP_CSW : Z;
  ADIV5_AP_TAR : Z;
  ADIV5_AP_DRW : Z;
  ADIV5_AP_BASE : Z;
  ADIV5_AP_IDR : Z;
  ADIV5_AP_CSW_SIZE_BYTE : Z;
  ADIV5_AP_CSW_SIZE_HALFWORD : Z;
  ADIV5_AP_CSW_SIZE_WORD : Z;
  ADIV5_AP_CSW_SIZE_MASK : Z;
  ADIV5_AP_CSW_ADDRINC_SINGLE : Z;
  ADIV5_AP_CSW_ADDRINC_MASK : Z;
  ADIV5_AP_CSW_TRINPROG : Z;
  (* ROM table entries *)
  ADIV5_ROM_ROMENTRY_PRESENT : Z;
  ADIV5_ROM_ROMENTRY_OFFSET : Z;
  (* identification codes *)
  JTAG_IDCODE_ARM_DPv0 : Z;
  JEP106_MANUFACTURER_ARM : Z;
  JEP106_MANUFACTURER_STM : Z;
  JEP106_MANUFACTURER_ATMEL : Z;
  JEP106_MANUFACTURER_RASPBERRY : Z;
  JEP106_MANUFACTURER_ERRATA_STM32WX : Z;
  JEP106_MANUFACTURER_ERRATA_CS : Z;
  ASCII_CODE_FLAG : Z;
  (* Cortex-M debug registers *)
  CORTEXM_DHCSR : Z;
  CORTEXM_DHCSR_DBGKEY : Z;
  CORTEXM_DHCSR_C_DEBUGEN : Z;
  CORTEXM_DHCSR_C_HALT : Z;
  CORTEXM_DHCSR_S_HALT : Z;
  CORTEXM_DHCSR_S_RESET_ST : Z;
  CORTEXM_DEMCR : Z;
  CORTEXM_DEMCR_TRCENA : Z;
  CORTEXM_DEMCR_VC_HARDERR : Z;
  CORTEXM_DEMCR_VC_CORERESET : Z
}.

(** A sample instance, with the values of the ARM Debug Interface v5
    and ARMv7-M architecture documents the file refers to; it serves to
    run the definitions on concrete inputs. *)
Definition arm_header : header := {|
  ADIV5_DP_DPIDR := 0x0;
  ADIV5_DP_CTRLSTAT := 0x4;
  ADIV5_DP_TARGETID := 0x4;
  ADIV5_DP_SELECT := 0x8;
  ADIV5_DP_RDBUFF := 0xC;
  ADIV5_DP_ABORT_DAPABORT := 0x1;
  ADIV5_DP_DPIDR_VERSION_MASK := 0xF000;
  ADIV5_DP_DPIDR_VERSION_OFFSET := 12;
  ADIV5_DP_DPIDR_DESIGNER_MASK := 0xFFE;
  ADIV5_DP_DPIDR_DESIGNER_OFFSET := 1;
  ADIV5_DP_DPIDR_PARTNO_MASK := 0xFF00000;
  ADIV5_DP_DPIDR_PARTNO_OFFSET := 20;
  ADIV5_DP_DPIDR_MINDP := 0x10000;
  ADIV5_DP_DESIGNER_JEP106_CONT_MASK := 0x780;
  ADIV5_DP_DESIGNER_JEP106_CODE_MASK := 0x7F;
  ADIV5_DP_TARGETID_TDESIGNER_MASK := 0xFFE;
  ADIV5_DP_TARGETID_TDESIGNER_OFFSET := 1;
  ADIV5_DP_TARGETID_TPARTNO_MASK := 0xFFFF000;
  ADIV5_DP_TARGETID_TPARTNO_OFFSET := 12;
  ADIV5_DP_TARGETSEL_TINSTANCE_OFFSET := 28;
  ADIV5_DP_CTRLSTAT_CSYSPWRUPACK := 0x80000000;
  ADIV5_DP_CTRLSTAT_CSYSPWRUPREQ := 0x40000000;
  ADIV5_DP_CTRLSTAT_CDBGPWRUPACK := 0x20000000;
  ADIV5_DP_CTRLSTAT_CDBGPWRUPREQ := 0x10000000;
  ADIV5_DP_CTRLSTAT_CDBGRSTACK := 0x08000000;
  ADIV5_DP_CTRLSTAT_CDBGRSTREQ := 0x04000000;
  ADIV5_DP_CTRLSTAT_TRNCNT := 0x1000;
  ADIV5_AP_CSW := 0x100;
  ADIV5_AP_TAR := 0x104;
  ADIV5_AP_DRW := 0x10C;
  ADIV5_AP_BASE := 0x1F8;
  ADIV5_AP_IDR := 0x1FC;
  ADIV5_AP_CSW_SIZE_BYTE := 0;
  ADIV5_AP_CSW_SIZE_HALFWORD := 1;
  ADIV5_AP_CSW_SIZE_WORD := 2;
  ADIV5_AP_CSW_SIZE_MASK := 7;
  ADIV5_AP_CSW_ADDRINC_SINGLE := 0x10;
  ADIV5_AP_CSW_ADDRINC_MASK := 0x30;
  ADIV5_AP_CSW_TRINPROG := 0x80;
  ADIV5_ROM_ROMENTRY_PRESENT := 0x1;
  ADIV5_ROM_ROMENTRY_OFFSET := 0xFFFFF000;
  JTAG_IDCODE_ARM_DPv0 := 0x4BA00477;
  JEP106_MANUFACTURER_ARM := 0x43B;
  JEP106_MANUFACTURER_STM := 0x020;
  JEP106_MANUFACTURER_ATMEL := 0x01F;
  JEP106_MANUFACTURER_RASPBERRY := 0x913;
  JEP106_MANUFACTURER_ERRATA_STM32WX := 0x0;
  JEP106_MANUFACTURER_ERRATA_CS := 0x555;
  ASCII_CODE_FLAG := 0x800;
  CORTEXM_DHCSR := 0xE000EDF0;
  CORTEXM_DHCSR_DBGKEY := 0xA05F0000;
  CORTEXM_DHCSR_C_DEBUGEN := 0x1;
  CORTEXM_DHCSR_C_HALT := 0x2;
  CORTEXM_DHCSR_S_HALT := 0x20000;
  CORTEXM_DHCSR_S_RESET_ST := 0x2000000;
  CORTEXM_DEMCR := 0xE000EDFC;
  CORTEXM_DEMCR_TRCENA := 0x1000000;
  CORTEXM_DEMCR_VC_HARDERR := 0x400;
  CORTEXM_DEMCR_VC_CORERESET := 0x1
|}.

(** Modelled from the spec: [enum align] is declared in [target.h],
    which is not among the sources; the spec has widths of [2^k] bytes
    over byte, half-word and word.  The numbering is fixed by how the
    file uses it: [1 << align] is the width in bytes of an access and
    [len >>= align] the number of accesses. *)
Inductive align : Type :=
| ALIGN_BYTE
| ALIGN_HALFWORD
| ALIGN_WORD
| ALIGN_DWORD.

Definition align_val (a : align) : Z :=
  match a with
  | ALIGN_BYTE => 0
  | ALIGN_HALFWORD => 1
  | ALIGN_WORD => 2
  | ALIGN_DWORD => 3
  end.

(** Modelled from the spec: the macro [MIN(x, y)] of [general.h], which
    is not among the sources, at type [enum align]; the spec has the
    width be the minimum of the two alignments. *)
Definition MIN (x y : align) : align :=
  if align_val x <? align_val y then x else y.

(** [#define ALIGNOF(x) (((x)&3) == 0 ? ALIGN_WORD :
                         (((x)&1) == 0 ? ALIGN_HALFWORD : ALIGN_BYTE))] *)
Definition ALIGNOF (x : Z) : align :=
  if Z.land x 3 =? 0 then ALIGN_WORD
  else if Z.land x 1 =? 0 then ALIGN_HALFWORD
  else ALIGN_BYTE.

(** *** The debug port, as the link sees it *)

Inductive rnw : Type := ADIV5_LOW_WRITE | ADIV5_LOW_READ.

(** The register accesses the file makes through [adiv5_dp_write],
    [adiv5_dp_read] and [adiv5_dp_low_access]. *)
Inductive access : Type :=
| DpWrite (addr val : Z)
| DpRead (addr : Z)
| LowAccess (rw : rnw) (addr val : Z).

(** The target end of the link: the value returned by the [n]-th
    access that reads. *)
Definition wire : Type := nat -> Z.

(** Accesses answered and accesses issued so far. *)
Record link : Type := {
  answered : nat;
  issued : list access
}.

Definition link_init : link := {| answered := 0; issued := [] |}.

Definition adiv5_dp_write (l : link) (addr val : Z) : link :=
  {| answered := answered l; issued := issued l ++ [DpWrite addr val] |}.

Definition adiv5_dp_read (w : wire) (l : link) (addr : Z) : Z * link :=
  (w (answered l),
   {| answered := S (answered l); issued := issued l ++ [DpRead addr] |}).

(** The value returned for a write is not looked at by any caller in
    the file and does not count as an answer. *)
Definition adiv5_dp_low_access (w : wire) (l : link) (rw : rnw) (addr val : Z)
  : Z * link :=
  match rw with
  | ADIV5_LOW_WRITE =>
      (0, {| answered := answered l;
             issued := issued l ++ [LowAccess rw addr val] |})
  | ADIV5_LOW_READ =>
      (w (answered l),
       {| answered := S (answered l);
          issued := issued l ++ [LowAccess rw addr val] |})
  end.

(** [ADIv5_DP_t] and [ADIv5_AP_t], with the fields the file reads or
    writes. *)
Record ADIv5_DP_t : Type := {
  dp_version : Z;
  dp_designer_code : Z;
  dp_partno : Z;
  dp_mindp : bool;
  dp_instance : Z;
  dp_target_designer_code : Z;
  dp_target_partno : Z;
  dp_targetsel : Z
}.

Record ADIv5_AP_t : Type := {
  ap_dp : ADIv5_DP_t;
  ap_apsel : Z;
  ap_idr : Z;
  ap_base : Z;
  ap_csw : Z;
  ap_designer_code : Z;
  ap_partno : Z;
  ap_cortexm_demcr : Z
}.

(** Caller memory handed over as [void *]: a list of bytes and an
    index into it.  Multi-byte stores are little-endian, as on the
    probe; a store that falls outside the list is dropped. *)
Definition buffer : Type := list Z.

Fixpoint store (buf : buffer) (pos : nat) (bytes : list Z) : buffer :=
  match bytes with
  | [] => buf
  | x :: bytes' =>
      match pos, buf with
      | _, [] => []
      | O, _ :: buf' => x :: store buf' O bytes'
      | S pos', y :: buf' => y :: store buf' pos' bytes
      end
  end.

Definition byte_of (v : Z) (i : nat) : Z :=
  Z.land (Z.shiftr v (8 * Z.of_nat i)) 0xFF.

Definition le_bytes (n : nat) (v : Z) : list Z :=
  map (byte_of v) (seq 0 n).

Fixpoint le_value (bytes : list Z) : Z :=
  match bytes with
  | [] => 0
  | x :: bytes' => Z.lor x (Z.shiftl (le_value bytes') 8)
  end.

Definition load (buf : buffer) (pos n : nat) : Z :=
  le_value (map (fun i => nth (pos + i) buf 0) (seq 0 n)).

Section Engine.
Context (hd : header) (w : wire).

(** [firmware_ap_write] and [firmware_ap_read], which [adiv5_dp_init]
    installs as [dp->ap_write] and [dp->ap_read] on the probe. *)
Definition firmware_ap_write (l : link) (ap : ADIv5_AP_t) (addr value : Z) : link :=
  let l := adiv5_dp_write l (ADIV5_DP_SELECT hd)
             (Z.lor (Z.shiftl (ap_apsel ap) 24) (Z.land addr 0xF0)) in
  adiv5_dp_write l addr value.

Definition firmware_ap_read (l : link) (ap : ADIv5_AP_t) (addr : Z) : Z * link :=
  let l := adiv5_dp_write l (ADIV5_DP_SELECT hd)
             (Z.lor (Z.shiftl (ap_apsel ap) 24) (Z.land addr 0xF0)) in
  adiv5_dp_read w l addr.

Definition adiv5_ap_write := firmware_ap_write.
Definition adiv5_ap_read := firmware_ap_read.

(** Program the CSW and TAR for sequencial access at a given width *)
Definition ap_mem_access_setup (l : link) (ap : ADIv5_AP_t) (addr : Z) (a : align)
  : link :=
  let csw := Z.lor (ap_csw ap) (ADIV5_AP_CSW_ADDRINC_SINGLE hd) in
  let csw :=
    match a with
    | ALIGN_BYTE => Z.lor csw (ADIV5_AP_CSW_SIZE_BYTE hd)
    | ALIGN_HALFWORD => Z.lor csw (ADIV5_AP_CSW_SIZE_HALFWORD hd)
    | ALIGN_DWORD | ALIGN_WORD => Z.lor csw (ADIV5_AP_CSW_SIZE_WORD hd)
    end in
  let l := adiv5_ap_write l ap (ADIV5_AP_CSW hd) csw in
  snd (adiv5_dp_low_access w l ADIV5_LOW_WRITE (ADIV5_AP_TAR hd) addr).

(** Extract read data from data lane based on align and src address *)
Definition extract (dest : buffer) (pos : nat) (src val : Z) (a : align)
  : buffer * nat :=
  let dest :=
    match a with
    | ALIGN_BYTE =>
        store dest pos
          (le_bytes 1 (Z.land (Z.shiftr val (Z.shiftl (Z.land src 0x3) 3)) 0xFF))
    | ALIGN_HALFWORD =>
        store dest pos
          (le_bytes 2 (Z.land (Z.shiftr val (Z.shiftl (Z.land src 0x2) 3)) 0xFFFF))
    | ALIGN_DWORD | ALIGN_WORD => store dest pos (le_bytes 4 val)
    end in
  (dest, (pos + Z.to_nat (Z.shiftl 1 (align_val a)))%nat).

(** The [while (--len)] loop of [firmware_mem_read], for [n]
    iterations. *)
Fixpoint mem_read_loop (n : nat) (a : align) (dest : buffer) (pos : nat)
  (src osrc : Z) (l : link) : buffer * nat * Z * link :=
  match n with
  | O => (dest, pos, src, l)
  | S n' =>
      let (tmp, l) := adiv5_dp_low_access w l ADIV5_LOW_READ (ADIV5_AP_DRW hd) 0 in
      let (dest, pos) := extract dest pos src tmp a in
      let src := u32 (src + Z.shiftl 1 (align_val a)) in
      (* Check for 10 bit address overflow *)
      if tst (Z.lxor src osrc) 0xfffffc00 then
        let osrc := src in
        let l := snd (adiv5_dp_low_access w l ADIV5_LOW_WRITE (ADIV5_AP_TAR hd) src) in
        let l := snd (adiv5_dp_low_access w l ADIV5_LOW_READ (ADIV5_AP_DRW hd) 0) in
        mem_read_loop n' a dest pos src osrc l
      else mem_read_loop n' a dest pos src osrc l
  end.

(** [firmware_mem_read(ap, dest, src, len)].  [--len] cannot wrap:
    [len] is not zero and [1 << align] divides it. *)
Definition firmware_mem_read (l : link) (ap : ADIv5_AP_t) (dest : buffer)
  (src len : Z) : buffer * link :=
  let osrc := src in
  let a := MIN (ALIGNOF src) (ALIGNOF len) in
  if len =? 0 then (dest, l)
  else
    let len := Z.shiftr len (align_val a) in
    let l := ap_mem_access_setup l ap src a in
    let l := snd (adiv5_dp_low_access w l ADIV5_LOW_READ (ADIV5_AP_DRW hd) 0) in
    let '(dest, pos, src, l) :=
      mem_read_loop (Z.to_nat (len - 1)) a dest 0 src osrc l in
    let (tmp, l) := adiv5_dp_low_access w l ADIV5_LOW_READ (ADIV5_DP_RDBUFF hd) 0 in
    (fst (extract dest pos src tmp a), l).

(** The [while (len--)] loop of [firmware_mem_write_sized], for [n]
    iterations. *)
Fixpoint mem_write_loop (n : nat) (a : align) (src : buffer) (pos : nat)
  (dest odest : Z) (l : link) : link :=
  match n with
  | O => l
  | S n' =>
      (* Pack data into correct data lane *)
      let tmp :=
        match a with
        | ALIGN_BYTE => u32 (Z.shiftl (load src pos 1) (Z.shiftl (Z.land dest 3) 3))
        | ALIGN_HALFWORD =>
            u32 (Z.shiftl (load src pos 2) (Z.shiftl (Z.land dest 2) 3))
        | ALIGN_DWORD | ALIGN_WORD => load src pos 4
        end in
      let pos := (pos + Z.to_nat (Z.shiftl 1 (align_val a)))%nat in
      let dest := u32 (dest + Z.shiftl 1 (align_val a)) in
      let l := snd (adiv5_dp_low_access w l ADIV5_LOW_WRITE (ADIV5_AP_DRW hd) tmp) in
      (* Check for 10 bit address overflow *)
      if tst (Z.lxor dest odest) 0xfffffc00 then
        let odest := dest in
        let l := snd (adiv5_dp_low_access w l ADIV5_LOW_WRITE (ADIV5_AP_TAR hd) dest) in
        mem_write_loop n' a src pos dest odest l
      else mem_write_loop n' a src pos dest odest l
  end.

Definition firmware_mem_write_sized (l : link) (ap : ADIv5_AP_t) (dest : Z)
  (src : buffer) (len : Z) (a : align) : link :=
  let odest := dest in
  let len := Z.shiftr len (align_val a) in
  let l := ap_mem_access_setup l ap dest a in
  let l := mem_write_loop (Z.to_nat len) a src 0 dest odest l in
  (* Make sure this write is complete by doing a dummy read *)
  snd (adiv5_dp_read w l (ADIV5_DP_RDBUFF hd)).

Definition adiv5_mem_write_sized := firmware_mem_write_sized.
Definition adiv5_mem_read := firmware_mem_read.

Definition adiv5_mem_write (l : link) (ap : ADIv5_AP_t) (dest : Z)
  (src : buffer) (len : Z) : link :=
  let a := MIN (ALIGNOF dest) (ALIGNOF len) in
  adiv5_mem_write_sized l ap dest src len a.

End Engine.

(** *** The shape of a transfer

    Addresses and accesses of a transfer by position, to state what
    the two loops put on the link. *)

(** The transfer address after [i] words of width [1 << a], starting
    at [addr]. *)
Fixpoint transfer_addr (a : align) (addr : Z) (i : nat) : Z :=
  match i with
  | O => addr
  | S i' => u32 (transfer_addr a addr i' + Z.shiftl 1 (align_val a))
  end.

(** The 10-bit overflow test of the loops. *)
Definition crosses (new old : Z) : bool := tst (Z.lxor new old) 0xfffffc00.

(** The address TAR was last programmed with, after [i] words of a
    transfer that started at [addr] with TAR holding [oaddr]. *)
Fixpoint tar_shadow (a : align) (addr oaddr : Z) (i : nat) : Z :=
  match i with
  | O => oaddr
  | S i' =>
      if crosses (transfer_addr a addr (S i')) (tar_shadow a addr oaddr i')
      then transfer_addr a addr (S i')
      else tar_shadow a addr oaddr i'
  end.

(** Whether TAR is programmed again after word [i]. *)
Definition reprograms (a : align) (addr oaddr : Z) (i : nat) : bool :=
  crosses (transfer_addr a addr (S i)) (tar_shadow a addr oaddr i).

(** Accesses for word [i] of a read: the DRW read and, on a crossing,
    the TAR write and the DRW read that primes the pipeline again. *)
Definition read_word_accesses (hd : header) (a : align) (addr oaddr : Z) (i : nat)
  : list access :=
  LowAccess ADIV5_LOW_READ (ADIV5_AP_DRW hd) 0 ::
  (if reprograms a addr oaddr i then
     [LowAccess ADIV5_LOW_WRITE (ADIV5_AP_TAR hd) (transfer_addr a addr (S i));
      LowAccess ADIV5_LOW_READ (ADIV5_AP_DRW hd) 0]
   else []).

(** The word put on DRW for the bytes at [pos] of [src], going to
    [dest]. *)
Definition lane_word (a : align) (src : buffer) (pos : nat) (dest : Z) : Z :=
  match a with
  | ALIGN_BYTE => u32 (Z.shiftl (load src pos 1) (Z.shiftl (Z.land dest 3) 3))
  | ALIGN_HALFWORD => u32 (Z.shiftl (load src pos 2) (Z.shiftl (Z.land dest 2) 3))
  | ALIGN_DWORD | ALIGN_WORD => load src pos 4
  end.

(** Accesses for word [i] of a write: the DRW write and, on a crossing,
    the TAR write. *)
Definition write_word_accesses (hd : header) (a : align) (src : buffer) (pos : nat)
  (addr oaddr : Z) (i : nat) : list access :=
  LowAccess ADIV5_LOW_WRITE (ADIV5_AP_DRW hd)
    (lane_word a src (pos + i * Z.to_nat (Z.shiftl 1 (align_val a)))
       (transfer_addr a addr i)) ::
  (if reprograms a addr oaddr i then
     [LowAccess ADIV5_LOW_WRITE (ADIV5_AP_TAR hd) (transfer_addr a addr (S i))]
   else []).

(** The CSW size field for a width. *)
Definition csw_size (hd : header) (a : align) : Z :=
  match a with
  | ALIGN_BYTE => ADIV5_AP_CSW_SIZE_BYTE hd
  | ALIGN_HALFWORD => ADIV5_AP_CSW_SIZE_HALFWORD hd
  | ALIGN_DWORD | ALIGN_WORD => ADIV5_AP_CSW_SIZE_WORD hd
  end.

(** Accesses of [ap_mem_access_setup]. *)
Definition setup_accesses (hd : header) (ap : ADIv5_AP_t) (addr : Z) (a : align)
  : list access :=
  [DpWrite (ADIV5_DP_SELECT hd)
     (Z.lor (Z.shiftl (ap_apsel ap) 24) (Z.land (ADIV5_AP_CSW hd) 0xF0));
   DpWrite (ADIV5_AP_CSW hd)
     (Z.lor (Z.lor (ap_csw ap) (ADIV5_AP_CSW_ADDRINC_SINGLE hd)) (csw_size hd a));
   LowAccess ADIV5_LOW_WRITE (ADIV5_AP_TAR hd) addr].

(** The value last written to register [reg], if any. *)
Fixpoint last_write (reg : Z) (log : list access) : option Z :=
  match log with
  | [] => None
  | x :: log' =>
      match last_write reg log' with
      | Some v => Some v
      | None =>
          match x with
          | DpWrite addr val => if addr =? reg then Some val else None
          | LowAccess ADIV5_LOW_WRITE addr val =>
              if addr =? reg then Some val else None
          | _ => None
          end
      end
  end.

(** A sample AP: selector 0, the CSW of an AHB-AP. *)
Definition sample_dp : ADIv5_DP_t :=
  {| dp_version := 1; dp_designer_code := 0x43B; dp_partno := 0xBA;
     dp_mindp := false; dp_instance := 0; dp_target_designer_code := 0;
     dp_target_partno := 0; dp_targetsel := 0 |}.

Definition sample_ap : ADIv5_AP_t :=
  {| ap_dp := sample_dp; ap_apsel := 0; ap_idr := 0x24770011;
     ap_base := 0xE00FF003; ap_csw := 0x23000040;
     ap_designer_code := 0; ap_partno := 0; ap_cortexm_demcr := 0 |}.

(** *** [cortexm_initial_halt] *)

(** Calls into the rest of the firmware, recorded as made. *)
Inductive call : Type :=
| PlatformTimeoutSet (ms : Z)
| PlatformDelay (ms : Z)
| PlatformNrstSetVal (assert : bool)
| Adiv5DpAbort (abort : Z)
| CortexmProbe (ap : ADIv5_AP_t)
| CortexaProbe (ap : ADIv5_AP_t) (addr : Z)
| KinetisMdmProbe (ap : ADIv5_AP_t)
| Nrf51MdmProbe (ap : ADIv5_AP_t)
| Efm32AapProbe (ap : ADIv5_AP_t)
| RpRescueProbe
| TargetHaltResumeAll
| FreeDp.

(** The probe: the link, how often the clock was read, a timeout
    tested, the error state of the DP asked for and memory allocated,
    and the calls made. *)
Record probe : Type := {
  lnk : link;
  clock : nat;
  polls : nat;
  asked : nat;
  allocs : nat;
  calls : list call
}.

Definition probe_init : probe :=
  {| lnk := link_init; clock := 0; polls := 0; asked := 0; allocs := 0;
     calls := [] |}.

Definition on_link (p : probe) (l : link) : probe :=
  {| lnk := l; clock := clock p; polls := polls p; asked := asked p;
     allocs := allocs p; calls := calls p |}.

Definition called (p : probe) (c : call) : probe :=
  {| lnk := lnk p; clock := clock p; polls := polls p; asked := asked p;
     allocs := allocs p; calls := calls p ++ [c] |}.

(** [adiv5_mem_read32]: a word read into a local and returned. *)
Definition adiv5_mem_read32 (hd : header) (w : wire) (l : link)
  (ap : ADIv5_AP_t) (addr : Z) : Z * link :=
  let (ret, l) := adiv5_mem_read hd w l ap [0; 0; 0; 0] addr 4 in
  (load ret 0 4, l).

Section Halt.
Context (hd : header) (w : wire).
(** [platform_time_ms()] at its [n]-th call and
    [platform_timeout_is_expired(&halt_timeout)] at its [n]-th call; the
    timeout is set from [cortexm_wait_timeout] before the loop. *)
Context (time_ms : nat -> Z) (expired : nat -> bool).
(** The globals [connect_assert_nrst] and [cortexm_wait_timeout]. *)
Context (connect_assert_nrst : bool) (cortexm_wait_timeout : Z).

Definition platform_time_ms (p : probe) : Z * probe :=
  (time_ms (clock p),
   {| lnk := lnk p; clock := S (clock p); polls := polls p; asked := asked p;
      allocs := allocs p; calls := calls p |}).

Definition platform_timeout_is_expired (p : probe) : bool * probe :=
  (expired (polls p),
   {| lnk := lnk p; clock := clock p; polls := S (polls p); asked := asked p;
      allocs := allocs p; calls := calls p |}).

Definition dhcsr_ctl : Z :=
  Z.lor (Z.lor (CORTEXM_DHCSR_DBGKEY hd) (CORTEXM_DHCSR_C_DEBUGEN hd))
        (CORTEXM_DHCSR_C_HALT hd).

Definition dhcsr_valid : Z :=
  Z.lor (CORTEXM_DHCSR_S_HALT hd) (CORTEXM_DHCSR_C_DEBUGEN hd).

(** The first half of the loop body: write the halt request and read
    DHCSR back, with the new [trncnt]. *)
Definition halt_attempt (ap : ADIv5_AP_t) (use_low_access : bool)
  (ctrlstat start_time trncnt : Z) (p : probe) : Z * Z * probe :=
  if use_low_access then
    let l := snd (adiv5_dp_low_access w (lnk p) ADIV5_LOW_WRITE (ADIV5_DP_CTRLSTAT hd)
                    (Z.lor ctrlstat (u32 (trncnt * ADIV5_DP_CTRLSTAT_TRNCNT hd)))) in
    let l := snd (adiv5_dp_low_access w l ADIV5_LOW_WRITE (ADIV5_AP_DRW hd) dhcsr_ctl) in
    let p := on_link p l in
    let (trncnt, p) :=
      if trncnt <? 0xfff then
        let (now, p) := platform_time_ms p in
        (u32 (trncnt + u32 (u32 (now - start_time) * 8)), p)
      else (0xfff, p) in
    let (dhcsr, l) := adiv5_dp_low_access w (lnk p) ADIV5_LOW_READ (ADIV5_AP_DRW hd) 0 in
    (dhcsr, trncnt, on_link p l)
  else
    let l := adiv5_mem_write hd w (lnk p) ap (CORTEXM_DHCSR hd)
               (le_bytes 4 dhcsr_ctl) 4 in
    let (dhcsr, l) := adiv5_mem_read32 hd w l ap (CORTEXM_DHCSR hd) in
    (dhcsr, trncnt, on_link p l).

(** [while (!platform_timeout_is_expired(&halt_timeout)) { ... }
     return 0;] *)
Fixpoint halt_loop (fuel : nat) (ap : ADIv5_AP_t) (use_low_access : bool)
  (ctrlstat start_time trncnt : Z) (reset_seen : bool) (p : probe)
  : option (Z * probe) :=
  match fuel with
  | O => None
  | S fuel' =>
      let (e, p) := platform_timeout_is_expired p in
      if e then Some (0, p)
      else
        let '(dhcsr, trncnt, p) :=
          halt_attempt ap use_low_access ctrlstat start_time trncnt p in
        if negb (dhcsr =? 0xffffffff)       (* Invalid read *)
           && (Z.land dhcsr 0xf000fff0 =? 0) (* Check RAZ bits *)
        then
          if tst dhcsr (CORTEXM_DHCSR_S_RESET_ST hd) && negb reset_seen then
            if connect_assert_nrst then Some (dhcsr, p)
            else halt_loop fuel' ap use_low_access ctrlstat start_time trncnt true p
          else if Z.land dhcsr dhcsr_valid =? dhcsr_valid (* Halted *)
          then Some (dhcsr, p)
          else halt_loop fuel' ap use_low_access ctrlstat start_time trncnt
                 reset_seen p
        else halt_loop fuel' ap use_low_access ctrlstat start_time trncnt
               reset_seen p
  end.

(** The state in which the loop is entered. *)
Definition halt_entry (ap : ADIv5_AP_t) (p : probe) : Z * Z * probe :=
  let (ctrlstat, l) := adiv5_dp_read w (lnk p) (ADIV5_DP_CTRLSTAT hd) in
  let use_low_access := negb (dp_mindp (ap_dp ap)) in
  let p := called p (PlatformTimeoutSet cortexm_wait_timeout) in
  let l :=
    if use_low_access then
      (* ap_mem_access_setup() sets ADIV5_AP_CSW_ADDRINC_SINGLE -> unusable!*)
      let l := adiv5_ap_write hd l ap (ADIV5_AP_CSW hd)
                 (Z.lor (ap_csw ap) (ADIV5_AP_CSW_SIZE_WORD hd)) in
      snd (adiv5_dp_low_access w l ADIV5_LOW_WRITE (ADIV5_AP_TAR hd) (CORTEXM_DHCSR hd))
    else l in
  let (start_time, p) := platform_time_ms (on_link p l) in
  (ctrlstat, start_time, p).

Definition cortexm_initial_halt (fuel : nat) (ap : ADIv5_AP_t) (p : probe)
  : option (Z * probe) :=
  let '(ctrlstat, start_time, p) := halt_entry ap p in
  halt_loop fuel ap (negb (dp_mindp (ap_dp ap))) ctrlstat start_time 0x80 false p.

(** **** The samples of a run

    What the loop would see in its [k]-th iteration, were it not left
    before. *)

(** [trncnt] and the probe at the head of iteration [k]. *)
Fixpoint halt_round (ap : ADIv5_AP_t) (use_low_access : bool)
  (ctrlstat start_time trncnt : Z) (p : probe) (k : nat) : Z * probe :=
  match k with
  | O => (trncnt, p)
  | S k' =>
      let '(_, trncnt, p) :=
        halt_attempt ap use_low_access ctrlstat start_time trncnt
          (snd (platform_timeout_is_expired p)) in
      halt_round ap use_low_access ctrlstat start_time trncnt p k'
  end.

Definition round_expired (ap : ADIv5_AP_t) (use_low_access : bool)
  (ctrlstat start_time trncnt : Z) (p : probe) (k : nat) : bool :=
  let (_, p) := halt_round ap use_low_access ctrlstat start_time trncnt p k in
  fst (platform_timeout_is_expired p).

Definition round_dhcsr (ap : ADIv5_AP_t) (use_low_access : bool)
  (ctrlstat start_time trncnt : Z) (p : probe) (k : nat) : Z :=
  let (trncnt, p) := halt_round ap use_low_access ctrlstat start_time trncnt p k in
  fst (fst (halt_attempt ap use_low_access ctrlstat start_time trncnt
              (snd (platform_timeout_is_expired p)))).

(** The samples of [cortexm_initial_halt] itself. *)
Definition halt_expired (ap : ADIv5_AP_t) (p : probe) (k : nat) : bool :=
  let '(ctrlstat, start_time, p) := halt_entry ap p in
  round_expired ap (negb (dp_mindp (ap_dp ap))) ctrlstat start_time 0x80 p k.

Definition halt_dhcsr (ap : ADIv5_AP_t) (p : probe) (k : nat) : Z :=
  let '(ctrlstat, start_time, p) := halt_entry ap p in
  round_dhcsr ap (negb (dp_mindp (ap_dp ap))) ctrlstat start_time 0x80 p k.

(** **** What the loop makes of a list of samples *)

(** A sample that is dropped: all ones, or a reserved bit set. *)
Definition discarded (dhcsr : Z) : bool :=
  (dhcsr =? 0xFFFFFFFF) || tst dhcsr 0xF000FFF0.

(** A sample with both C_DEBUGEN and S_HALT. *)
Definition halted (dhcsr : Z) : bool :=
  Z.land dhcsr dhcsr_valid =? dhcsr_valid.

(** The value the samples make the function return, if any of them
    does, with [nrst] for [connect_assert_nrst]. *)
Fixpoint halt_scan (nrst reset_seen : bool) (samples : list Z) : option Z :=
  match samples with
  | [] => None
  | dhcsr :: rest =>
      if discarded dhcsr then halt_scan nrst reset_seen rest
      else if tst dhcsr (CORTEXM_DHCSR_S_RESET_ST hd) && negb reset_seen then
        if nrst then Some dhcsr else halt_scan nrst true rest
      else if halted dhcsr then Some dhcsr
      else halt_scan nrst reset_seen rest
  end.

End Halt.

(** *** ROM tables and components *)

(* Values from ST RM0436 (STM32MP157), 66.9 APx_IDR
 * and ST RM0438 (STM32L5) 52.3.1, AP_IDR *)
Definition ARM_AP_TYPE_AHB : Z := 1.

(* ROM table CIDR values *)
Definition CIDR0_OFFSET : Z := 0xFF0.

Definition CID_PREAMBLE : Z := 0xB105000D.
Definition CID_CLASS_MASK : Z := 0x0000F000.
Definition CID_CLASS_SHIFT : Z := 12.

Inductive cid_class : Type :=
| cidc_gvc
| cidc_romtab
| cidc_dc
| cidc_ptb
| cidc_dess
| cidc_gipc
| cidc_sys
| cidc_unknown.

Definition cid_class_val (c : cid_class) : Z :=
  match c with
  | cidc_gvc => 0x0
  | cidc_romtab => 0x1
  | cidc_dc => 0x9
  | cidc_ptb => 0xB
  | cidc_dess => 0xD
  | cidc_gipc => 0xE
  | cidc_sys => 0xF
  | cidc_unknown => 0x10
  end.

Definition PIDR0_OFFSET : Z := 0xFE0.
Definition PIDR4_OFFSET : Z := 0xFD0.

Definition PIDR_JEP106_CONT_OFFSET : Z := 32.
Definition PIDR_JEP106_CONT_MASK : Z := Z.shiftl 0xF PIDR_JEP106_CONT_OFFSET.
Definition PIDR_JEP106_USED_OFFSET : Z := 19.
Definition PIDR_JEP106_USED : Z := Z.shiftl 1 PIDR_JEP106_USED_OFFSET.
Definition PIDR_JEP106_CODE_OFFSET : Z := 12.
Definition PIDR_JEP106_CODE_MASK : Z := Z.shiftl 0x7F PIDR_JEP106_CODE_OFFSET.
Definition PIDR_PN_MASK : Z := 0xFFF.

Definition DEVTYPE_OFFSET : Z := 0xFCC.
Definition DEVARCH_OFFSET : Z := 0xFBC.

Definition DEVTYPE_MASK : Z := 0x000000FF.
Definition DEVARCH_PRESENT : Z := Z.shiftl 1 20.
Definition DEVARCH_ARCHID_MASK : Z := 0x0000FFFF.

Inductive arm_arch : Type :=
| aa_nosupport
| aa_cortexm
| aa_cortexa
| aa_end.

Record lut_entry_t : Type := lut_entry {
  part_number : Z;
  dev_type : Z;
  arch_id : Z;
  arch : arm_arch;
  cidc : cid_class
}.

Definition arm_component_lut : list lut_entry_t := [
  lut_entry 0x000 0x00 0 aa_cortexm cidc_gipc;
  lut_entry 0x001 0x00 0 aa_nosupport cidc_unknown;
  lut_entry 0x002 0x00 0 aa_nosupport cidc_unknown;
  lut_entry 0x003 0x00 0 aa_nosupport cidc_unknown;
  lut_entry 0x008 0x00 0 aa_cortexm cidc_gipc;
  lut_entry 0x00a 0x00 0 aa_nosupport cidc_unknown;
  lut_entry 0x00b 0x00 0 aa_nosupport cidc_unknown;
  lut_entry 0x00c 0x00 0 aa_cortexm cidc_gipc;
  lut_entry 0x00d 0x00 0 aa_nosupport cidc_unknown;
  lut_entry 0x00e 0x00 0 aa_nosupport cidc_unknown;
  lut_entry 0x101 0x00 0 aa_nosupport cidc_unknown;
  lut_entry 0x471 0x00 0 aa_nosupport cidc_unknown;
  lut_entry 0x490 0x00 0 aa_nosupport cidc_unknown;
  lut_entry 0x4c0 0x00 0 aa_nosupport cidc_unknown;
  lut_entry 0x4c3 0x00 0 aa_nosupport cidc_unknown;
  lut_entry 0x4c4 0x00 0 aa_nosupport cidc_unknown;
  lut_entry 0x4c7 0x00 0 aa_nosupport cidc_unknown;
  lut_entry 0x4c8 0x00 0 aa_nosupport cidc_unknown;
  lut_entry 0x906 0x14 0 aa_nosupport cidc_unknown;
  lut_entry 0x907 0x21 0 aa_nosupport cidc_unknown;
  lut_entry 0x908 0x12 0 aa_nosupport cidc_unknown;
  lut_entry 0x910 0x00 0 aa_nosupport cidc_unknown;
  lut_entry 0x912 0x11 0 aa_nosupport cidc_unknown;
  lut_entry 0x913 0x00 0 aa_nosupport cidc_unknown;
  lut_entry 0x914 0x11 0 aa_nosupport cidc_unknown;
  lut_entry 0x917 0x00 0 aa_nosupport cidc_unknown;
  lut_entry 0x920 0x00 0 aa_nosupport cidc_unknown;
  lut_entry 0x921 0x00 0 aa_nosupport cidc_unknown;
  lut_entry 0x922 0x00 0 aa_nosupport cidc_unknown;
  lut_entry 0x923 0x11 0 aa_nosupport cidc_unknown;
  lut_entry 0x924 0x13 0 aa_nosupport cidc_unknown;
  lut_entry 0x925 0x13 0 aa_nosupport cidc_unknown;
  lut_entry 0x930 0x00 0 aa_nosupport cidc_unknown;
  lut_entry 0x932 0x31 0x0a31 aa_nosupport cidc_unknown;
  lut_entry 0x941 0x00 0 aa_nosupport cidc_unknown;
  lut_entry 0x950 0x00 0 aa_nosupport cidc_unknown;
  lut_entry 0x955 0x00 0 aa_nosupport cidc_unknown;
  lut_entry 0x956 0x13 0 aa_nosupport cidc_unknown;
  lut_entry 0x95f 0x00 0 aa_nosupport cidc_unknown;
  lut_entry 0x961 0x32 0 aa_nosupport cidc_unknown;
  lut_entry 0x962 0x00 0 aa_nosupport cidc_unknown;
  lut_entry 0x963 0x63 0x0a63 aa_nosupport cidc_unknown;
  lut_entry 0x975 0x13 0x4a13 aa_nosupport cidc_unknown;
  lut_entry 0x9a0 0x00 0 aa_nosupport cidc_unknown;
  lut_entry 0x9a1 0x11 0 aa_nosupport cidc_unknown;
  lut_entry 0x9a6 0x14 0x1a14 aa_nosupport cidc_dc;
  lut_entry 0x9a9 0x11 0 aa_nosupport cidc_unknown;
  lut_entry 0x9a5 0x00 0 aa_nosupport cidc_unknown;
  lut_entry 0x9a7 0x16 0 aa_nosupport cidc_unknown;
  lut_entry 0x9af 0x00 0 aa_nosupport cidc_unknown;
  lut_entry 0xc05 0x00 0 aa_cortexa cidc_dc;
  lut_entry 0xc07 0x15 0 aa_cortexa cidc_dc;
  lut_entry 0xc08 0x00 0 aa_cortexa cidc_dc;
  lut_entry 0xc09 0x00 0 aa_cortexa cidc_dc;
  lut_entry 0xc0f 0x00 0 aa_nosupport cidc_unknown;
  lut_entry 0xc14 0x00 0 aa_nosupport cidc_unknown;
  lut_entry 0xcd0 0x00 0 aa_nosupport cidc_unknown;
  lut_entry 0xd20 0x00 0x2a04 aa_cortexm cidc_dc;
  lut_entry 0xd20 0x11 0 aa_nosupport cidc_dc;
  lut_entry 0xd20 0x13 0 aa_nosupport cidc_dc;
  lut_entry 0xd20 0x31 0x0a31 aa_nosupport cidc_dc;
  lut_entry 0xd20 0x00 0x1a02 aa_nosupport cidc_dc;
  lut_entry 0xd20 0x00 0x1a03 aa_nosupport cidc_dc;
  lut_entry 0xd20 0x14 0x1a14 aa_nosupport cidc_dc;
  lut_entry 0xd21 0x00 0x2a04 aa_cortexm cidc_dc;
  lut_entry 0xd21 0x31 0x0a31 aa_nosupport cidc_dc;
  lut_entry 0xd21 0x43 0x1a01 aa_nosupport cidc_dc;
  lut_entry 0xd21 0x00 0x1a02 aa_nosupport cidc_dc;
  lut_entry 0xd21 0x00 0x1a03 aa_nosupport cidc_dc;
  lut_entry 0xd21 0x14 0x1a14 aa_nosupport cidc_dc;
  lut_entry 0xd21 0x13 0x4a13 aa_nosupport cidc_dc;
  lut_entry 0xd21 0x11 0 aa_nosupport cidc_dc;
  lut_entry 0xfff 0x00 0 aa_end cidc_unknown
].

(* Used to probe for a protected SAMX5X device *)
Definition SAMX5X_DSU_CTRLSTAT : Z := 0x41002100.
Definition SAMX5X_STATUSB_PROT : Z := Z.shiftl 1 16.

(** The search of [arm_component_lut]: the first entry before the
    [aa_end] mark that agrees in all three keys. *)
Fixpoint lut_find (lut : list lut_entry_t) (pn dt aid : Z) : option lut_entry_t :=
  match lut with
  | [] => None
  | e :: lut' =>
      match arch e with
      | aa_end => None
      | _ =>
          if negb (part_number e =? pn) || negb (dev_type e =? dt)
             || negb (arch_id e =? aid)
          then lut_find lut' pn dt aid
          else Some e
      end
  end.

(** What the ROM table loop does in one iteration: the entry it reads,
    with the address and whether a fault showed, and the component it
    then calls [adiv5_component_probe] for. *)
Inductive rom_step : Type :=
| RomRead (i : nat) (addr entry : Z) (fault : bool)
| RomProbe (addr : Z) (recursion num_entry : nat).

Section Walker.
Context (hd : header) (w : wire).
(** The error state of the DP when asked for the [n]-th time, through
    [dp->fault] or [adiv5_dp_error]. *)
Context (faults : nat -> bool).

Definition dp_fault (p : probe) : bool * probe :=
  (faults (asked p),
   {| lnk := lnk p; clock := clock p; polls := polls p; asked := S (asked p);
      allocs := allocs p; calls := calls p |}).

Definition adiv5_dp_error (p : probe) : bool * probe := dp_fault p.

Definition adiv5_ap_read_id (l : link) (ap : ADIv5_AP_t) (addr : Z) : Z * link :=
  let (data, l) := adiv5_mem_read hd w l ap (repeat 0 16) addr 16 in
  (fold_left
     (fun res i => Z.lor res (Z.shiftl (nth (4 * i) data 0) (Z.of_nat i * 8)))
     (seq 0 4) 0,
   l).

Definition adiv5_ap_read_pidr (l : link) (ap : ADIv5_AP_t) (addr : Z) : Z * link :=
  let (pidr4, l) := adiv5_ap_read_id l ap (u32 (addr + PIDR4_OFFSET)) in
  let (pidr0, l) := adiv5_ap_read_id l ap (u32 (addr + PIDR0_OFFSET)) in
  (Z.lor (Z.shiftl pidr4 32) pidr0, l).

(** [designer_code], a [uint16_t], from the PIDR. *)
Definition pidr_designer_code (pidr : Z) : Z :=
  if tst pidr PIDR_JEP106_USED then
    (* (OFFSET - 8) because we want it on bits 11:8 of new code *)
    let designer_code :=
      Z.lor (Z.shiftr (Z.land pidr PIDR_JEP106_CONT_MASK)
                      (PIDR_JEP106_CONT_OFFSET - 8))
            (Z.shiftr (Z.land pidr PIDR_JEP106_CODE_MASK) PIDR_JEP106_CODE_OFFSET) in
    if (designer_code =? JEP106_MANUFACTURER_ERRATA_STM32WX hd)
       || (designer_code =? JEP106_MANUFACTURER_ERRATA_CS hd)
    then Z.land (JEP106_MANUFACTURER_STM hd) 0xFFFF
    else designer_code
  else
    (* legacy ascii code *)
    Z.land (Z.lor (Z.shiftr (Z.land pidr PIDR_JEP106_CODE_MASK)
                            PIDR_JEP106_CODE_OFFSET)
                  (ASCII_CODE_FLAG hd)) 0xFFFF.

(** [for (size_t i = 0; i < 960; i++) { ... }], with [n] iterations
    left; [probe] is the function called for a present entry.  Next to
    the state, the loop gives an account of its steps. *)
Fixpoint romtab_loop (probe_fn : Z -> nat -> nat -> probe -> option probe)
  (n i : nat) (ap : ADIv5_AP_t) (addr : Z) (recursion : nat) (p : probe)
  : option (list rom_step * probe) :=
  match n with
  | O => Some ([], p)
  | S n' =>
      let p := snd (adiv5_dp_error p) in
      let (entry, l) :=
        adiv5_mem_read32 hd w (lnk p) ap (u32 (addr + Z.of_nat i * 4)) in
      let (err, p) := adiv5_dp_error (on_link p l) in
      if err then
        Some ([RomRead i (u32 (addr + Z.of_nat i * 4)) entry true], p)
      else if entry =? 0 then
        Some ([RomRead i (u32 (addr + Z.of_nat i * 4)) entry false], p)
      else if negb (tst entry (ADIV5_ROM_ROMENTRY_PRESENT hd)) then
        match romtab_loop probe_fn n' (S i) ap addr recursion p with
        | None => None
        | Some (steps, p) =>
            Some (RomRead i (u32 (addr + Z.of_nat i * 4)) entry false :: steps, p)
        end
      else
        (* Probe recursively *)
        match probe_fn (u32 (addr + Z.land entry (ADIV5_ROM_ROMENTRY_OFFSET hd)))
                (S recursion) i p with
        | None => None
        | Some p =>
            match romtab_loop probe_fn n' (S i) ap addr recursion p with
            | None => None
            | Some (steps, p) =>
                Some (RomRead i (u32 (addr + Z.of_nat i * 4)) entry false
                      :: RomProbe
                           (u32 (addr + Z.land entry (ADIV5_ROM_ROMENTRY_OFFSET hd)))
                           (S recursion) i
                      :: steps, p)
            end
        end
  end.

(** The part of [adiv5_component_probe] for a component that is not a
    ROM table. *)
Definition component_dispatch (ap : ADIv5_AP_t) (addr cid_class designer_code
  part_number : Z) (p : probe) : probe :=
  if negb (designer_code =? JEP106_MANUFACTURER_ARM hd) then
    (* non arm components not supported currently *)
    p
  else
    (* ADIv6: For CoreSight components, read DEVTYPE and ARCHID *)
    let '(dev_type, arch_id, p) :=
      if cid_class =? cid_class_val cidc_dc then
        let (v, l) := adiv5_mem_read32 hd w (lnk p) ap (u32 (addr + DEVTYPE_OFFSET)) in
        let dev_type := Z.land v DEVTYPE_MASK in
        let (devarch, l) := adiv5_mem_read32 hd w l ap (u32 (addr + DEVARCH_OFFSET)) in
        let arch_id :=
          if tst devarch DEVARCH_PRESENT then Z.land devarch DEVARCH_ARCHID_MASK
          else 0 in
        (dev_type, arch_id, on_link p l)
      else (0, 0, p) in
    (* Find the part number in our part list and run the appropriate
       probe routine if applicable. *)
    match lut_find arm_component_lut part_number dev_type arch_id with
    | None => p
    | Some e =>
        match arch e with
        | aa_cortexm => called p (CortexmProbe ap)
        | aa_cortexa => called p (CortexaProbe ap addr)
        | _ => p
        end
    end.

(** [adiv5_component_probe(ap, addr, recursion, num_entry)].  The
    function calls itself; [fuel] bounds how deep.  [ap] is written to
    at [recursion == 0] only and is returned as left. *)
Fixpoint adiv5_component_probe (fuel : nat) (ap : ADIv5_AP_t) (addr : Z)
  (recursion num_entry : nat) (p : probe) : option (ADIv5_AP_t * probe) :=
  match fuel with
  | O => None
  | S fuel' =>
      let addr := Z.land addr 0xfffff000 in (* Mask out base address *)
      if addr =? 0 then Some (ap, p) (* No rom table on this AP *)
      else
        let (cidr, l) := adiv5_ap_read_id (lnk p) ap (u32 (addr + CIDR0_OFFSET)) in
        let (fault, p) := dp_fault (on_link p l) in
        if fault then Some (ap, p)
        else if negb (Z.land cidr (u32 (Z.lnot CID_CLASS_MASK)) =? CID_PREAMBLE)
        then Some (ap, p)
        else
          let (err, p) := adiv5_dp_error p in
          if err then Some (ap, p)
          else
            (* Extract Component ID class nibble *)
            let cid_class := Z.shiftr (Z.land cidr CID_CLASS_MASK) CID_CLASS_SHIFT in
            let (pidr, l) := adiv5_ap_read_pidr (lnk p) ap addr in
            let p := on_link p l in
            let designer_code := pidr_designer_code pidr in
            (* Extract part number from the part id register. *)
            let part_number := Z.land pidr PIDR_PN_MASK in
            (* ROM table *)
            if cid_class =? cid_class_val cidc_romtab then
              let '(ap, p, protected) :=
                match recursion with
                | O =>
                    let ap :=
                      {| ap_dp := ap_dp ap; ap_apsel := ap_apsel ap;
                         ap_idr := ap_idr ap; ap_base := ap_base ap;
                         ap_csw := ap_csw ap;
                         ap_designer_code := designer_code;
                         ap_partno := part_number;
                         ap_cortexm_demcr := ap_cortexm_demcr ap |} in
                    if (ap_designer_code ap =? JEP106_MANUFACTURER_ATMEL hd)
                       && (ap_partno ap =? 0xcd0)
                    then
                      let (ctrlstat, l) :=
                        adiv5_mem_read32 hd w (lnk p) ap SAMX5X_DSU_CTRLSTAT in
                      (ap, on_link p l, tst ctrlstat SAMX5X_STATUSB_PROT)
                    else (ap, p, false)
                | S _ => (ap, p, false)
                end in
              if protected then
                (* A protected SAMx5x device is found. *)
                Some (ap, called p (CortexmProbe ap))
              else
                match romtab_loop
                        (fun a r n q =>
                           option_map snd (adiv5_component_probe fuel' ap a r n q))
                        960 0 ap addr recursion p with
                | None => None
                | Some (_, p) => Some (ap, p)
                end
            else
              Some (ap, component_dispatch ap addr cid_class designer_code
                          part_number p)
  end.

End Walker.

(** *** Debug port initialisation *)

(** The result of one [adiv5_new_ap] in the scan for APs. *)
Definition scan_report : Type := list (option ADIv5_AP_t).

Section Init.
Context (hd : header) (w : wire).
Context (time_ms : nat -> Z) (expired : nat -> bool) (faults : nat -> bool).
(** Whether the [n]-th access answered is one on which the link raises
    an exception instead.  It is looked at for the two reads under
    [TRY_CATCH]; an exception raised elsewhere leaves
    [adiv5_dp_init] for a handler of its caller, and such runs are
    not described here. *)
Context (raises : nat -> bool).
(** Whether the [n]-th allocation fails. *)
Context (malloc_fails : nat -> bool).
Context (connect_assert_nrst : bool) (cortexm_wait_timeout : Z).

Definition malloc (p : probe) : bool * probe :=
  (negb (malloc_fails (allocs p)),
   {| lnk := lnk p; clock := clock p; polls := polls p; asked := asked p;
      allocs := S (allocs p); calls := calls p |}).

(** A read of the DP inside [TRY_CATCH]: [None] when the exception is
    raised. *)
Definition adiv5_dp_read_try (l : link) (addr : Z) : option Z * link :=
  if raises (answered l) then
    (None, {| answered := S (answered l); issued := issued l ++ [DpRead addr] |})
  else
    let (v, l) := adiv5_dp_read w l addr in (Some v, l).

Definition adiv5_new_ap (dp : ADIv5_DP_t) (apsel : Z) (p : probe)
  : option ADIv5_AP_t * probe :=
  (* Assume valid and try to read IDR *)
  let tmpap :=
    {| ap_dp := dp; ap_apsel := apsel; ap_idr := 0; ap_base := 0; ap_csw := 0;
       ap_designer_code := 0; ap_partno := 0; ap_cortexm_demcr := 0 |} in
  let (idr, l) := adiv5_ap_read hd w (lnk p) tmpap (ADIV5_AP_IDR hd) in
  let (base, l) := adiv5_ap_read hd w l tmpap (ADIV5_AP_BASE hd) in
  let p := on_link p l in
  (* Check the Debug Base Address register. See ADIv5
   * Specification C2.6.1 *)
  if base =? 0xffffffff then (None, p)
  else if idr =? 0 then (None, p) (* IDR Invalid *)
  else
    let (csw, l) := adiv5_ap_read hd w (lnk p) tmpap (ADIV5_AP_CSW hd) in
    let csw :=
      Z.land csw
        (u32 (Z.lnot (Z.lor (ADIV5_AP_CSW_SIZE_MASK hd)
                            (ADIV5_AP_CSW_ADDRINC_MASK hd)))) in
    let p := on_link p l in
    if tst csw (ADIV5_AP_CSW_TRINPROG hd) then (None, p)
    else
      (* It's valid to so create a heap copy *)
      let (ok, p) := malloc p in
      if negb ok then (None, p) (* malloc failed: heap exhaustion *)
      else
        (Some {| ap_dp := dp; ap_apsel := apsel; ap_idr := idr; ap_base := base;
                 ap_csw := csw; ap_designer_code := 0; ap_partno := 0;
                 ap_cortexm_demcr := 0 |},
         p).

(* No real AP on RP2040. Special setup.*)
Definition rp_rescue_setup (p : probe) : probe :=
  let (ok, p) := malloc p in
  if negb ok then p (* calloc failed: heap exhaustion *)
  else called p RpRescueProbe.

(** [while (1) { dhcsr = adiv5_mem_read32(ap, CORTEXM_DHCSR);
      if (!(dhcsr & CORTEXM_DHCSR_S_RESET_ST)) break;
      if (platform_timeout_is_expired(&reset_timeout)) return false; }]
    with the value returned by [cortexm_prepare]. *)
Fixpoint prepare_wait (fuel : nat) (ap : ADIv5_AP_t) (p : probe)
  : option (bool * probe) :=
  match fuel with
  | O => None
  | S fuel' =>
      let (dhcsr, l) := adiv5_mem_read32 hd w (lnk p) ap (CORTEXM_DHCSR hd) in
      let p := on_link p l in
      if negb (tst dhcsr (CORTEXM_DHCSR_S_RESET_ST hd)) then Some (true, p)
      else
        let (e, p) := platform_timeout_is_expired expired p in
        if e then Some (false, p) else prepare_wait fuel' ap p
  end.

Definition cortexm_prepare (fuel : nat) (ap : ADIv5_AP_t) (p : probe)
  : option (bool * ADIv5_AP_t * probe) :=
  match cortexm_initial_halt hd w time_ms expired connect_assert_nrst
          cortexm_wait_timeout fuel ap p with
  | None => None
  | Some (dhcsr, p) =>
      if dhcsr =? 0 then Some (false, ap, p)
      else
        let (demcr0, l) := adiv5_mem_read32 hd w (lnk p) ap (CORTEXM_DEMCR hd) in
        let ap :=
          {| ap_dp := ap_dp ap; ap_apsel := ap_apsel ap; ap_idr := ap_idr ap;
             ap_base := ap_base ap; ap_csw := ap_csw ap;
             ap_designer_code := ap_designer_code ap; ap_partno := ap_partno ap;
             ap_cortexm_demcr := demcr0 |} in
        let demcr :=
          Z.lor (Z.lor (CORTEXM_DEMCR_TRCENA hd) (CORTEXM_DEMCR_VC_HARDERR hd))
                (CORTEXM_DEMCR_VC_CORERESET hd) in
        let l := adiv5_mem_write hd w l ap (CORTEXM_DEMCR hd) (le_bytes 4 demcr) 4 in
        let p := called (on_link p l) (PlatformTimeoutSet cortexm_wait_timeout) in
        let p := called p (PlatformNrstSetVal false) in
        match prepare_wait fuel ap p with
        | None => None
        | Some (r, p) => Some (r, ap, p)
        end
  end.

(** What is done with a valid AP whose base is new: the probes of the
    families, the halt of the core behind AP 0, and the walk of the ROM
    table. *)
Definition examine_ap (fuel : nat) (ap : ADIv5_AP_t) (p : probe) : option probe :=
  let p := called p (KinetisMdmProbe ap) in
  let p := called p (Nrf51MdmProbe ap) in
  let p := called p (Efm32AapProbe ap) in
  (* Halt the device and release from reset if reset is active!*)
  match
    (if (ap_apsel ap =? 0) && (Z.land (ap_idr ap) 0xf =? ARM_AP_TYPE_AHB)
     then
       match cortexm_prepare fuel ap p with
       | None => None
       | Some (_, ap, p) => Some (ap, p)
       end
     else Some (ap, p))
  with
  | None => None
  | Some (ap, p) =>
      (* The rest should only be added after checking ROM table *)
      option_map snd
        (adiv5_component_probe hd w faults fuel ap (ap_base ap) 0 0 p)
  end.

(** [for (size_t i = 0; i < 256 && invalid_aps < 8; ++i) { ... }] with
    [n] values of [i] left.  [new_ap] and [examine] stand for
    [adiv5_new_ap] and for the body after the test for a duplicate
    base.  The result tells what [adiv5_new_ap] gave for each [i], in
    order, and whether the loop was left by [return]. *)
Fixpoint ap_scan (new_ap : Z -> probe -> option ADIv5_AP_t * probe)
  (examine : ADIv5_AP_t -> probe -> option probe)
  (n i invalid_aps : nat) (last_base : Z) (p : probe)
  : option (scan_report * bool * probe) :=
  match n with
  | O => Some ([], false, p)
  | S n' =>
      if (invalid_aps <? 8)%nat then
        let (ap, p) := new_ap (Z.of_nat i) p in
        match ap with
        | None =>
            if (S invalid_aps =? 8)%nat then Some ([None], true, p)
            else
              match ap_scan new_ap examine n' (S i) (S invalid_aps) last_base p with
              | None => None
              | Some (r, early, p) => Some (None :: r, early, p)
              end
        | Some ap =>
            if ap_base ap =? last_base then Some ([Some ap], true, p)
            else
              match examine ap p with
              | None => None
              | Some p =>
                  match ap_scan new_ap examine n' (S i) invalid_aps (ap_base ap) p with
                  | None => None
                  | Some (r, early, p) => Some (Some ap :: r, early, p)
                  end
              end
        end
      else Some ([], false, p)
  end.

(** The fields [adiv5_dp_init] takes from DPIDR. *)
Definition dp_identify (dp : ADIv5_DP_t) (dpidr : Z) : ADIv5_DP_t :=
  let version :=
    Z.shiftr (Z.land dpidr (ADIV5_DP_DPIDR_VERSION_MASK hd))
             (ADIV5_DP_DPIDR_VERSION_OFFSET hd) in
  if (0 <? version) && tst dpidr 1 then
    let designer :=
      Z.shiftr (Z.land dpidr (ADIV5_DP_DPIDR_DESIGNER_MASK hd))
               (ADIV5_DP_DPIDR_DESIGNER_OFFSET hd) in
    let designer_code :=
      Z.lor (Z.shiftl (Z.land designer (ADIV5_DP_DESIGNER_JEP106_CONT_MASK hd)) 1)
            (Z.land designer (ADIV5_DP_DESIGNER_JEP106_CODE_MASK hd)) in
    let partno :=
      Z.shiftr (Z.land dpidr (ADIV5_DP_DPIDR_PARTNO_MASK hd))
               (ADIV5_DP_DPIDR_PARTNO_OFFSET hd) in
    let mindp := tst dpidr (ADIV5_DP_DPIDR_MINDP hd) in
    (* Check for a valid DPIDR / designer *)
    if negb (designer_code =? 0) then
      {| dp_version := version; dp_designer_code := designer_code;
         dp_partno := partno; dp_mindp := mindp;
         dp_instance := dp_instance dp;
         dp_target_designer_code := dp_target_designer_code dp;
         dp_target_partno := dp_target_partno dp;
         dp_targetsel := dp_targetsel dp |}
    else
      {| dp_version := 0; dp_designer_code := 0; dp_partno := 0;
         dp_mindp := false; dp_instance := dp_instance dp;
         dp_target_designer_code := dp_target_designer_code dp;
         dp_target_partno := dp_target_partno dp;
         dp_targetsel := dp_targetsel dp |}
  else
    {| dp_version := version; dp_designer_code := dp_designer_code dp;
       dp_partno := dp_partno dp; dp_mindp := dp_mindp dp;
       dp_instance := dp_instance dp;
       dp_target_designer_code := dp_target_designer_code dp;
       dp_target_partno := dp_target_partno dp;
       dp_targetsel := dp_targetsel dp |}.

(** [if (dp->version >= 2) { ... }]: the read of TARGETID. *)
Definition dp_read_targetid (dp : ADIv5_DP_t) (l : link) : ADIv5_DP_t * link :=
  if 2 <=? dp_version dp then
    let l := adiv5_dp_write l (ADIV5_DP_SELECT hd) 2 in (* TARGETID is on bank 2 *)
    let (targetid, l) := adiv5_dp_read w l (ADIV5_DP_TARGETID hd) in
    let l := adiv5_dp_write l (ADIV5_DP_SELECT hd) 0 in
    (* Use TARGETID register to identify target *)
    let tdesigner :=
      Z.shiftr (Z.land targetid (ADIV5_DP_TARGETID_TDESIGNER_MASK hd))
               (ADIV5_DP_TARGETID_TDESIGNER_OFFSET hd) in
    ({| dp_version := dp_version dp; dp_designer_code := dp_designer_code dp;
        dp_partno := dp_partno dp; dp_mindp := dp_mindp dp;
        dp_instance := dp_instance dp;
        (* convert it to our internal representation, See JEP-106 code list *)
        dp_target_designer_code :=
          Z.lor (Z.shiftl
                   (Z.land tdesigner (ADIV5_DP_DESIGNER_JEP106_CONT_MASK hd)) 1)
                (Z.land tdesigner (ADIV5_DP_DESIGNER_JEP106_CODE_MASK hd));
        dp_target_partno :=
          Z.shiftr (Z.land targetid (ADIV5_DP_TARGETID_TPARTNO_MASK hd))
                   (ADIV5_DP_TARGETID_TPARTNO_OFFSET hd);
        dp_targetsel :=
          Z.lor (Z.lor (u32 (Z.shiftl (dp_instance dp)
                                      (ADIV5_DP_TARGETSEL_TINSTANCE_OFFSET hd)))
                       (Z.land targetid
                          (Z.lor (ADIV5_DP_TARGETID_TDESIGNER_MASK hd)
                                 (ADIV5_DP_TARGETID_TPARTNO_MASK hd))))
                1 |},
     l)
  else (dp, l).

(** [adiv5_dp_init] up to and with the read of TARGETID: [None] when
    the DP does not respond. *)
Definition dp_init_identify (dp : ADIv5_DP_t) (idcode : Z) (p : probe)
  : option ADIv5_DP_t * probe :=
  let (dpidr, l) :=
    if negb (idcode =? JTAG_IDCODE_ARM_DPv0 hd)
    then adiv5_dp_read_try (lnk p) (ADIV5_DP_DPIDR hd)
    else (Some 0, lnk p) in
  match dpidr with
  | None => (None, called (on_link p l) FreeDp)
  | Some dpidr =>
      let dp := dp_identify dp dpidr in
      let (dp, l) := dp_read_targetid dp l in
      (Some dp, on_link p l)
  end.

(** [while (1)] waiting for the power-up acknowledge: [false] when the
    timeout expires first. *)
Fixpoint power_up_wait (fuel : nat) (p : probe) : option (bool * Z * probe) :=
  match fuel with
  | O => None
  | S fuel' =>
      let (ctrlstat, l) := adiv5_dp_read w (lnk p) (ADIV5_DP_CTRLSTAT hd) in
      let p := on_link p l in
      let acks := Z.lor (ADIV5_DP_CTRLSTAT_CSYSPWRUPACK hd)
                        (ADIV5_DP_CTRLSTAT_CDBGPWRUPACK hd) in
      let check := Z.land ctrlstat acks in
      if check =? acks then Some (true, ctrlstat, p)
      else
        let (e, p) := platform_timeout_is_expired expired p in
        if e then Some (false, ctrlstat, p) else power_up_wait fuel' p
  end.

(** [while (1)] waiting for the reset acknowledge. *)
Fixpoint reset_wait (fuel : nat) (p : probe) : option probe :=
  match fuel with
  | O => None
  | S fuel' =>
      let p := called p (PlatformDelay 20) in
      let (ctrlstat, l) := adiv5_dp_read w (lnk p) (ADIV5_DP_CTRLSTAT hd) in
      let p := on_link p l in
      if tst ctrlstat (ADIV5_DP_CTRLSTAT_CDBGRSTACK hd) then Some p
      else
        let (e, p) := platform_timeout_is_expired expired p in
        if e then Some p else reset_wait fuel' p
  end.

(** [adiv5_dp_init] from the test for the RP2040 on.  The result has
    the report of the scan for APs, when it got that far. *)
Definition dp_init_bring_up (fuel : nat) (dp : ADIv5_DP_t) (p : probe)
  : option (scan_report * probe) :=
  if (dp_designer_code dp =? JEP106_MANUFACTURER_RASPBERRY hd)
     && (dp_partno dp =? 0x2)
  then Some ([], rp_rescue_setup p)
  else
    let (c, l) := adiv5_dp_read_try (lnk p) (ADIV5_DP_CTRLSTAT hd) in
    let p := on_link p l in
    let (ctrlstat, p) :=
      match c with
      | Some ctrlstat => (ctrlstat, p)
      | None =>
          let p := called p (Adiv5DpAbort (ADIV5_DP_ABORT_DAPABORT hd)) in
          let (ctrlstat, l) := adiv5_dp_read w (lnk p) (ADIV5_DP_CTRLSTAT hd) in
          (ctrlstat, on_link p l)
      end in
    let p := called p (PlatformTimeoutSet 201) in
    (* Write request for system and debug power up *)
    let ctrlstat :=
      Z.lor ctrlstat (Z.lor (ADIV5_DP_CTRLSTAT_CSYSPWRUPREQ hd)
                            (ADIV5_DP_CTRLSTAT_CDBGPWRUPREQ hd)) in
    let p := on_link p (adiv5_dp_write (lnk p) (ADIV5_DP_CTRLSTAT hd) ctrlstat) in
    (* Wait for acknowledge *)
    match power_up_wait fuel p with
    | None => None
    | Some (false, _, p) => Some ([], called p FreeDp)
    | Some (true, ctrlstat, p) =>
        (* Write request for debug reset *)
        let ctrlstat := Z.lor ctrlstat (ADIV5_DP_CTRLSTAT_CDBGRSTREQ hd) in
        let p := on_link p (adiv5_dp_write (lnk p) (ADIV5_DP_CTRLSTAT hd) ctrlstat) in
        (* Write request for debug reset release *)
        let ctrlstat :=
          Z.land ctrlstat (u32 (Z.lnot (ADIV5_DP_CTRLSTAT_CDBGRSTREQ hd))) in
        let p := on_link p (adiv5_dp_write (lnk p) (ADIV5_DP_CTRLSTAT hd) ctrlstat) in
        (* Wait for acknowledge *)
        match reset_wait fuel p with
        | None => None
        | Some p =>
            (* Probe for APs on this DP *)
            match ap_scan (adiv5_new_ap dp) (examine_ap fuel) 256 0 0 0 p with
            | None => None
            | Some (r, true, p) => Some (r, p)
            | Some (r, false, p) =>
                Some (r, if connect_assert_nrst then p
                         else called p TargetHaltResumeAll)
            end
        end
    end.

Definition adiv5_dp_init (fuel : nat) (dp : ADIv5_DP_t) (idcode : Z) (p : probe)
  : option (scan_report * probe) :=
  match dp_init_identify dp idcode p with
  | (None, p) => Some ([], p)
  | (Some dp, p) => dp_init_bring_up fuel dp p
  end.

End Init.

(** The steps of the ROM table loop for entry [i], read as [entry]
    with the error state [fault]. *)
Definition rom_entry_steps (hd : header) (addr : Z) (recursion : nat)
  (ie : nat * (Z * bool)) : list rom_step :=
  let '(i, (entry, fault)) := ie in
  RomRead i (addr + 4 * Z.of_nat i) entry fault ::
  (if negb fault && negb (entry =? 0) && tst entry (ADIV5_ROM_ROMENTRY_PRESENT hd)
   then [RomProbe (u32 (addr + Z.land entry (ADIV5_ROM_ROMENTRY_OFFSET hd)))
           (S recursion) i]
   else []).

(** An entry after which the loop reads no other: a fault showed, or
    the entry is zero. *)
Definition rom_entry_last (e : Z * bool) : bool := snd e || (fst e =? 0).

(** A ROM table with a present entry, an entry that is not present
    and the end mark; a word read takes two answers, the second of
    which is the word. *)
Definition romtable_wire : wire :=
  fun n =>
    match n with
    | 1%nat => 0xFFF0F003
    | 3%nat => 0x00001002
    | _ => 0
    end.

(** **** Reading a scan report *)

Definition is_invalid (x : option ADIv5_AP_t) : bool :=
  match x with None => true | Some _ => false end.

(** How many times [adiv5_new_ap] gave no AP. *)
Definition count_invalid (r : scan_report) : nat :=
  length (filter is_invalid r).

(** The base of the valid AP seen last, or 0; the results are given
    latest first. *)
Fixpoint last_valid_base (seen : scan_report) : Z :=
  match seen with
  | [] => 0
  | Some ap :: _ => ap_base ap
  | None :: before => last_valid_base before
  end.

(** Whether the latest result ends the scan: it is the eighth invalid
    AP in all, or a valid AP with the base of the valid AP before it.
    The results are given latest first. *)
Definition ends_scan (seen : scan_report) : bool :=
  match seen with
  | [] => false
  | None :: before => (8 <=? S (count_invalid before))%nat
  | Some ap :: before => ap_base ap =? last_valid_base before
  end.

(** The same for a report in the order of the scan. *)
Definition scan_stops (r : scan_report) : bool := ends_scan (rev r).

(** The longest run of invalid APs in a row. *)
Fixpoint invalid_runs (r : scan_report) (run best : nat) : nat :=
  match r with
  | [] => Nat.max run best
  | None :: r' => invalid_runs r' (S run) best
  | Some _ :: r' => invalid_runs r' 0 (Nat.max run best)
  end.

Definition longest_invalid_run (r : scan_report) : nat := invalid_runs r 0 0.

(** A DPv1 with seven invalid APs, a valid AP 7 that has no ROM table,
    and invalid APs from there on.  The first four answers are DPIDR
    and three reads of CTRL/STAT. *)
Definition sparse_wire : wire :=
  fun n =>
    match n with
    | 0%nat => 0x2BA01477
    | 2%nat => 0xF0000000
    | 3%nat => 0xF8000000
    | 18%nat => 0x24770011
    | 19%nat => 0x00000002
    | 20%nat => 0x23000040
    | _ => 0
    end.

Definition sparse_ap7 : ADIv5_AP_t :=
  {| ap_dp := {| dp_version := 1; dp_designer_code := 0x43B; dp_partno := 0xBA;
                 dp_mindp := false; dp_instance := 0;
                 dp_target_designer_code := 0; dp_target_partno := 0;
                 dp_targetsel := 0 |};
     ap_apsel := 7; ap_idr := 0x24770011; ap_base := 0x00000002;
     ap_csw := 0x23000040; ap_designer_code := 0; ap_partno := 0;
     ap_cortexm_demcr := 0 |}.

(** **** SELECT and its banks *)

(** A write of SELECT that chooses DP bank 2. *)
Definition bank2_select (hd : header) (a : access) : bool :=
  match a with
  | DpWrite addr val
  | LowAccess ADIV5_LOW_WRITE addr val =>
      (addr =? ADIV5_DP_SELECT hd) && (Z.land val 0xF =? 2)
  | _ => false
  end.

(** SELECT has an address of its own among the registers written. *)
Definition select_apart (hd : header) : Prop :=
  ADIV5_DP_SELECT hd <> ADIV5_DP_CTRLSTAT hd
  /\ ADIV5_DP_SELECT hd <> ADIV5_AP_CSW hd
  /\ ADIV5_DP_SELECT hd <> ADIV5_AP_TAR hd
  /\ ADIV5_DP_SELECT hd <> ADIV5_AP_DRW hd.

(** [l'] continues [l] without choosing bank 2. *)
Definition keeps_bank (hd : header) (l l' : link) : Prop :=
  exists d, issued l' = (issued l ++ d)%list
            /\ Forall (fun a => bank2_select hd a = false) d.

(** A DPv2 with no AP behind it: DPIDR, TARGETID, three reads of
    CTRL/STAT, and zeros. *)
Definition dpv2_wire : wire :=
  fun n =>
    match n with
    | 0%nat => 0x0BC12477
    | 1%nat => 0x01002927
    | 3%nat => 0xF0000000
    | 4%nat => 0xF8000000
    | _ => 0
    end.

Definition blank_dp : ADIv5_DP_t :=
  {| dp_version := 0; dp_designer_code := 0; dp_partno := 0;
     dp_mindp := false; dp_instance := 0; dp_target_designer_code := 0;
     dp_target_partno := 0; dp_targetsel := 0 |}.

(** **** Auxiliary notions for the proofs *)

(** One step of a transfer: the next address, and what TAR then
    holds. *)
Definition step_addr (a : align) (addr : Z) : Z :=
  u32 (addr + Z.shiftl 1 (align_val a)).

Definition step_tar (a : align) (addr oaddr : Z) : Z :=
  if crosses (step_addr a addr) oaddr then step_addr a addr else oaddr.

(** The entry read in an iteration entered in [p], the error state
    after it, and the state then. *)
Definition rom_read (hd : header) (w : wire) (faults : nat -> bool)
  (ap : ADIv5_AP_t) (addr : Z) (i : nat) (p : probe)
  : Z * bool * probe :=
  let p := snd (adiv5_dp_error faults p) in
  let (entry, l) := adiv5_mem_read32 hd w (lnk p) ap (u32 (addr + Z.of_nat i * 4)) in
  let (err, p) := adiv5_dp_error faults (on_link p l) in
  (entry, err, p).

(** What an account of the loop looks like, for entries numbered from
    [i] with room for [n]. *)
Definition rom_account (hd : header) (addr : Z) (recursion n i : nat)
  (steps : list rom_step)
  : Prop :=
  exists entries : list (Z * bool),
    (length entries <= n)%nat
    /\ steps = flat_map (rom_entry_steps hd addr recursion)
                 (combine (seq i (length entries)) entries)
    /\ (forall k e, nth_error entries k = Some e -> rom_entry_last e = true ->
          S k = length entries)
    /\ ((length entries < n)%nat ->
        exists e, nth_error entries (length entries - 1) = Some e
                  /\ rom_entry_last e = true).

(** The scan continued from a state in which [seen] has been seen,
    latest first. *)
Definition scan_account (n : nat) (seen r : scan_report) (early : bool) : Prop :=
  (length r <= n)%nat
  /\ (forall k, (0 < k < length r)%nat ->
        ends_scan (rev (firstn k r) ++ seen) = false)
  /\ ((length r < n)%nat -> r <> [] /\ ends_scan (rev r ++ seen) = true)
  /\ early = match r with [] => false | _ => ends_scan (rev r ++ seen) end.

(** A core that answers the first halt request with all ones, the
    second with S_RESET_ST and the third with S_HALT, S_REGRDY,
    C_HALT and C_DEBUGEN; the first answer on the wire is CTRL/STAT. *)
Definition waking_wire : wire :=
  fun n =>
    match n with
    | 0%nat => 0xF0000000
    | 1%nat => 0xFFFFFFFF
    | 2%nat => 0x02000000
    | _ => 0x00030003
    end.

(** A core that is in reset. *)
Definition reset_wire : wire :=
  fun n => match n with 0%nat => 0xF0000000 | _ => 0x02000000 end.

(** A target that answers the [n]-th read with [n] in every byte. *)
Definition counting_wire : wire := fun n => Z.of_nat n * 0x01010101.

(** A target whose second answer is 0xDEADBEEF. *)
Definition beef_wire : wire :=
  fun n => match n with 1%nat => 0xDEADBEEF | _ => 0 end.

(** **** The data of a read *)

(** The bytes [extract] stores for a word read as [val] at [addr]. *)
Definition lane_bytes (a : align) (addr val : Z) : list Z :=
  match a with
  | ALIGN_BYTE =>
      le_bytes 1 (Z.land (Z.shiftr val (Z.shiftl (Z.land addr 0x3) 3)) 0xFF)
  | ALIGN_HALFWORD =>
      le_bytes 2 (Z.land (Z.shiftr val (Z.shiftl (Z.land addr 0x2) 3)) 0xFFFF)
  | ALIGN_DWORD | ALIGN_WORD => le_bytes 4 val
  end.

(** The width of an access in bytes, [1 << align]. *)
Definition width (a : align) : nat := Z.to_nat (Z.shiftl 1 (align_val a)).

(** How many answers the loop of a read has taken before it reads word
    [i]: one for each word before and one more for each time TAR was
    programmed again. *)
Fixpoint answers_before (a : align) (addr oaddr : Z) (i : nat) : nat :=
  match i with
  | O => O
  | S i' =>
      (answers_before a addr oaddr i'
       + (if reprograms a addr oaddr i' then 2 else 1))%nat
  end.

(** The bytes at [pos] of a buffer that make up one access. *)
Definition lane_source (a : align) (src : buffer) (pos : nat) : list Z :=
  map (fun i => nth (pos + i) src 0) (seq 0 (width a)).

(** A byte of memory. *)
Definition is_byte (x : Z) : Prop := 0 <= x < 256.

(** The keys of the components [adiv5_component_probe] hands to
    [cortexm_probe] and to [cortexa_probe]: part number, device type,
    architecture id. *)
Definition cortexm_keys : list (Z * Z * Z) :=
  [(0x000, 0x00, 0); (0x008, 0x00, 0); (0x00c, 0x00, 0);
   (0xd20, 0x00, 0x2a04); (0xd21, 0x00, 0x2a04)].

Definition cortexa_keys : list (Z * Z * Z) :=
  [(0xc05, 0x00, 0); (0xc07, 0x15, 0); (0xc08, 0x00, 0); (0xc09, 0x00, 0)].

(** The architecture of the table entry found for a component. *)
Definition lut_arch (pn dt aid : Z) : option arm_arch :=
  option_map arch (lut_find arm_component_lut pn dt aid).

(** The fields of a PIDR: the JEP-106 continuation count in bits 35:32
    and identity code in bits 18:12. *)
Definition pidr_jep106_cont (pidr : Z) : Z := (pidr / 2 ^ 32) mod 16.
Definition pidr_jep106_code (pidr : Z) : Z := (pidr / 2 ^ 12) mod 128.

(** A wire that answers IDR, BASE and CSW of an AHB-AP. *)
Definition ahb_ap_wire : wire :=
  fun n =>
    match n with
    | 0%nat => 0x24770011
    | 1%nat => 0xE00FF003
    | 2%nat => 0x23000052
    | _ => 0
    end.

(** A target that answers the second and third read with the words a
    write of 0x11 0x22 0x33 0x44 to 0x20000002 puts on DRW. *)
Definition echo_wire : wire :=
  fun n =>
    match n with
    | 1%nat => 0x22110000
    | 2%nat => 0x00004433
    | _ => 0
    end.

(** How often the targets were released from halt. *)
Fixpoint halt_resumes (cs : list call) : nat :=
  match cs with
  | [] => 0
  | TargetHaltResumeAll :: cs' => S (halt_resumes cs')
  | _ :: cs' => halt_resumes cs'
  end.

End Adiv5.

(* ================================================================== *)
(** ** Properties of the SAM D driver *)

Module SamdFacts.
Import Samd.

Lemma messages_app (l1 l2 : list call) :
  messages (l1 ++ l2) = (messages l1 ++ messages l2)%list.
Proof.
  induction l1 as [|c l1 IH]; simpl; [reflexivity|].
  destruct c; simpl; rewrite IH; reflexivity.
Qed.

Lemma poll_skip_reads b t : reads (poll_skip b t) = S (reads t).
Proof. reflexivity. Qed.

Lemma poll_skip_checks b t : checks (poll_skip b t) = S (checks t).
Proof. reflexivity. Qed.

Lemma poll_skip_messages b t :
  messages (trace (poll_skip b t)) = messages (trace t).
Proof.
  unfold poll_skip, target_print_progress, emit, target_check_error,
    target_mem_read32; simpl.
  rewrite !messages_app; simpl. rewrite !app_nil_r. reflexivity.
Qed.

Lemma dsu_status_skip b t k :
  dsu_status b (poll_skip b t) k = dsu_status b t (S k).
Proof.
  unfold dsu_status, sample. rewrite poll_skip_reads.
  f_equal. lia.
Qed.

Lemma latched_skip b t k : latched b (poll_skip b t) k = latched b t (S k).
Proof.
  unfold latched. rewrite poll_skip_checks. f_equal. lia.
Qed.

Lemma poll_ends_skip b t k : poll_ends b (poll_skip b t) k <-> poll_ends b t (S k).
Proof.
  unfold poll_ends. rewrite dsu_status_skip, latched_skip. tauto.
Qed.

Lemma poll_quiet_skip b t k :
  poll_quiet b t (S k) -> poll_quiet b (poll_skip b t) k.
Proof.
  intros H j Hj. rewrite dsu_status_skip, latched_skip.
  apply H. lia.
Qed.

Lemma dsu_status_0 b t :
  dsu_status b t 0 = mem_read32 b (reads t) SAMD_DSU_CTRLSTAT.
Proof. unfold dsu_status, sample. f_equal. lia. Qed.

Lemma latched_0 b t : latched b t 0 = check_error b (checks t).
Proof. unfold latched. f_equal. lia. Qed.

(** One unfolding of the loop, by what the first samples are. *)
Lemma mass_erase_poll_step b fuel t :
  mass_erase_poll b (S fuel) t =
    if dsu_finished (dsu_status b t 0) then
      Some (PollStatus (dsu_status b t 0),
            snd (target_mem_read32 b t SAMD_DSU_CTRLSTAT))
    else if latched b t 0 then
      Some (PollError,
            snd (target_check_error b
                   (snd (target_mem_read32 b t SAMD_DSU_CTRLSTAT))))
    else mass_erase_poll b fuel (poll_skip b t).
Proof.
  rewrite dsu_status_0, latched_0. unfold dsu_finished, tst, poll_skip.
  simpl.
  destruct (Z.land _ DSU_STATUS_BITS =? 0); simpl; [|reflexivity].
  destruct (check_error b (checks t)); reflexivity.
Qed.

Lemma mass_erase_poll_complete b : forall k fuel t,
  poll_quiet b t k -> poll_ends b t k -> (k < fuel)%nat ->
  exists t', mass_erase_poll b fuel t = Some (poll_outcome b t k, t')
             /\ messages (trace t') = messages (trace t).
Proof.
  induction k as [|k IH]; intros fuel t Hq He Hlt;
    (destruct fuel as [|fuel]; [lia|]); rewrite mass_erase_poll_step.
  - unfold poll_outcome. destruct He as [He|He].
    + rewrite He. eexists; split; [reflexivity|].
      simpl. rewrite messages_app. simpl. apply app_nil_r.
    + destruct (dsu_finished (dsu_status b t 0)).
      * eexists; split; [reflexivity|].
        simpl. rewrite messages_app. simpl. apply app_nil_r.
      * rewrite He. eexists; split; [reflexivity|].
        simpl. rewrite !messages_app. simpl. rewrite !app_nil_r. reflexivity.
  - destruct (Hq 0%nat ltac:(lia)) as [H1 H2]. rewrite H1, H2.
    destruct (IH fuel (poll_skip b t)) as [t' [E M]].
    + apply poll_quiet_skip, Hq.
    + apply poll_ends_skip, He.
    + lia.
    + exists t'. split.
      * rewrite E. unfold poll_outcome. rewrite dsu_status_skip. reflexivity.
      * rewrite M. apply poll_skip_messages.
Qed.

Lemma mass_erase_poll_sound b : forall fuel t r t',
  mass_erase_poll b fuel t = Some (r, t') ->
  exists k, (k < fuel)%nat /\ poll_quiet b t k /\ poll_ends b t k
            /\ r = poll_outcome b t k.
Proof.
  induction fuel as [|fuel IH]; intros t r t' H; [discriminate|].
  rewrite mass_erase_poll_step in H.
  destruct (dsu_finished (dsu_status b t 0)) eqn:F.
  - inversion H; subst. exists 0%nat. split; [|split; [|split]].
    + lia.
    + intros j Hj; lia.
    + left; exact F.
    + unfold poll_outcome. rewrite F. reflexivity.
  - destruct (latched b t 0) eqn:L.
    + inversion H; subst. exists 0%nat. split; [|split; [|split]].
      * lia.
      * intros j Hj; lia.
      * right; exact L.
      * unfold poll_outcome. rewrite F. reflexivity.
    + destruct (IH _ _ _ H) as [k [Hk [Hq [He Hr]]]].
      exists (S k). split; [|split; [|split]].
      * lia.
      * intros [|j] Hj; [tauto|].
        rewrite <- dsu_status_skip, <- latched_skip. apply Hq. lia.
      * apply poll_ends_skip, He.
      * rewrite Hr. unfold poll_outcome. rewrite dsu_status_skip. reflexivity.
Qed.

(** On the silent target the loop never ends. *)
Lemma mass_erase_poll_silent : forall fuel t,
  mass_erase_poll silent_bench fuel t = None.
Proof.
  induction fuel as [|fuel IH]; intros t; [reflexivity|].
  simpl. apply IH.
Qed.

(** If some iteration ends the poll, a first one does. *)
Lemma first_poll_end b t : forall k,
  poll_ends b t k ->
  exists k0, (k0 <= k)%nat /\ poll_quiet b t k0 /\ poll_ends b t k0.
Proof.
  assert (Hn : forall n,
    poll_quiet b t n \/
    exists k0, (k0 < n)%nat /\ poll_quiet b t k0 /\ poll_ends b t k0).
  { induction n as [|n [IH|IH]].
    - left. intros j Hj; lia.
    - destruct (dsu_finished (dsu_status b t n)) eqn:F.
      + right. exists n. split; [|split]; [lia|exact IH|left; exact F].
      + destruct (latched b t n) eqn:L.
        * right. exists n. split; [|split]; [lia|exact IH|right; exact L].
        * left. intros j Hj.
          destruct (Nat.eq_dec j n) as [->|Hne]; [tauto|].
          apply IH. lia.
    - right. destruct IH as [k0 [H1 H2]]. exists k0. split; [lia|exact H2]. }
  intros k He. destruct (Hn k) as [Hq|[k0 [H1 H2]]].
  - exists k. split; [|split]; [lia|exact Hq|exact He].
  - exists k0. split; [lia|exact H2].
Qed.

Lemma erase_armed_status b t k :
  dsu_status b (erase_armed t) k = dsu_status b t k.
Proof. reflexivity. Qed.

Lemma erase_armed_latched b t k : latched b (erase_armed t) k = latched b t k.
Proof. reflexivity. Qed.

Lemma erase_armed_messages t :
  messages (trace (erase_armed t)) = messages (trace t).
Proof.
  unfold erase_armed, platform_timeout_set, target_mem_write32, emit; simpl.
  rewrite !messages_app; simpl. rewrite !app_nil_r. reflexivity.
Qed.

Lemma samd_mass_erase_unfold b fuel t :
  samd_mass_erase b fuel t =
    match mass_erase_poll b fuel (erase_armed t) with
    | None => None
    | Some (PollError, t) => Some (false, t)
    | Some (PollStatus status, t) =>
        if tst status SAMD_STATUSA_PERR then
          Some (true, tc_printf t "Erase failed due to a protection error.\n")
        else if tst status SAMD_STATUSA_FAIL then
          Some (true, tc_printf t "Erase failed.\n")
        else Some (true, t)
    end.
Proof. reflexivity. Qed.

Lemma samd_mass_erase_sound b fuel t r t' :
  samd_mass_erase b fuel t = Some (r, t') ->
  exists k, (k < fuel)%nat /\ poll_quiet b t k /\ poll_ends b t k
            /\ r = dsu_finished (dsu_status b t k).
Proof.
  rewrite samd_mass_erase_unfold.
  destruct (mass_erase_poll b fuel (erase_armed t)) as [[x t1]|] eqn:E;
    [|discriminate].
  destruct (mass_erase_poll_sound _ _ _ _ _ E) as [k [Hk [Hq [He Hx]]]].
  intros H. exists k. split; [exact Hk|]. split; [exact Hq|]. split; [exact He|].
  unfold poll_outcome in Hx. rewrite erase_armed_status in Hx.
  destruct (dsu_finished (dsu_status b t k)); subst x.
  - destruct (tst _ SAMD_STATUSA_PERR); [congruence|].
    destruct (tst _ SAMD_STATUSA_FAIL); congruence.
  - congruence.
Qed.

(** C1 (amended).  The poll loop of [samd_mass_erase] has no exit on
    the 500 ms timeout, which is only handed to [target_print_progress]:
    the function returns exactly when some CTRLSTAT sample has DONE,
    PERR or FAIL set or [target_check_error] reports an error. *)
Theorem samd_mass_erase_returns_iff_poll_ends (b : bench) (t : target) :
  (exists fuel r, samd_mass_erase b fuel t = Some r) <->
  (exists k, poll_ends b t k).
Proof.
  split.
  - intros [fuel [[r t'] H]].
    destruct (samd_mass_erase_sound _ _ _ _ _ H) as [k [_ [_ [He _]]]].
    exists k. exact He.
  - intros [k He]. destruct (first_poll_end _ _ _ He) as [k0 [_ [Hq He0]]].
    destruct (mass_erase_poll_complete b k0 (S k0) (erase_armed t))
      as [t' [E _]]; [exact Hq|exact He0|lia|].
    exists (S k0). rewrite samd_mass_erase_unfold, E.
    destruct (poll_outcome b (erase_armed t) k0) as [status|].
    + destruct (tst status SAMD_STATUSA_PERR); [eexists; reflexivity|].
      destruct (tst status SAMD_STATUSA_FAIL); eexists; reflexivity.
    + eexists; reflexivity.
Qed.

(** C1 (as stated) fails: on a target whose status never shows DONE,
    PERR or FAIL and which latches no error, [samd_mass_erase] does not
    return, however long it runs. *)
Lemma samd_mass_erase_silent_hang :
  ~ (exists fuel r, samd_mass_erase silent_bench fuel target_init = Some r).
Proof.
  intros [fuel [r H]]. rewrite samd_mass_erase_unfold in H.
  rewrite mass_erase_poll_silent in H. discriminate.
Qed.

(** C7.  When the poll of [samd_mass_erase] ends at iteration [k], the
    function returns [true] if the status then shows DONE, PERR or FAIL
    (the fault, if any, only appears in the message printed) and
    [false] otherwise, which is when a target error is latched. *)
Theorem samd_mass_erase_result (b : bench) (t : target) (k fuel : nat)
  (Hquiet : poll_quiet b t k) (Hends : poll_ends b t k) (Hfuel : (k < fuel)%nat) :
  exists t',
    samd_mass_erase b fuel t = Some (dsu_finished (dsu_status b t k), t')
    /\ messages (trace t') =
         (messages (trace t) ++
          if dsu_finished (dsu_status b t k)
          then erase_message (dsu_status b t k) else [])%list
    /\ (dsu_finished (dsu_status b t k) = false -> latched b t k = true).
Proof.
  destruct (mass_erase_poll_complete b k fuel (erase_armed t))
    as [t1 [E M]]; [exact Hquiet|exact Hends|exact Hfuel|].
  rewrite erase_armed_messages in M.
  rewrite samd_mass_erase_unfold, E. unfold poll_outcome.
  rewrite erase_armed_status. unfold erase_message.
  destruct (dsu_finished (dsu_status b t k)) eqn:F.
  - destruct (tst _ SAMD_STATUSA_PERR).
    + eexists. split; [reflexivity|]. split; [|discriminate].
      simpl. rewrite messages_app, M. reflexivity.
    + destruct (tst _ SAMD_STATUSA_FAIL).
      * eexists. split; [reflexivity|]. split; [|discriminate].
        simpl. rewrite messages_app, M. reflexivity.
      * eexists. split; [reflexivity|]. split; [|discriminate].
        rewrite M, app_nil_r. reflexivity.
  - eexists. split; [reflexivity|]. split.
    + rewrite M, app_nil_r. reflexivity.
    + intros _. destruct Hends as [H|H]; [congruence|exact H].
Qed.

(** A run of C7 in which the third status sample shows DONE and PERR. *)
Lemma samd_mass_erase_result_witness :
  exists t',
    samd_mass_erase protected_bench 3 target_init = Some (true, t')
    /\ messages (trace t') = ["Erase failed due to a protection error.\n"%string]
    /\ (true = false -> latched protected_bench target_init 2 = true).
Proof.
  apply (samd_mass_erase_result protected_bench target_init 2 3).
  - intros j Hj. destruct j as [|[|j]]; [split; reflexivity|split; reflexivity|lia].
  - left. reflexivity.
  - lia.
Defined.

Lemma nvm_ready_poll_result b : forall fuel t r t',
  nvm_ready_poll b fuel t = Some (Some r, t') -> r = -1.
Proof.
  induction fuel as [|fuel IH]; intros t r t' H; [discriminate|].
  cbn [nvm_ready_poll] in H.
  destruct (target_mem_read32 b t SAMD_NVMC_INTFLAG) as [flag t1].
  destruct (Z.land flag SAMD_NVMC_READY =? 0); [|discriminate].
  destruct (target_check_error b t1) as [err t2].
  destruct err; [congruence|]. exact (IH _ _ _ H).
Qed.

(** Whatever the target does, [samd_set_flashlock] does not return
    [false]. *)
Lemma samd_set_flashlock_never_false b fuel t value r t' :
  samd_set_flashlock b fuel t value = Some (r, t') -> r = true.
Proof.
  unfold samd_set_flashlock.
  destruct (target_mem_read32 b t SAMD_NVM_USER_ROW_HIGH) as [high t1].
  destruct (target_mem_read32 b t1 SAMD_NVM_USER_ROW_LOW) as [low t2].
  match goal with
  | |- context [nvm_ready_poll b fuel ?q] =>
      destruct (nvm_ready_poll b fuel q) as [[[x|] t3]|] eqn:E
  end.
  - apply nvm_ready_poll_result in E. subst x. intros H. injection H as <- _.
    reflexivity.
  - intros H. injection H as <- _. reflexivity.
  - discriminate.
Qed.

(** C9 (the code at the failing input).  With the NVM controller not
    ready and an error latched, [samd_set_flashlock] returns [-1]
    converted to [bool], which is [true]: its callers report success,
    and the user row is not written back. *)
Theorem samd_set_flashlock_error_is_true :
  samd_set_flashlock faulty_bench 1 target_init 0xFFFF =
    Some (true,
          {| reads := 3; checks := 1;
             trace := [MemRead32 SAMD_NVM_USER_ROW_HIGH 0;
                       MemRead32 SAMD_NVM_USER_ROW_LOW 0;
                       MemWrite32 SAMD_NVMC_ADDRESS 0x402000;
                       MemWrite32 SAMD_NVMC_CTRLA 0xA505;
                       MemRead32 SAMD_NVMC_INTFLAG 0;
                       CheckError true] |})
  /\ option_map fst (samd_cmd_unlock_flash faulty_bench 1 target_init) = Some true
  /\ option_map fst (samd_cmd_lock_flash_default faulty_bench 1 target_init)
       = Some true.
Proof. repeat split; vm_compute; reflexivity. Qed.

(** *** Sample runs *)

Example samd_mass_erase_done :
  samd_mass_erase done_bench 2 target_init =
    Some (true,
          {| reads := 2; checks := 1;
             trace := [MemWrite32 SAMD_DSU_CTRLSTAT 0x1900;
                       MemWrite32 SAMD_DSU_CTRLSTAT 0x10;
                       PlatformTimeoutSet 500;
                       MemRead32 SAMD_DSU_CTRLSTAT 0; CheckError false;
                       PrintProgress; MemRead32 SAMD_DSU_CTRLSTAT 0x100] |}).
Proof. vm_compute. reflexivity. Qed.

Example samd_set_flashlock_locks :
  samd_set_flashlock ready_bench 1 target_init 0x0000 =
    Some (true,
          {| reads := 3; checks := 0;
             trace := [MemRead32 SAMD_NVM_USER_ROW_HIGH 0xFFFFABCD;
                       MemRead32 SAMD_NVM_USER_ROW_LOW 0x12345678;
                       MemWrite32 SAMD_NVMC_ADDRESS 0x402000;
                       MemWrite32 SAMD_NVMC_CTRLA 0xA505;
                       MemRead32 SAMD_NVMC_INTFLAG 1;
                       MemWrite32 SAMD_NVM_USER_ROW_LOW 0x12345678;
                       MemWrite32 SAMD_NVM_USER_ROW_HIGH 0x0000ABCD;
                       MemWrite32 SAMD_NVMC_CTRLA 0xA506] |}).
Proof. vm_compute. reflexivity. Qed.

(** *** Rows erased by [samd_flash_erase] *)

Lemma writes_to_app (reg : Z) (l1 l2 : list call) :
  writes_to reg (l1 ++ l2) = (writes_to reg l1 ++ writes_to reg l2)%list.
Proof.
  induction l1 as [|c l1 IH]; simpl; [reflexivity|].
  destruct c; simpl; try exact IH.
  destruct (addr =? reg); simpl; rewrite IH; reflexivity.
Qed.

Lemma nvm_ready_poll_writes b reg : forall fuel t r t',
  nvm_ready_poll b fuel t = Some (r, t') ->
  writes_to reg (trace t') = writes_to reg (trace t).
Proof.
  induction fuel as [|fuel IH]; intros t r t' H; [discriminate|].
  cbn [nvm_ready_poll] in H.
  unfold target_mem_read32 in H.
  destruct (Z.land _ SAMD_NVMC_READY =? 0).
  - unfold target_check_error in H. cbn [reads checks trace] in H.
    destruct (check_error b (checks t)).
    + injection H as _ <-. cbn [trace]. rewrite !writes_to_app. simpl.
      rewrite !app_nil_r. reflexivity.
    + apply IH in H. rewrite H. cbn [trace]. rewrite !writes_to_app. simpl.
      rewrite !app_nil_r. reflexivity.
  - injection H as _ <-. cbn [trace]. rewrite writes_to_app. simpl.
    apply app_nil_r.
Qed.

Lemma nvm_ready_poll_error b : forall fuel t r t',
  nvm_ready_poll b fuel t = Some (Some r, t') ->
  r = -1 /\ exists tr, trace t' = (tr ++ [CheckError true])%list.
Proof.
  induction fuel as [|fuel IH]; intros t r t' H; [discriminate|].
  cbn [nvm_ready_poll] in H.
  unfold target_mem_read32 in H.
  destruct (Z.land _ SAMD_NVMC_READY =? 0); [|discriminate].
  unfold target_check_error in H. cbn [reads checks trace] in H.
  destruct (check_error b (checks t)).
  - injection H as <- <-. split; [reflexivity|]. eexists. reflexivity.
  - exact (IH _ _ _ H).
Qed.

Lemma erase_rows_0 f : 0 < blocksize f -> erase_rows f 0 = 0%nat.
Proof.
  intros H. unfold erase_rows.
  replace ((0 + blocksize f - 1) / blocksize f) with 0; [reflexivity|].
  symmetry. apply Z.div_small. lia.
Qed.

Lemma erase_rows_step f len :
  0 < blocksize f -> 0 < len ->
  erase_rows f len =
  S (erase_rows f (if blocksize f <? len then len - blocksize f else 0)).
Proof.
  intros Hb Hl. unfold erase_rows.
  destruct (blocksize f <? len) eqn:E.
  - apply Z.ltb_lt in E.
    replace (len + blocksize f - 1)
      with ((len - blocksize f + blocksize f - 1) + 1 * blocksize f) by lia.
    rewrite Z.div_add by lia. rewrite Z2Nat.inj_add; [|apply Z.div_pos; lia|lia].
    simpl. lia.
  - apply Z.ltb_ge in E.
    replace ((0 + blocksize f - 1) / blocksize f) with 0
      by (symmetry; apply Z.div_small; lia).
    replace ((len + blocksize f - 1) / blocksize f) with 1; [reflexivity|].
    symmetry. replace (len + blocksize f - 1) with ((len - 1) + 1 * blocksize f) by lia.
    rewrite Z.div_add by lia. rewrite Z.div_small by lia. reflexivity.
Qed.

Lemma row_address_0 f addr :
  0 <= addr < 2 ^ 32 -> row_address f addr 0 = Z.shiftr addr 1.
Proof.
  intros H. unfold row_address, u32. simpl. rewrite Z.add_0_r.
  rewrite Z.mod_small by exact H. reflexivity.
Qed.

Lemma row_address_S f addr i :
  row_address f addr (S i) = row_address f (u32 (addr + blocksize f)) i.
Proof.
  unfold row_address, u32. f_equal.
  rewrite Zplus_mod_idemp_l. f_equal. lia.
Qed.

Lemma row_addresses_S f addr n :
  0 <= addr < 2 ^ 32 ->
  map (row_address f addr) (seq 0 (S n)) =
  Z.shiftr addr 1 :: map (row_address f (u32 (addr + blocksize f))) (seq 0 n).
Proof.
  intros H. simpl. rewrite row_address_0 by exact H. f_equal.
  rewrite <- seq_shift, map_map. apply map_ext. intros i.
  apply row_address_S.
Qed.

Lemma u32_range x : 0 <= u32 x < 2 ^ 32.
Proof. unfold u32. apply Z.mod_pos_bound. lia. Qed.

(** What a run of [samd_flash_erase] wrote, by rows: [k] rows were
    erased and locked again; on [-1] one more was unlocked and sent the
    erase command. *)
Lemma samd_flash_erase_account b f (Hbs : 0 < blocksize f) :
  forall fuel t addr len r t',
  0 <= addr < 2 ^ 32 -> 0 <= len ->
  samd_flash_erase b fuel f t addr len = Some (r, t') ->
  exists k : nat,
    writes_to SAMD_NVMC_ADDRESS (trace t') =
      (writes_to SAMD_NVMC_ADDRESS (trace t)
       ++ map (row_address f addr) (seq 0 (if r =? 0 then k else S k)))%list
    /\ writes_to SAMD_NVMC_CTRLA (trace t') =
      (writes_to SAMD_NVMC_CTRLA (trace t)
       ++ concat (repeat row_commands k)
       ++ (if r =? 0 then [] else firstn 2 row_commands))%list
    /\ ((r = 0 /\ k = erase_rows f len)
        \/ (r = -1 /\ (k < erase_rows f len)%nat
            /\ exists tr, trace t' = (tr ++ [CheckError true])%list)).
Proof.
  induction fuel as [|fuel IH]; intros t addr len r t' Ha Hl H; [discriminate|].
  cbn [samd_flash_erase] in H.
  destruct (len =? 0) eqn:E0.
  - apply Z.eqb_eq in E0. subst len. injection H as <- <-.
    exists 0%nat. simpl. rewrite !app_nil_r.
    split; [reflexivity|]. split; [reflexivity|].
    left. split; [reflexivity|]. symmetry. apply erase_rows_0. exact Hbs.
  - apply Z.eqb_neq in E0.
    match type of H with
    | match nvm_ready_poll b fuel ?q with _ => _ end = _ =>
        set (t1 := q) in H;
        destruct (nvm_ready_poll b fuel t1) as [[[x|] t2]|] eqn:P
    end; [| |discriminate].
    + (* the poll returns -1 *)
      injection H as <- <-.
      destruct (nvm_ready_poll_error _ _ _ _ _ P) as [-> Hlast].
      pose proof (nvm_ready_poll_writes b SAMD_NVMC_ADDRESS _ _ _ _ P) as WA.
      pose proof (nvm_ready_poll_writes b SAMD_NVMC_CTRLA _ _ _ _ P) as WC.
      exists 0%nat. split; [|split].
      * rewrite WA. subst t1.
        unfold samd_unlock_current_address, target_mem_write32, emit.
        cbn [trace]. rewrite !writes_to_app.
        change (-1 =? 0) with false. cbv iota.
        rewrite (row_addresses_S f addr) by exact Ha. simpl.
        rewrite <- !app_assoc. reflexivity.
      * rewrite WC. subst t1.
        unfold samd_unlock_current_address, target_mem_write32, emit.
        cbn [trace]. rewrite !writes_to_app. simpl.
        rewrite <- !app_assoc. reflexivity.
      * right. split; [reflexivity|]. split; [|exact Hlast].
        rewrite erase_rows_step by lia. lia.
    + (* the row is erased *)
      pose proof (nvm_ready_poll_writes b SAMD_NVMC_ADDRESS _ _ _ _ P) as WA.
      pose proof (nvm_ready_poll_writes b SAMD_NVMC_CTRLA _ _ _ _ P) as WC.
      apply IH in H; [|apply u32_range|destruct (blocksize f <? len) eqn:E;
                                       [apply Z.ltb_lt in E; lia|lia]].
      destruct H as [k [HA [HC HR]]].
      exists (S k). split; [|split].
      * rewrite HA. unfold samd_lock_current_address, target_mem_write32, emit.
        cbn [trace]. rewrite writes_to_app, WA. subst t1.
        unfold samd_unlock_current_address, target_mem_write32, emit.
        cbn [trace]. rewrite !writes_to_app.
        destruct (r =? 0); rewrite (row_addresses_S f addr) by exact Ha; simpl;
          rewrite <- !app_assoc; reflexivity.
      * rewrite HC. unfold samd_lock_current_address, target_mem_write32, emit.
        cbn [trace]. rewrite writes_to_app, WC. subst t1.
        unfold samd_unlock_current_address, target_mem_write32, emit.
        cbn [trace]. rewrite !writes_to_app. simpl.
        rewrite <- !app_assoc. reflexivity.
      * rewrite (erase_rows_step f len) by lia.
        destruct HR as [[-> ->]|[-> [Hk Hlast]]].
        -- left. split; reflexivity.
        -- right. split; [reflexivity|]. split; [lia|exact Hlast].
Qed.

(** X1.  When [samd_flash_erase] returns 0 it has erased exactly the
    rows that [len] bytes from [addr] touch, in rising order: for each
    it wrote the row's address, shifted right by one, to the ADDRESS
    register and sent the commands UNLOCK, ERASEROW and LOCK. *)
Theorem samd_flash_erase_rows (b : bench) (f : target_flash) (fuel : nat)
  (t t' : target) (addr len : Z)
  (Hbs : 0 < blocksize f) (Haddr : 0 <= addr < 2 ^ 32) (Hlen : 0 <= len)
  (Hrun : samd_flash_erase b fuel f t addr len = Some (0, t')) :
  writes_to SAMD_NVMC_ADDRESS (trace t') =
    (writes_to SAMD_NVMC_ADDRESS (trace t)
     ++ map (row_address f addr) (seq 0 (erase_rows f len)))%list
  /\ writes_to SAMD_NVMC_CTRLA (trace t') =
    (writes_to SAMD_NVMC_CTRLA (trace t)
     ++ concat (repeat row_commands (erase_rows f len)))%list.
Proof.
  destruct (samd_flash_erase_account b f Hbs _ _ _ _ _ _ Haddr Hlen Hrun)
    as [k [HA [HC [[_ ->]|[F _]]]]]; [|discriminate].
  simpl in HA, HC. rewrite app_nil_r in HC. split; assumption.
Qed.

(** A run of X1: 0x201 bytes from 0x1F00 take three rows. *)
Lemma samd_flash_erase_rows_witness :
  exists t',
    samd_flash_erase prompt_bench 4 (samd_add_flash 0 0x40000) target_init
      0x1F00 0x201 = Some (0, t')
    /\ writes_to SAMD_NVMC_ADDRESS (trace t') =
         (writes_to SAMD_NVMC_ADDRESS (trace target_init)
          ++ map (row_address (samd_add_flash 0 0x40000) 0x1F00)
               (seq 0 (erase_rows (samd_add_flash 0 0x40000) 0x201)))%list
    /\ writes_to SAMD_NVMC_CTRLA (trace t') =
         (writes_to SAMD_NVMC_CTRLA (trace target_init)
          ++ concat (repeat row_commands
                       (erase_rows (samd_add_flash 0 0x40000) 0x201)))%list.
Proof.
  eexists. split; [vm_compute; reflexivity|].
  eapply (samd_flash_erase_rows prompt_bench _ 4);
    [reflexivity|vm_compute; split; [discriminate|reflexivity]
    |discriminate|vm_compute; reflexivity].
Defined.

(** X2.  The only other value [samd_flash_erase] returns is -1, and it
    does so right after [target_check_error] reported an error while
    the NVM controller was not ready: fewer rows than asked for were
    erased, and the row being erased was unlocked and never locked
    again. *)
Theorem samd_flash_erase_failure (b : bench) (f : target_flash) (fuel : nat)
  (t t' : target) (addr len r : Z)
  (Hbs : 0 < blocksize f) (Haddr : 0 <= addr < 2 ^ 32) (Hlen : 0 <= len)
  (Hrun : samd_flash_erase b fuel f t addr len = Some (r, t'))
  (Hr : r <> 0) :
  r = -1
  /\ (exists tr, trace t' = (tr ++ [CheckError true])%list)
  /\ exists k : nat,
       (k < erase_rows f len)%nat
       /\ writes_to SAMD_NVMC_ADDRESS (trace t') =
            (writes_to SAMD_NVMC_ADDRESS (trace t)
             ++ map (row_address f addr) (seq 0 (S k)))%list
       /\ writes_to SAMD_NVMC_CTRLA (trace t') =
            (writes_to SAMD_NVMC_CTRLA (trace t)
             ++ concat (repeat row_commands k)
             ++ [Z.lor SAMD_CTRLA_CMD_KEY SAMD_CTRLA_CMD_UNLOCK;
                 Z.lor SAMD_CTRLA_CMD_KEY SAMD_CTRLA_CMD_ERASEROW])%list.
Proof.
  destruct (samd_flash_erase_account b f Hbs _ _ _ _ _ _ Haddr Hlen Hrun)
    as [k [HA [HC [[F _]|[-> [Hk Hlast]]]]]]; [contradiction|].
  split; [reflexivity|]. split; [exact Hlast|].
  exists k. split; [exact Hk|]. split; [exact HA|exact HC].
Qed.

(** A run of X2: the second row never gets ready and an error is
    latched. *)
Lemma samd_flash_erase_failure_witness :
  exists t',
    samd_flash_erase stalling_bench 4 (samd_add_flash 0 0x40000) target_init
      0x1F00 0x201 = Some (-1, t')
    /\ -1 = -1
    /\ (exists tr, trace t' = (tr ++ [CheckError true])%list)
    /\ exists k : nat,
         (k < erase_rows (samd_add_flash 0 0x40000) 0x201)%nat
         /\ writes_to SAMD_NVMC_ADDRESS (trace t') =
              (writes_to SAMD_NVMC_ADDRESS (trace target_init)
               ++ map (row_address (samd_add_flash 0 0x40000) 0x1F00)
                    (seq 0 (S k)))%list
         /\ writes_to SAMD_NVMC_CTRLA (trace t') =
              (writes_to SAMD_NVMC_CTRLA (trace target_init)
               ++ concat (repeat row_commands k)
               ++ [Z.lor SAMD_CTRLA_CMD_KEY SAMD_CTRLA_CMD_UNLOCK;
                   Z.lor SAMD_CTRLA_CMD_KEY SAMD_CTRLA_CMD_ERASEROW])%list.
Proof.
  eexists. split; [vm_compute; reflexivity|].
  eapply (samd_flash_erase_failure stalling_bench _ 4);
    [reflexivity|vm_compute; split; [discriminate|reflexivity]
    |discriminate|vm_compute; reflexivity|discriminate].
Defined.

Lemma nvm_flag_0 b t :
  nvm_flag b t 0 = mem_read32 b (reads t) SAMD_NVMC_INTFLAG.
Proof. unfold nvm_flag, sample. f_equal. lia. Qed.

Lemma nvm_ready_poll_step b fuel t :
  nvm_ready_poll b (S fuel) t =
    if nvm_ready (nvm_flag b t 0) then
      Some (None, snd (target_mem_read32 b t SAMD_NVMC_INTFLAG))
    else if latched b t 0 then
      Some (Some (-1),
            snd (target_check_error b
                   (snd (target_mem_read32 b t SAMD_NVMC_INTFLAG))))
    else nvm_ready_poll b fuel
           (snd (target_check_error b
                   (snd (target_mem_read32 b t SAMD_NVMC_INTFLAG)))).
Proof.
  rewrite nvm_flag_0, latched_0. unfold nvm_ready, tst.
  cbn [nvm_ready_poll target_mem_read32 target_check_error snd reads checks].
  destruct (Z.land _ SAMD_NVMC_READY =? 0); cbn [negb]; [|reflexivity].
  destruct (check_error b (checks t)); reflexivity.
Qed.

(** On a target whose NVM controller is ready whenever asked, the poll
    is one read. *)
Lemma nvm_ready_poll_prompt b fuel t :
  (forall n, nvm_ready (mem_read32 b n SAMD_NVMC_INTFLAG) = true) ->
  nvm_ready_poll b (S fuel) t =
    Some (None, snd (target_mem_read32 b t SAMD_NVMC_INTFLAG)).
Proof.
  intros H. rewrite nvm_ready_poll_step, nvm_flag_0, H. reflexivity.
Qed.

(** X3.  On a target whose NVM controller is ready whenever INTFLAG is
    read, [samd_flash_erase] returns 0, having read INTFLAG once for
    each row and never asked for the error state. *)
Theorem samd_flash_erase_ready (b : bench) (f : target_flash)
  (Hbs : 0 < blocksize f)
  (Hready : forall n, nvm_ready (mem_read32 b n SAMD_NVMC_INTFLAG) = true) :
  forall (fuel : nat) (t : target) (addr len : Z),
  0 <= len -> (S (erase_rows f len) < fuel)%nat ->
  exists t',
    samd_flash_erase b fuel f t addr len = Some (0, t')
    /\ reads t' = (reads t + erase_rows f len)%nat
    /\ checks t' = checks t.
Proof.
  induction fuel as [|fuel IH]; intros t addr len Hl Hf; [lia|].
  cbn [samd_flash_erase].
  destruct (len =? 0) eqn:E0.
  - apply Z.eqb_eq in E0. subst len. rewrite erase_rows_0 by exact Hbs.
    exists t. split; [reflexivity|]. split; [lia|reflexivity].
  - apply Z.eqb_neq in E0.
    rewrite (erase_rows_step f len) in * by lia.
    destruct fuel as [|fuel]; [lia|].
    rewrite nvm_ready_poll_prompt by exact Hready.
    match goal with
    | |- context [samd_flash_erase b (S fuel) f ?q ?a ?l] =>
        destruct (IH q a l) as [t' [E [R C]]]
    end.
    + destruct (blocksize f <? len) eqn:E; [apply Z.ltb_lt in E; lia|lia].
    + lia.
    + exists t'. split; [exact E|]. rewrite R, C. cbn. split; [lia|reflexivity].
Qed.

(** A run of X3 on the same three rows. *)
Lemma samd_flash_erase_ready_witness :
  exists t',
    samd_flash_erase prompt_bench 5 (samd_add_flash 0 0x40000) target_init
      0x1F00 0x201 = Some (0, t')
    /\ reads t' = (reads target_init + erase_rows (samd_add_flash 0 0x40000) 0x201)%nat
    /\ checks t' = checks target_init.
Proof.
  apply (samd_flash_erase_ready prompt_bench (samd_add_flash 0 0x40000));
    [reflexivity|reflexivity|discriminate|vm_compute; lia].
Defined.

(** *** The user row *)

Lemma nvm_step_flag b t k :
  nvm_flag b (snd (target_check_error b
                     (snd (target_mem_read32 b t SAMD_NVMC_INTFLAG)))) k
  = nvm_flag b t (S k).
Proof. unfold nvm_flag, sample. cbn. f_equal. lia. Qed.

Lemma nvm_step_latched b t k :
  latched b (snd (target_check_error b
                    (snd (target_mem_read32 b t SAMD_NVMC_INTFLAG)))) k
  = latched b t (S k).
Proof. unfold latched. cbn. f_equal. lia. Qed.

Lemma flat_map_seq_succ {A : Type} (g : nat -> list A) (n : nat) :
  flat_map g (seq 0 (S n)) = (g 0%nat ++ flat_map (fun i => g (S i)) (seq 0 n))%list.
Proof.
  simpl. f_equal. rewrite <- seq_shift.
  induction (seq 0 n) as [|x xs IH]; simpl; [reflexivity|].
  rewrite IH. reflexivity.
Qed.

Lemma nvm_poll_calls_S b t k :
  nvm_poll_calls b t (S k) =
  ([MemRead32 SAMD_NVMC_INTFLAG (nvm_flag b t 0); CheckError false]
   ++ nvm_poll_calls b
        (snd (target_check_error b
                (snd (target_mem_read32 b t SAMD_NVMC_INTFLAG)))) k)%list.
Proof.
  unfold nvm_poll_calls. rewrite flat_map_seq_succ, nvm_step_flag.
  rewrite <- app_assoc. f_equal. f_equal.
  apply flat_map_ext. intros j. rewrite nvm_step_flag. reflexivity.
Qed.

(** The poll finds the controller ready in its [k]-th iteration, after
    [k] iterations in which it was busy and no error showed. *)
Lemma nvm_ready_poll_complete b : forall k fuel t,
  nvm_waits b t k -> nvm_ready (nvm_flag b t k) = true -> (k < fuel)%nat ->
  nvm_ready_poll b fuel t =
    Some (None, {| reads := reads t + S k; checks := checks t + k;
                   trace := trace t ++ nvm_poll_calls b t k |}).
Proof.
  induction k as [|k IH]; intros fuel t Hw Hr Hf;
    (destruct fuel as [|fuel]; [lia|]); rewrite nvm_ready_poll_step.
  - rewrite Hr. cbn. unfold nvm_poll_calls. cbn [seq flat_map app].
    rewrite nvm_flag_0. repeat f_equal; lia.
  - destruct (Hw 0%nat ltac:(lia)) as [H1 H2]. rewrite H1, H2.
    rewrite IH.
    + rewrite nvm_poll_calls_S.
      cbn [target_mem_read32 target_check_error snd reads checks trace].
      rewrite latched_0 in H2. rewrite H2. rewrite nvm_flag_0.
      f_equal. f_equal. f_equal; [lia|lia|].
      rewrite <- !app_assoc. reflexivity.
    + intros j Hj. rewrite nvm_step_flag, nvm_step_latched. apply Hw. lia.
    + rewrite nvm_step_flag. exact Hr.
    + lia.
Qed.

Lemma lor_disjoint (a c n : Z) :
  0 <= n -> 0 <= a < 2 ^ n -> c mod 2 ^ n = 0 -> Z.lor a c = a + c.
Proof.
  intros Hn Ha Hc. rewrite <- Z.add_lor_land.
  assert (E : Z.land a c = 0); [|rewrite E; lia].
  apply Z.bits_inj'. intros i Hi. rewrite Z.land_spec, Z.bits_0.
  destruct (Z.lt_ge_cases i n) as [Hlt|Hge].
  - assert (Ec : c = (c / 2 ^ n) * 2 ^ n).
    { pose proof (Z.div_mod c (2 ^ n)) as D. lia. }
    rewrite Ec, Z.mul_pow2_bits_low by lia. apply andb_false_r.
  - rewrite <- (Z.mod_small a (2 ^ n)) by exact Ha.
    rewrite Z.mod_pow2_bits_high by lia. reflexivity.
Qed.

Lemma lock_bits_word (high value : Z) :
  0 <= value < 2 ^ 16 ->
  Z.lor (Z.land high 0x0000FFFF) (Z.land (Z.shiftl value 16) 0xFFFF0000)
  = high mod 2 ^ 16 + value * 2 ^ 16.
Proof.
  intros Hv.
  change 0x0000FFFF with (Z.ones 16).
  change 0xFFFF0000 with (Z.shiftl (Z.ones 16) 16).
  rewrite <- Z.shiftl_land, !Z.land_ones by lia.
  rewrite (Z.mod_small value) by exact Hv.
  rewrite Z.shiftl_mul_pow2 by lia.
  apply (lor_disjoint _ _ 16); [lia|apply Z.mod_pos_bound; lia|].
  apply Z.mod_mul. lia.
Qed.

Lemma clear_low_bits (low : Z) :
  0 <= low < 2 ^ 32 -> Z.land low 0xFFFFFFF8 = low - low mod 8.
Proof.
  intros Hl.
  replace (low - low mod 8) with (Z.shiftl (Z.shiftr low 3) 3).
  - change 0xFFFFFFF8 with (Z.shiftl (Z.ones 29) 3).
    apply Z.bits_inj'. intros i Hi. rewrite Z.land_spec.
    destruct (Z.lt_ge_cases i 3) as [H3|H3].
    + rewrite !Z.shiftl_spec_low by lia. apply andb_false_r.
    + rewrite !Z.shiftl_spec, Z.shiftr_spec by lia.
      replace (i - 3 + 3) with i by lia.
      destruct (Z.lt_ge_cases i 32) as [H32|H32].
      * rewrite Z.ones_spec_low by lia. apply andb_true_r.
      * rewrite Z.ones_spec_high by lia.
        rewrite <- (Z.mod_small low (2 ^ 32)) by exact Hl.
        rewrite Z.mod_pow2_bits_high by lia. reflexivity.
  - rewrite Z.shiftl_mul_pow2, Z.shiftr_div_pow2 by lia.
    change (2 ^ 3) with 8. pose proof (Z.div_mod low 8). lia.
Qed.

Lemma bootprot_word (low value : Z) :
  0 <= low < 2 ^ 32 ->
  Z.lor (Z.land low 0xFFFFFFF8) (Z.land (Z.shiftl value 0) 0x00000007)
  = low - low mod 8 + value mod 8.
Proof.
  intros Hl. rewrite clear_low_bits by exact Hl. rewrite Z.shiftl_0_r.
  change 0x00000007 with (Z.ones 3). rewrite Z.land_ones by lia.
  change (2 ^ 3) with 8.
  rewrite Z.lor_comm, Z.add_comm.
  apply (lor_disjoint _ _ 3); [lia|apply Z.mod_pos_bound; lia|].
  change (2 ^ 3) with 8. Z.div_mod_to_equations. lia.
Qed.

Lemma nvm_poll_calls_writes b t reg k :
  writes_to reg (nvm_poll_calls b t k) = [].
Proof.
  unfold nvm_poll_calls. rewrite writes_to_app. simpl. rewrite app_nil_r.
  induction (seq 0 k) as [|j js IH]; [reflexivity|]. exact IH.
Qed.

Lemma samd_set_flashlock_unfold b fuel t value :
  samd_set_flashlock b fuel t value =
    match nvm_ready_poll b fuel (user_row_armed b t) with
    | None => None
    | Some (Some r, t1) => Some (bool_of_int r, t1)
    | Some (None, t1) =>
        Some (true,
              target_mem_write32
                (target_mem_write32
                   (target_mem_write32 t1 SAMD_NVM_USER_ROW_LOW (user_row_low b t))
                   SAMD_NVM_USER_ROW_HIGH
                   (Z.lor (Z.land (user_row_high b t) 0x0000FFFF)
                          (Z.land (Z.shiftl value 16) 0xFFFF0000)))
                SAMD_NVMC_CTRLA
                (Z.lor SAMD_CTRLA_CMD_KEY SAMD_CTRLA_CMD_WRITEAUXPAGE))
    end.
Proof. reflexivity. Qed.

Lemma samd_set_bootprot_unfold b fuel t value :
  samd_set_bootprot b fuel t value =
    match nvm_ready_poll b fuel (user_row_armed b t) with
    | None => None
    | Some (Some r, t1) => Some (bool_of_int r, t1)
    | Some (None, t1) =>
        Some (true,
              target_mem_write32
                (target_mem_write32
                   (target_mem_write32 t1 SAMD_NVM_USER_ROW_LOW
                      (Z.lor (Z.land (user_row_low b t) 0xFFFFFFF8)
                             (Z.land (Z.shiftl value 0) 0x00000007)))
                   SAMD_NVM_USER_ROW_HIGH (user_row_high b t))
                SAMD_NVMC_CTRLA
                (Z.lor SAMD_CTRLA_CMD_KEY SAMD_CTRLA_CMD_WRITEAUXPAGE))
    end.
Proof. reflexivity. Qed.

Lemma user_row_armed_writes b t reg :
  writes_to reg (trace (user_row_armed b t)) =
  (writes_to reg (trace t)
   ++ writes_to reg
        [MemWrite32 SAMD_NVMC_ADDRESS (Z.shiftr SAMD_NVM_USER_ROW_LOW 1);
         MemWrite32 SAMD_NVMC_CTRLA
           (Z.lor SAMD_CTRLA_CMD_KEY SAMD_CTRLA_CMD_ERASEAUXROW)])%list.
Proof.
  unfold user_row_armed, target_mem_write32, target_mem_read32, emit.
  cbn [snd trace]. rewrite <- !app_assoc, !writes_to_app.
  cbn [writes_to app].
  destruct (SAMD_NVMC_ADDRESS =? reg), (SAMD_NVMC_CTRLA =? reg); reflexivity.
Qed.

(** X4.  When the NVM controller gets ready after the user row was
    erased, [samd_set_flashlock] returns [true] and writes the row
    back with only the lock bits changed: the low word as read, and a
    high word that has the 16 low bits as read and [value] in the 16
    high bits. *)
Theorem samd_set_flashlock_keeps_rest_of_row (b : bench) (fuel : nat)
  (t : target) (value : Z) (k : nat)
  (Hvalue : 0 <= value < 2 ^ 16)
  (Hwaits : nvm_waits b (user_row_armed b t) k)
  (Hready : nvm_ready (nvm_flag b (user_row_armed b t) k) = true)
  (Hfuel : (k < fuel)%nat) :
  exists t',
    samd_set_flashlock b fuel t value = Some (true, t')
    /\ writes_to SAMD_NVM_USER_ROW_LOW (trace t') =
         (writes_to SAMD_NVM_USER_ROW_LOW (trace t) ++ [user_row_low b t])%list
    /\ writes_to SAMD_NVM_USER_ROW_HIGH (trace t') =
         (writes_to SAMD_NVM_USER_ROW_HIGH (trace t)
          ++ [user_row_high b t mod 2 ^ 16 + value * 2 ^ 16])%list
    /\ writes_to SAMD_NVMC_CTRLA (trace t') =
         (writes_to SAMD_NVMC_CTRLA (trace t)
          ++ [Z.lor SAMD_CTRLA_CMD_KEY SAMD_CTRLA_CMD_ERASEAUXROW;
              Z.lor SAMD_CTRLA_CMD_KEY SAMD_CTRLA_CMD_WRITEAUXPAGE])%list.
Proof.
  rewrite samd_set_flashlock_unfold.
  rewrite (nvm_ready_poll_complete b k fuel _ Hwaits Hready Hfuel).
  rewrite lock_bits_word by exact Hvalue.
  eexists. split; [reflexivity|].
  unfold target_mem_write32, emit. cbn [trace].
  rewrite !writes_to_app, !user_row_armed_writes, !nvm_poll_calls_writes.
  cbn [app]. rewrite <- !app_assoc.
  split; [|split]; reflexivity.
Qed.

(** A run of X4 on a user row of 0xFFFFABCD12345678. *)
Lemma samd_set_flashlock_keeps_rest_of_row_witness :
  exists t',
    samd_set_flashlock ready_bench 1 target_init 0x1234 = Some (true, t')
    /\ writes_to SAMD_NVM_USER_ROW_LOW (trace t') =
         (writes_to SAMD_NVM_USER_ROW_LOW (trace target_init)
          ++ [user_row_low ready_bench target_init])%list
    /\ writes_to SAMD_NVM_USER_ROW_HIGH (trace t') =
         (writes_to SAMD_NVM_USER_ROW_HIGH (trace target_init)
          ++ [user_row_high ready_bench target_init mod 2 ^ 16
              + 0x1234 * 2 ^ 16])%list
    /\ writes_to SAMD_NVMC_CTRLA (trace t') =
         (writes_to SAMD_NVMC_CTRLA (trace target_init)
          ++ [Z.lor SAMD_CTRLA_CMD_KEY SAMD_CTRLA_CMD_ERASEAUXROW;
              Z.lor SAMD_CTRLA_CMD_KEY SAMD_CTRLA_CMD_WRITEAUXPAGE])%list.
Proof.
  apply (samd_set_flashlock_keeps_rest_of_row ready_bench 1 target_init 0x1234 0).
  - vm_compute. split; [discriminate|reflexivity].
  - intros j Hj. lia.
  - reflexivity.
  - lia.
Defined.

(** X5.  When the NVM controller gets ready after the user row was
    erased, [samd_set_bootprot] returns [true] and writes the row back
    with only the boot protection changed: the high word as read, and
    a low word that has the three low bits of [value] in its three low
    bits and is as read above them. *)
Theorem samd_set_bootprot_keeps_rest_of_row (b : bench) (fuel : nat)
  (t : target) (value : Z) (k : nat)
  (Hlow : 0 <= user_row_low b t < 2 ^ 32)
  (Hwaits : nvm_waits b (user_row_armed b t) k)
  (Hready : nvm_ready (nvm_flag b (user_row_armed b t) k) = true)
  (Hfuel : (k < fuel)%nat) :
  exists t',
    samd_set_bootprot b fuel t value = Some (true, t')
    /\ writes_to SAMD_NVM_USER_ROW_LOW (trace t') =
         (writes_to SAMD_NVM_USER_ROW_LOW (trace t)
          ++ [user_row_low b t - user_row_low b t mod 8 + value mod 8])%list
    /\ writes_to SAMD_NVM_USER_ROW_HIGH (trace t') =
         (writes_to SAMD_NVM_USER_ROW_HIGH (trace t) ++ [user_row_high b t])%list
    /\ writes_to SAMD_NVMC_CTRLA (trace t') =
         (writes_to SAMD_NVMC_CTRLA (trace t)
          ++ [Z.lor SAMD_CTRLA_CMD_KEY SAMD_CTRLA_CMD_ERASEAUXROW;
              Z.lor SAMD_CTRLA_CMD_KEY SAMD_CTRLA_CMD_WRITEAUXPAGE])%list.
Proof.
  rewrite samd_set_bootprot_unfold.
  rewrite (nvm_ready_poll_complete b k fuel _ Hwaits Hready Hfuel).
  rewrite bootprot_word by exact Hlow.
  eexists. split; [reflexivity|].
  unfold target_mem_write32, emit. cbn [trace].
  rewrite !writes_to_app, !user_row_armed_writes, !nvm_poll_calls_writes.
  cbn [app]. rewrite <- !app_assoc.
  split; [|split]; reflexivity.
Qed.

(** A run of X5 on a user row of 0xFFFFABCD12345678. *)
Lemma samd_set_bootprot_keeps_rest_of_row_witness :
  exists t',
    samd_set_bootprot ready_bench 1 target_init 2 = Some (true, t')
    /\ writes_to SAMD_NVM_USER_ROW_LOW (trace t') =
         (writes_to SAMD_NVM_USER_ROW_LOW (trace target_init)
          ++ [user_row_low ready_bench target_init
              - user_row_low ready_bench target_init mod 8 + 2 mod 8])%list
    /\ writes_to SAMD_NVM_USER_ROW_HIGH (trace t') =
         (writes_to SAMD_NVM_USER_ROW_HIGH (trace target_init)
          ++ [user_row_high ready_bench target_init])%list
    /\ writes_to SAMD_NVMC_CTRLA (trace t') =
         (writes_to SAMD_NVMC_CTRLA (trace target_init)
          ++ [Z.lor SAMD_CTRLA_CMD_KEY SAMD_CTRLA_CMD_ERASEAUXROW;
              Z.lor SAMD_CTRLA_CMD_KEY SAMD_CTRLA_CMD_WRITEAUXPAGE])%list.
Proof.
  apply (samd_set_bootprot_keeps_rest_of_row ready_bench 1 target_init 2 0).
  - vm_compute. split; [discriminate|reflexivity].
  - intros j Hj. lia.
  - reflexivity.
  - lia.
Defined.

(** X6.  Whatever the target does, [samd_set_bootprot] does not
    return [false]: where the poll meets a target error it returns
    [-1], which the return type [bool] turns into [true], without
    having written the row back. *)
Theorem samd_set_bootprot_never_false (b : bench) (fuel : nat) (t t' : target)
  (value : Z) (r : bool)
  (Hrun : samd_set_bootprot b fuel t value = Some (r, t')) :
  r = true
  /\ (writes_to SAMD_NVM_USER_ROW_LOW (trace t')
        = writes_to SAMD_NVM_USER_ROW_LOW (trace t)
      -> exists tr, trace t' = (tr ++ [CheckError true])%list).
Proof.
  rewrite samd_set_bootprot_unfold in Hrun.
  destruct (nvm_ready_poll b fuel (user_row_armed b t)) as [[[x|] t1]|] eqn:E;
    [| |discriminate].
  - destruct (nvm_ready_poll_error _ _ _ _ _ E) as [-> Hlast].
    injection Hrun as <- <-. split; [reflexivity|]. intros _. exact Hlast.
  - injection Hrun as <- <-. split; [reflexivity|].
    pose proof (nvm_ready_poll_writes b SAMD_NVM_USER_ROW_LOW _ _ _ _ E) as W.
    unfold target_mem_write32, emit. cbn [trace].
    rewrite !writes_to_app, W, user_row_armed_writes. cbn [app].
    rewrite <- !app_assoc. intros F. exfalso.
    apply (f_equal (@List.length Z)) in F. rewrite !length_app in F.
    cbn in F. lia.
Qed.

(** A run of X6 with the NVM controller busy and an error latched. *)
Lemma samd_set_bootprot_never_false_witness :
  exists t',
    samd_set_bootprot faulty_bench 1 target_init 7 = Some (true, t')
    /\ true = true
    /\ (writes_to SAMD_NVM_USER_ROW_LOW (trace t')
          = writes_to SAMD_NVM_USER_ROW_LOW (trace target_init)
        -> exists tr, trace t' = (tr ++ [CheckError true])%list).
Proof.
  eexists. split; [vm_compute; reflexivity|].
  eapply (samd_set_bootprot_never_false faulty_bench 1 target_init _ 7).
  vm_compute. reflexivity.
Defined.

(** *** [samd_reset] *)

Lemma first_false (p : nat -> bool) : forall k,
  p k = false ->
  exists k0, (k0 <= k)%nat /\ p k0 = false /\ forall j, (j < k0)%nat -> p j = true.
Proof.
  induction k as [k IH] using lt_wf_ind. intros Hk.
  destruct (existsb (fun j => negb (p j)) (seq 0 k)) eqn:E.
  - apply existsb_exists in E. destruct E as [j [Hin Hj]].
    apply in_seq in Hin. apply negb_true_iff in Hj.
    destruct (IH j ltac:(lia) Hj) as [k0 [H1 H2]].
    exists k0. split; [lia|exact H2].
  - exists k. split; [lia|]. split; [exact Hk|]. intros j Hj.
    destruct (p j) eqn:Pj; [reflexivity|]. exfalso.
    assert (X : existsb (fun j => negb (p j)) (seq 0 k) = true).
    { apply existsb_exists. exists j. split; [apply in_seq; lia|].
      rewrite Pj. reflexivity. }
    congruence.
Qed.

Local Abbreviation dhcsr_at cm b t j :=
  (mem_read32 b (reads t + j)%nat (CORTEXM_DHCSR cm)).

Lemma reset_poll_complete cm b : forall k fuel t,
  (forall j, (j < k)%nat -> in_reset cm (dhcsr_at cm b t j) = true) ->
  in_reset cm (dhcsr_at cm b t k) = false -> (k < fuel)%nat ->
  reset_poll cm b fuel t =
    Some {| reads := reads t + S k; checks := checks t;
            trace := trace t
                     ++ map (fun j => MemRead32 (CORTEXM_DHCSR cm) (dhcsr_at cm b t j))
                          (seq 0 (S k)) |}.
Proof.
  induction k as [|k IH]; intros fuel t Hb Hr Hf;
    (destruct fuel as [|fuel]; [lia|]); cbn [reset_poll target_mem_read32].
  - unfold in_reset in Hr. rewrite Nat.add_0_r in Hr. rewrite Hr.
    cbn [seq map]. rewrite Nat.add_0_r. f_equal. f_equal. lia.
  - pose proof (Hb 0%nat ltac:(lia)) as H0. unfold in_reset in H0.
    rewrite Nat.add_0_r in H0. rewrite H0.
    rewrite IH.
    + cbn [reads checks trace]. f_equal. f_equal; [lia|].
      rewrite <- app_assoc. f_equal.
      change (seq 0 (S (S k))) with (0%nat :: seq 1 (S k)).
      rewrite <- seq_shift, map_cons, map_map, Nat.add_0_r.
      cbn [app]. f_equal. apply map_ext. intros j.
      replace (S (reads t) + j)%nat with (reads t + S j)%nat by lia. reflexivity.
    + intros j Hj. cbn [reads]. replace (S (reads t) + j)%nat
        with (reads t + S j)%nat by lia. apply Hb. lia.
    + cbn [reads]. replace (S (reads t) + k)%nat with (reads t + S k)%nat by lia.
      exact Hr.
    + lia.
Qed.

Lemma reset_poll_sound cm b : forall fuel t t',
  reset_poll cm b fuel t = Some t' ->
  exists k, in_reset cm (dhcsr_at cm b t k) = false.
Proof.
  induction fuel as [|fuel IH]; intros t t' H; [discriminate|].
  cbn [reset_poll target_mem_read32] in H.
  destruct (tst _ (CORTEXM_DHCSR_S_RESET_ST cm)) eqn:E.
  - apply IH in H. destruct H as [k Hk]. exists (S k).
    cbn [reads] in Hk. replace (reads t + S k)%nat with (S (reads t) + k)%nat by lia.
    exact Hk.
  - exists 0%nat. rewrite Nat.add_0_r. exact E.
Qed.

(** The state in which [samd_reset] enters its poll. *)
Lemma samd_reset_unfold cm b fuel t :
  exists t3,
    reads t3 = (reads t + 2)%nat /\ checks t3 = checks t
    /\ trace t3 =
         (trace t
          ++ [MemRead32 (CORTEXM_DHCSR cm) (mem_read32 b (reads t) (CORTEXM_DHCSR cm));
              MemWrite32 (CORTEXM_AIRCR cm)
                (Z.lor (CORTEXM_AIRCR_VECTKEY cm) (CORTEXM_AIRCR_SYSRESETREQ cm));
              MemRead32 SAMD_DSU_CTRLSTAT
                (mem_read32 b (S (reads t)) SAMD_DSU_CTRLSTAT)]
          ++ (if tst (mem_read32 b (S (reads t)) SAMD_DSU_CTRLSTAT)
                     SAMD_STATUSA_CRSTEXT
              then [MemWrite32 SAMD_DSU_CTRLSTAT SAMD_STATUSA_CRSTEXT] else []))%list
    /\ samd_reset cm b fuel t =
         match reset_poll cm b fuel t3 with
         | None => None
         | Some t4 =>
             Some (snd (target_check_error b
                          (target_mem_write32 t4 (CORTEXM_DFSR cm)
                             (CORTEXM_DFSR_RESETALL cm))))
         end.
Proof.
  unfold samd_reset, target_mem_read32, target_mem_write32, emit.
  cbn [reads checks trace].
  destruct (tst (mem_read32 b (S (reads t)) SAMD_DSU_CTRLSTAT) SAMD_STATUSA_CRSTEXT);
    eexists; (split; [|split; [|split; [|reflexivity]]]); cbn [reads checks trace];
    try lia; try reflexivity; rewrite <- !app_assoc; reflexivity.
Qed.

(** X7.  [samd_reset] reads DHCSR, requests a system reset through
    AIRCR, reads the DSU status and writes CRSTEXT back exactly when
    it is set, reads DHCSR until S_RESET_ST is clear, writes DFSR and
    asks for the error state once: when the core leaves reset at the
    [k]-th sample of the poll, these are its calls, in this order. *)
Theorem samd_reset_calls (cm : cortexm_h) (b : bench) (fuel : nat) (t : target)
  (k : nat)
  (Hbusy : forall j, (j < k)%nat -> in_reset cm (reset_dhcsr cm b t j) = true)
  (Hfree : in_reset cm (reset_dhcsr cm b t k) = false)
  (Hfuel : (k < fuel)%nat) :
  samd_reset cm b fuel t =
    Some {| reads := reads t + 3 + k; checks := S (checks t);
            trace := trace t ++ reset_calls cm b t k |}.
Proof.
  destruct (samd_reset_unfold cm b fuel t) as [t3 [R [C [T ->]]]].
  rewrite (reset_poll_complete cm b k fuel t3).
  - cbn [snd reads checks trace target_check_error target_mem_write32 emit].
    rewrite R, C, T. unfold reset_calls.
    f_equal. f_equal; [lia|].
    rewrite <- !app_assoc. reflexivity.
  - intros j Hj. rewrite R. apply Hbusy. exact Hj.
  - rewrite R. exact Hfree.
  - exact Hfuel.
Qed.

(** A run of X7 on a target in extended reset. *)
Lemma samd_reset_calls_witness :
  samd_reset armv7m_h crstext_bench 2 target_init =
    Some {| reads := reads target_init + 3 + 1; checks := S (checks target_init);
            trace := trace target_init
                     ++ reset_calls armv7m_h crstext_bench target_init 1 |}.
Proof.
  apply (samd_reset_calls armv7m_h crstext_bench 2 target_init 1).
  - intros j Hj. destruct j as [|j]; [reflexivity|lia].
  - reflexivity.
  - lia.
Defined.

(** X8.  The poll of [samd_reset] has no exit but S_RESET_ST reading
    clear: the function returns exactly when some DHCSR sample of the
    poll shows the core out of reset, whether or not the target has
    an error latched. *)
Theorem samd_reset_returns_iff_released (cm : cortexm_h) (b : bench) (t : target) :
  (exists fuel t', samd_reset cm b fuel t = Some t') <->
  (exists k, in_reset cm (reset_dhcsr cm b t k) = false).
Proof.
  split.
  - intros [fuel [t' H]].
    destruct (samd_reset_unfold cm b fuel t) as [t3 [R [C [T E]]]].
    rewrite E in H.
    destruct (reset_poll cm b fuel t3) as [t4|] eqn:P; [|discriminate].
    destruct (reset_poll_sound _ _ _ _ _ P) as [k Hk].
    exists k. unfold reset_dhcsr. rewrite R in Hk. exact Hk.
  - intros [k Hk].
    destruct (first_false (fun j => in_reset cm (reset_dhcsr cm b t j)) k Hk)
      as [k0 [_ [Hfree Hbusy]]].
    destruct (samd_reset_unfold cm b (S k0) t) as [t3 [R [C [T E]]]].
    exists (S k0). rewrite E.
    rewrite (reset_poll_complete cm b k0 (S k0) t3).
    + eexists. reflexivity.
    + intros j Hj. rewrite R. apply Hbusy. exact Hj.
    + rewrite R. exact Hfree.
    + lia.
Qed.

(** *** The device identification *)

Lemma u8_small (x : Z) : 0 <= x < 256 -> u8 x = x.
Proof. intros H. unfold u8. apply Z.mod_small. exact H. Qed.

Lemma did_family_field did :
  u8 (Z.land (Z.shiftr did SAMD_DID_FAMILY_POS) SAMD_DID_FAMILY_MASK)
  = did_family did.
Proof.
  unfold did_family. change SAMD_DID_FAMILY_MASK with (Z.ones 6).
  rewrite Z.land_ones, Z.shiftr_div_pow2 by (unfold SAMD_DID_FAMILY_POS; lia).
  change SAMD_DID_FAMILY_POS with 23. change (2 ^ 6) with 64.
  apply u8_small. pose proof (Z.mod_pos_bound (did / 2 ^ 23) 64). lia.
Qed.

Lemma did_series_field did :
  u8 (Z.land (Z.shiftr did SAMD_DID_SERIES_POS) SAMD_DID_SERIES_MASK)
  = did_series did.
Proof.
  unfold did_series. change SAMD_DID_SERIES_MASK with (Z.ones 5).
  rewrite Z.land_ones, Z.shiftr_div_pow2 by (unfold SAMD_DID_SERIES_POS; lia).
  change SAMD_DID_SERIES_POS with 16. change (2 ^ 5) with 32.
  apply u8_small. pose proof (Z.mod_pos_bound (did / 2 ^ 16) 32). lia.
Qed.

Lemma did_revision_field did :
  u8 (Z.land (Z.shiftr did SAMD_DID_REVISION_POS) SAMD_DID_REVISION_MASK)
  = did_revision did.
Proof.
  unfold did_revision. change SAMD_DID_REVISION_MASK with (Z.ones 4).
  rewrite Z.land_ones, Z.shiftr_div_pow2 by (unfold SAMD_DID_REVISION_POS; lia).
  change SAMD_DID_REVISION_POS with 8. change (2 ^ 4) with 16.
  apply u8_small. pose proof (Z.mod_pos_bound (did / 2 ^ 8) 16). lia.
Qed.

Lemma did_devsel_field did :
  u8 (Z.land (Z.shiftr did SAMD_DID_DEVSEL_POS) SAMD_DID_DEVSEL_MASK)
  = did_devsel did.
Proof.
  unfold did_devsel. change SAMD_DID_DEVSEL_MASK with (Z.ones 8).
  change SAMD_DID_DEVSEL_POS with 0. rewrite Z.shiftr_0_r.
  rewrite Z.land_ones by lia.
  apply u8_small. change (2 ^ 8) with 256.
  pose proof (Z.mod_pos_bound did 256). lia.
Qed.

(** The function in terms of the fields of the DID. *)
Lemma samd_parse_device_id_fields did :
  samd_parse_device_id did =
  let family := did_family did in
  let series := did_series did in
  let revision := did_revision did in
  let devsel := did_devsel did in
  let parts := samd_d21_parts in
  let '(samd_family, parts) :=
    if family =? 0 then (Some "D"%char, parts)
    else if family =? 1 then (Some "L"%char, samd_l21_parts)
    else if family =? 2 then (Some "C"%char, parts)
    else (None, parts) in
  let '(samd_series, parts) :=
    if series =? 0 then (20, parts)
    else if series =? 1 then (21, parts)
    else if series =? 2 then
      if family =? 1 then (22, samd_l22_parts) else (10, parts)
    else if series =? 3 then (11, parts)
    else if series =? 4 then (9, parts)
    else (0, parts) in
  let samd_revision := ascii_of_N (Z.to_N (u8 (65 + revision))) in
  let blank := [zero; zero; zero] in
  if samd_series =? 20 then
    {| family := samd_family; series := samd_series; revision := samd_revision;
       pin := Some (if devsel / 5 =? 0 then "J"%char
                    else if devsel / 5 =? 1 then "G"%char
                    else if devsel / 5 =? 2 then "E"%char
                    else "u"%char);
       ram_size := 0x8000; flash_size := 0x40000;
       mem := Some (u8 (18 - devsel mod 5));
       variant := Some "A"%char; package := blank |}
  else if (samd_series =? 21) || (samd_series =? 22) then
    let e := find_part parts devsel in
    {| family := samd_family; series := samd_series; revision := samd_revision;
       pin := option_map part_pin e;
       ram_size := 0x8000; flash_size := 0x40000;
       mem := option_map part_mem e;
       variant := option_map part_variant e; package := blank |}
  else if (samd_series =? 10) || (samd_series =? 11) then
    {| family := samd_family; series := samd_series; revision := samd_revision;
       pin := Some "D"%char;
       ram_size := 0x8000; flash_size := 0x40000;
       mem := Some (u8 (14 - devsel mod 3));
       variant := Some "A"%char;
       package := if devsel / 3 =? 0 then ["M"%char; zero; zero]
                  else if devsel / 3 =? 1 then ["S"%char; "S"%char; zero]
                  else blank |}
  else if samd_series =? 9 then
    if devsel =? 0 then
      {| family := samd_family; series := samd_series; revision := samd_revision;
         pin := Some "D"%char; ram_size := 4096; flash_size := 16384;
         mem := Some 14; variant := Some "A"%char;
         package := ["M"%char; zero; zero] |}
    else if devsel =? 7 then
      {| family := samd_family; series := samd_series; revision := samd_revision;
         pin := Some "C"%char; ram_size := 4096; flash_size := 8192;
         mem := Some 13; variant := Some "A"%char; package := blank |}
    else
      {| family := samd_family; series := samd_series; revision := samd_revision;
         pin := None; ram_size := 4096; flash_size := 0x40000;
         mem := None; variant := Some "A"%char; package := blank |}
  else
    {| family := samd_family; series := samd_series; revision := samd_revision;
       pin := None; ram_size := 0x8000; flash_size := 0x40000;
       mem := None; variant := None; package := blank |}.
Proof.
  unfold samd_parse_device_id.
  rewrite did_family_field, did_series_field, did_revision_field,
    did_devsel_field.
  reflexivity.
Qed.

Lemma find_part_listed (parts : list samd_part) (e : samd_part) :
  parts = samd_d21_parts \/ parts = samd_l21_parts \/ parts = samd_l22_parts ->
  In e (listed parts) -> find_part parts (part_devsel e) = Some e.
Proof.
  intros [->|[->| ->]] H; simpl in H;
    repeat (destruct H as [<-|H]; [reflexivity|]); contradiction.
Qed.

(** X9.  For a DID of series 21 or 22 whose device selection is that
    of a row of the table of its family, [samd_parse_device_id] gives
    the pin count letter, the memory digit and the variant of that
    row: no row of [samd_d21_parts], [samd_l21_parts] or
    [samd_l22_parts] is hidden by a row before it. *)
Theorem samd_parse_device_id_listed_part (did : Z) (e : samd_part)
  (Hseries : did_series did = 1 \/ (did_series did = 2 /\ did_family did = 1))
  (Hin : In e (listed (parts_of (did_family did) (did_series did))))
  (Hsel : did_devsel did = part_devsel e) :
  series (samd_parse_device_id did) = (if did_series did =? 1 then 21 else 22)
  /\ pin (samd_parse_device_id did) = Some (part_pin e)
  /\ mem (samd_parse_device_id did) = Some (part_mem e)
  /\ variant (samd_parse_device_id did) = Some (part_variant e).
Proof.
  rewrite samd_parse_device_id_fields. cbv zeta. rewrite Hsel.
  unfold parts_of in Hin.
  destruct Hseries as [Hs|[Hs Hf]].
  - rewrite Hs in *. change (1 =? 0) with false. change (1 =? 1) with true in *.
    cbv iota in *.
    destruct (did_family did =? 0) eqn:F0.
    + apply Z.eqb_eq in F0. rewrite F0 in Hin. change (0 =? 1) with false in Hin.
      cbv iota in Hin. cbn [series pin mem variant Z.eqb orb].
      rewrite (find_part_listed samd_d21_parts e) by tauto.
      repeat split; reflexivity.
    + destruct (did_family did =? 1) eqn:F1.
      * cbn [series pin mem variant Z.eqb orb].
        rewrite (find_part_listed samd_l21_parts e) by tauto.
        repeat split; reflexivity.
      * destruct (did_family did =? 2);
          cbn [series pin mem variant Z.eqb orb];
          rewrite (find_part_listed samd_d21_parts e) by tauto;
          repeat split; reflexivity.
  - rewrite Hs, Hf in *. change (2 =? 1) with false in *. cbv iota in Hin.
    cbn [Z.eqb Pos.eqb]. cbn [series pin mem variant Z.eqb orb].
    rewrite (find_part_listed samd_l22_parts e) by tauto.
    repeat split; reflexivity.
Qed.

(** X9 for the DID of a SAM D21G18A, revision D. *)
Lemma samd_parse_device_id_listed_part_witness :
  series (samd_parse_device_id 0x10010305) = (if did_series 0x10010305 =? 1 then 21 else 22)
  /\ pin (samd_parse_device_id 0x10010305) = Some (part_pin (part 0x05 "G" 18 "A"))
  /\ mem (samd_parse_device_id 0x10010305) = Some (part_mem (part 0x05 "G" 18 "A"))
  /\ variant (samd_parse_device_id 0x10010305)
       = Some (part_variant (part 0x05 "G" 18 "A")).
Proof.
  apply (samd_parse_device_id_listed_part 0x10010305 (part 0x05 "G" 18 "A")).
  - left. reflexivity.
  - vm_compute. tauto.
  - reflexivity.
Defined.

(** X10.  For a SAM D20 the flash size that [samd_flash_size] gives
    is the size named by the memory digit that
    [samd_parse_device_id] puts into the part name: 2 to the power of
    the digit, between 16 KiB and 256 KiB. *)
Theorem samd_flash_size_is_d20_memory_digit (b : bench) (t : target)
  (Hseries : did_series (mem_read32 b (reads t) SAMD_DSU_DID) = 0) :
  exists m,
    mem (samd_parse_device_id (mem_read32 b (reads t) SAMD_DSU_DID)) = Some m
    /\ 14 <= m <= 18
    /\ fst (samd_flash_size b t) = 2 ^ m.
Proof.
  rewrite samd_parse_device_id_fields. cbv zeta. rewrite Hseries.
  unfold samd_flash_size. cbn [target_mem_read32 fst].
  set (did := mem_read32 b (reads t) SAMD_DSU_DID).
  replace (u8 (Z.land did SAMD_DID_DEVSEL_MASK)) with (did_devsel did).
  - pose proof (Z.mod_pos_bound (did_devsel did) 5 ltac:(lia)) as Hr.
    exists (18 - did_devsel did mod 5).
    destruct (did_family did =? 0), (did_family did =? 1), (did_family did =? 2);
      cbn [Z.eqb Pos.eqb mem];
      (split; [rewrite u8_small by lia; reflexivity|]);
      (split; [lia|]);
      assert (C : did_devsel did mod 5 = 0 \/ did_devsel did mod 5 = 1
                  \/ did_devsel did mod 5 = 2 \/ did_devsel did mod 5 = 3
                  \/ did_devsel did mod 5 = 4) by lia;
      destruct C as [->|[->|[->|[->| ->]]]]; reflexivity.
  - rewrite <- did_devsel_field.
    change SAMD_DID_DEVSEL_POS with 0. rewrite Z.shiftr_0_r. reflexivity.
Qed.

(** X10 for a DID that reads 1: a SAM D20 of 128 KiB. *)
Lemma samd_flash_size_is_d20_memory_digit_witness :
  exists m,
    mem (samd_parse_device_id
           (mem_read32 prompt_bench (reads target_init) SAMD_DSU_DID)) = Some m
    /\ 14 <= m <= 18
    /\ fst (samd_flash_size prompt_bench target_init) = 2 ^ m.
Proof.
  apply (samd_flash_size_is_d20_memory_digit prompt_bench target_init).
  reflexivity.
Defined.

(** X11.  But for a SAM D09 (series field 4), [samd_parse_device_id]
    gives 256 KiB of flash and 32 KiB of RAM whatever the device
    selection is: the memory digit of the part has no part in either
    size. *)
Theorem samd_parse_device_id_sizes (did : Z) (Hseries : did_series did <> 4) :
  flash_size (samd_parse_device_id did) = 0x40000
  /\ ram_size (samd_parse_device_id did) = 0x8000.
Proof.
  rewrite samd_parse_device_id_fields. cbv zeta.
  destruct (did_family did =? 0), (did_family did =? 1), (did_family did =? 2);
    destruct (did_series did =? 0);
    try (split; reflexivity);
    destruct (did_series did =? 1);
    try (split; reflexivity);
    destruct (did_series did =? 2);
    try (split; reflexivity);
    destruct (did_series did =? 3);
    try (split; reflexivity);
    destruct (did_series did =? 4) eqn:E4;
    try (split; reflexivity);
    apply Z.eqb_eq in E4; contradiction.
Qed.

(** X11 for the DID of a SAM D21E15A, a part of 32 KiB. *)
Lemma samd_parse_device_id_sizes_witness :
  flash_size (samd_parse_device_id 0x1001030D) = 0x40000
  /\ ram_size (samd_parse_device_id 0x1001030D) = 0x8000.
Proof.
  apply (samd_parse_device_id_sizes 0x1001030D). vm_compute. discriminate.
Defined.

Lemma probed_did_family (did : Z) :
  Z.land did SAMD_DID_MASK = SAMD_DID_CONST_VALUE -> 32 <= did_family did < 64.
Proof.
  intros H. unfold did_family.
  assert (B : Z.testbit ((did / 2 ^ 23) mod 2 ^ 6) 5 = true).
  { rewrite Z.mod_pow2_bits_low by lia.
    rewrite <- Z.shiftr_div_pow2, Z.shiftr_spec by lia.
    apply (f_equal (fun z => Z.testbit z 28)) in H.
    rewrite Z.land_spec in H.
    change (Z.testbit SAMD_DID_MASK 28) with true in H.
    change (Z.testbit SAMD_DID_CONST_VALUE 28) with true in H.
    rewrite andb_true_r in H. exact H. }
  change (2 ^ 6) with 64 in B.
  apply Z.testbit_true in B; [|lia]. change (2 ^ 5) with 32 in B.
  pose proof (Z.mod_pos_bound (did / 2 ^ 23) 64 ltac:(lia)).
  Z.div_mod_to_equations. lia.
Qed.

(** X21.  A DID that passes the test of [samd_probe],
    [(did & SAMD_DID_MASK) == SAMD_DID_CONST_VALUE], has bit 28 set,
    which the six bits of [SAMD_DID_FAMILY_MASK] from bit 23 take in:
    for such a DID [samd_parse_device_id] finds a family of 32 or
    more, never writes [samd.family], never takes the series for 22,
    and searches no table but [samd_d21_parts]. *)
Theorem samd_parse_device_id_of_probed_did (did : Z)
  (Hdid : Z.land did SAMD_DID_MASK = SAMD_DID_CONST_VALUE) :
  family (samd_parse_device_id did) = None
  /\ series (samd_parse_device_id did) <> 22
  /\ (series (samd_parse_device_id did) = 21 ->
      pin (samd_parse_device_id did)
        = option_map part_pin (find_part samd_d21_parts (did_devsel did))
      /\ mem (samd_parse_device_id did)
          = option_map part_mem (find_part samd_d21_parts (did_devsel did))
      /\ variant (samd_parse_device_id did)
          = option_map part_variant (find_part samd_d21_parts (did_devsel did))).
Proof.
  pose proof (probed_did_family did Hdid) as F.
  rewrite samd_parse_device_id_fields. cbv zeta.
  replace (did_family did =? 0) with false by (symmetry; apply Z.eqb_neq; lia).
  replace (did_family did =? 1) with false by (symmetry; apply Z.eqb_neq; lia).
  replace (did_family did =? 2) with false by (symmetry; apply Z.eqb_neq; lia).
  destruct (did_series did =? 0);
    [cbn; repeat split; try discriminate|].
  destruct (did_series did =? 1);
    [cbn; repeat split; try discriminate|].
  destruct (did_series did =? 2);
    [cbn; repeat split; try discriminate|].
  destruct (did_series did =? 3);
    [cbn; repeat split; try discriminate|].
  destruct (did_series did =? 4).
  - cbn [Z.eqb Pos.eqb orb].
    destruct (did_devsel did =? 0); [cbn; repeat split; discriminate|].
    destruct (did_devsel did =? 7); cbn; repeat split; discriminate.
  - cbn; repeat split; discriminate.
Qed.

(** X21 for the DID of a SAM D21G18A, revision D. *)
Lemma samd_parse_device_id_of_probed_did_witness :
  family (samd_parse_device_id 0x10010305) = None
  /\ series (samd_parse_device_id 0x10010305) <> 22
  /\ (series (samd_parse_device_id 0x10010305) = 21 ->
      pin (samd_parse_device_id 0x10010305)
        = option_map part_pin (find_part samd_d21_parts (did_devsel 0x10010305))
      /\ mem (samd_parse_device_id 0x10010305)
          = option_map part_mem (find_part samd_d21_parts (did_devsel 0x10010305))
      /\ variant (samd_parse_device_id 0x10010305)
          = option_map part_variant
              (find_part samd_d21_parts (did_devsel 0x10010305))).
Proof.
  apply (samd_parse_device_id_of_probed_did 0x10010305). reflexivity.
Defined.

End SamdFacts.

(* ================================================================== *)
(** ** Properties of the ADIv5 engine *)

Module Adiv5Facts.
Import Adiv5.

(** *** Alignment *)

Lemma land_3_mod (x : Z) : Z.land x 3 = x mod 4.
Proof. change 3 with (Z.ones 2). rewrite Z.land_ones by lia. reflexivity. Qed.

Lemma land_1_mod (x : Z) : Z.land x 1 = x mod 2.
Proof. change 1 with (Z.ones 1). rewrite Z.land_ones by lia. reflexivity. Qed.

Lemma mod_4_mod_2 (x : Z) : x mod 4 = 0 -> x mod 2 = 0.
Proof. intros E. Z.div_mod_to_equations. lia. Qed.

Lemma ALIGNOF_word (x : Z) : ALIGNOF x = ALIGN_WORD <-> x mod 4 = 0.
Proof.
  unfold ALIGNOF. rewrite land_3_mod, land_1_mod.
  destruct (x mod 4 =? 0) eqn:E4.
  - apply Z.eqb_eq in E4. tauto.
  - apply Z.eqb_neq in E4. destruct (x mod 2 =? 0); split; intros; congruence.
Qed.

Lemma ALIGNOF_byte (x : Z) : ALIGNOF x = ALIGN_BYTE <-> x mod 2 <> 0.
Proof.
  unfold ALIGNOF. rewrite land_3_mod, land_1_mod.
  destruct (x mod 4 =? 0) eqn:E4.
  - apply Z.eqb_eq in E4. apply mod_4_mod_2 in E4. split; [discriminate|tauto].
  - destruct (x mod 2 =? 0) eqn:E2.
    + apply Z.eqb_eq in E2. split; [discriminate|tauto].
    + apply Z.eqb_neq in E2. tauto.
Qed.

Lemma ALIGNOF_cases (x : Z) :
  (ALIGNOF x = ALIGN_WORD /\ x mod 4 = 0 /\ x mod 2 = 0)
  \/ (ALIGNOF x = ALIGN_HALFWORD /\ x mod 4 <> 0 /\ x mod 2 = 0)
  \/ (ALIGNOF x = ALIGN_BYTE /\ x mod 4 <> 0 /\ x mod 2 <> 0).
Proof.
  unfold ALIGNOF. rewrite land_3_mod, land_1_mod.
  destruct (x mod 4 =? 0) eqn:E4.
  - apply Z.eqb_eq in E4. left. auto using mod_4_mod_2.
  - apply Z.eqb_neq in E4. destruct (x mod 2 =? 0) eqn:E2.
    + apply Z.eqb_eq in E2. right; left. auto.
    + apply Z.eqb_neq in E2. right; right. auto.
Qed.

Lemma MIN_ALIGNOF_cases (addr len : Z) :
  (MIN (ALIGNOF addr) (ALIGNOF len) = ALIGN_WORD
   /\ addr mod 4 = 0 /\ len mod 4 = 0)
  \/ (MIN (ALIGNOF addr) (ALIGNOF len) = ALIGN_HALFWORD
      /\ (addr mod 2 = 0 /\ len mod 2 = 0)
      /\ ~ (addr mod 4 = 0 /\ len mod 4 = 0))
  \/ (MIN (ALIGNOF addr) (ALIGNOF len) = ALIGN_BYTE
      /\ ~ (addr mod 2 = 0 /\ len mod 2 = 0)).
Proof.
  destruct (ALIGNOF_cases addr) as [[-> ?]|[[-> ?]|[-> ?]]];
    destruct (ALIGNOF_cases len) as [[-> ?]|[[-> ?]|[-> ?]]];
    unfold MIN; simpl; tauto.
Qed.

(** *** The transfer loops *)

Lemma flat_map_seq_S {A : Type} (f : nat -> list A) (n : nat) :
  flat_map f (seq 0 (S n)) = (f 0%nat ++ flat_map (fun i => f (S i)) (seq 0 n))%list.
Proof.
  simpl. f_equal. rewrite <- seq_shift.
  induction (seq 0 n) as [|x xs IH]; simpl; [reflexivity|].
  rewrite IH. reflexivity.
Qed.

Section Transfers.
Context (hd : header) (w : wire).

Lemma transfer_addr_shift a addr i :
  transfer_addr a addr (S i) = transfer_addr a (step_addr a addr) i.
Proof.
  induction i as [|i IH]; [reflexivity|].
  change (transfer_addr a addr (S (S i)))
    with (u32 (transfer_addr a addr (S i) + Z.shiftl 1 (align_val a))).
  rewrite IH. reflexivity.
Qed.

Lemma tar_shadow_shift a addr oaddr i :
  tar_shadow a addr oaddr (S i) =
  tar_shadow a (step_addr a addr) (step_tar a addr oaddr) i.
Proof.
  induction i as [|i IH]; [reflexivity|].
  change (tar_shadow a addr oaddr (S (S i)))
    with (if crosses (transfer_addr a addr (S (S i))) (tar_shadow a addr oaddr (S i))
          then transfer_addr a addr (S (S i))
          else tar_shadow a addr oaddr (S i)).
  rewrite IH, (transfer_addr_shift a addr (S i)). reflexivity.
Qed.

Lemma reprograms_shift a addr oaddr i :
  reprograms a addr oaddr (S i) =
  reprograms a (step_addr a addr) (step_tar a addr oaddr) i.
Proof.
  unfold reprograms.
  rewrite tar_shadow_shift, (transfer_addr_shift a addr (S i)). reflexivity.
Qed.

Lemma read_word_accesses_shift a addr oaddr i :
  read_word_accesses hd a addr oaddr (S i) =
  read_word_accesses hd a (step_addr a addr) (step_tar a addr oaddr) i.
Proof.
  unfold read_word_accesses.
  rewrite reprograms_shift, (transfer_addr_shift a addr (S i)). reflexivity.
Qed.

Lemma write_word_accesses_shift a src pos addr oaddr i :
  write_word_accesses hd a src pos addr oaddr (S i) =
  write_word_accesses hd a src (pos + Z.to_nat (Z.shiftl 1 (align_val a)))
    (step_addr a addr) (step_tar a addr oaddr) i.
Proof.
  unfold write_word_accesses.
  rewrite reprograms_shift, (transfer_addr_shift a addr (S i)),
    (transfer_addr_shift a addr i).
  replace (pos + S i * Z.to_nat (Z.shiftl 1 (align_val a)))%nat
    with (pos + Z.to_nat (Z.shiftl 1 (align_val a))
          + i * Z.to_nat (Z.shiftl 1 (align_val a)))%nat
    by (rewrite Nat.mul_succ_l; lia).
  reflexivity.
Qed.

Lemma mem_read_loop_issued : forall n a dest pos src osrc l,
  issued (snd (mem_read_loop hd w n a dest pos src osrc l)) =
  (issued l ++ flat_map (read_word_accesses hd a src osrc) (seq 0 n))%list.
Proof.
  induction n as [|n IH]; intros a dest pos src osrc l.
  - simpl. rewrite app_nil_r. reflexivity.
  - rewrite flat_map_seq_S.
    rewrite (flat_map_ext _ _ (fun i => read_word_accesses_shift a src osrc i)).
    cbn [mem_read_loop]. unfold read_word_accesses at 1, reprograms, step_tar, step_addr.
    cbn [transfer_addr tar_shadow adiv5_dp_low_access snd].
    match goal with
    | |- context [extract ?d ?p ?s ?v ?x] =>
        destruct (extract d p s v x) as [dest' pos']
    end.
    unfold crosses.
    destruct (tst (Z.lxor (u32 (src + Z.shiftl 1 (align_val a))) osrc) 4294966272);
      rewrite IH; cbn [issued app]; rewrite <- !app_assoc; reflexivity.
Qed.

Lemma mem_write_loop_issued : forall n a src pos dest odest l,
  issued (mem_write_loop hd w n a src pos dest odest l) =
  (issued l ++ flat_map (write_word_accesses hd a src pos dest odest) (seq 0 n))%list.
Proof.
  induction n as [|n IH]; intros a src pos dest odest l.
  - simpl. rewrite app_nil_r. reflexivity.
  - rewrite flat_map_seq_S.
    rewrite (flat_map_ext _ _
               (fun i => write_word_accesses_shift a src pos dest odest i)).
    cbn [mem_write_loop]. unfold write_word_accesses at 1, reprograms, step_tar, step_addr.
    cbn [transfer_addr tar_shadow adiv5_dp_low_access snd].
    rewrite Nat.mul_0_l, Nat.add_0_r. unfold crosses, lane_word.
    destruct (tst (Z.lxor (u32 (dest + Z.shiftl 1 (align_val a))) odest) 4294966272);
      rewrite IH; cbn [issued app]; rewrite <- !app_assoc; reflexivity.
Qed.

Lemma ap_mem_access_setup_issued l ap addr a :
  issued (ap_mem_access_setup hd w l ap addr a) =
  (issued l ++ setup_accesses hd ap addr a)%list.
Proof.
  unfold ap_mem_access_setup, setup_accesses, csw_size.
  destruct a; simpl; rewrite <- !app_assoc; reflexivity.
Qed.

Lemma firmware_mem_read_issued l ap dest src len :
  len <> 0 ->
  issued (snd (firmware_mem_read hd w l ap dest src len)) =
  (issued l
   ++ setup_accesses hd ap src (MIN (ALIGNOF src) (ALIGNOF len))
   ++ [LowAccess ADIV5_LOW_READ (ADIV5_AP_DRW hd) 0]
   ++ flat_map (read_word_accesses hd (MIN (ALIGNOF src) (ALIGNOF len)) src src)
        (seq 0 (Z.to_nat
                  (Z.shiftr len (align_val (MIN (ALIGNOF src) (ALIGNOF len))) - 1)))
   ++ [LowAccess ADIV5_LOW_READ (ADIV5_DP_RDBUFF hd) 0])%list.
Proof.
  intros Hlen. unfold firmware_mem_read.
  apply Z.eqb_neq in Hlen. rewrite Hlen.
  set (a := MIN (ALIGNOF src) (ALIGNOF len)).
  match goal with
  | |- context [mem_read_loop hd w ?n a dest 0%nat src src ?l0] =>
      pose proof (mem_read_loop_issued n a dest 0%nat src src l0) as E;
      destruct (mem_read_loop hd w n a dest 0%nat src src l0) as [[[d p] s'] l1]
  end.
  cbn [snd] in E. cbn [adiv5_dp_low_access snd issued]. rewrite E.
  cbn [adiv5_dp_low_access snd issued]. rewrite ap_mem_access_setup_issued.
  rewrite <- !app_assoc. reflexivity.
Qed.

Lemma firmware_mem_write_sized_issued l ap dest src len a :
  issued (firmware_mem_write_sized hd w l ap dest src len a) =
  (issued l
   ++ setup_accesses hd ap dest a
   ++ flat_map (write_word_accesses hd a src 0 dest dest)
        (seq 0 (Z.to_nat (Z.shiftr len (align_val a))))
   ++ [DpRead (ADIV5_DP_RDBUFF hd)])%list.
Proof.
  unfold firmware_mem_write_sized. cbn [adiv5_dp_read snd issued].
  rewrite mem_write_loop_issued, ap_mem_access_setup_issued.
  rewrite <- !app_assoc. reflexivity.
Qed.

(** C4.  The width of a transfer by [firmware_mem_read] or
    [adiv5_mem_write] is the smaller of the alignments of address and
    length: word when both are multiples of 4, half-word when both are
    multiples of 2 but not both of 4, byte otherwise.  The read
    programs CSW with that size and steps the address by it, the write
    hands it to [adiv5_mem_write_sized]. *)
Theorem transfer_width_is_min_alignment (addr len : Z) :
  let a := MIN (ALIGNOF addr) (ALIGNOF len) in
  (a = ALIGN_WORD <-> addr mod 4 = 0 /\ len mod 4 = 0)
  /\ (a = ALIGN_HALFWORD <->
        (addr mod 2 = 0 /\ len mod 2 = 0) /\ ~ (addr mod 4 = 0 /\ len mod 4 = 0))
  /\ (a = ALIGN_BYTE <-> ~ (addr mod 2 = 0 /\ len mod 2 = 0))
  /\ (forall l ap src,
        adiv5_mem_write hd w l ap addr src len =
        firmware_mem_write_sized hd w l ap addr src len a)
  /\ (forall l ap dest, len <> 0 ->
        issued (snd (firmware_mem_read hd w l ap dest addr len)) =
        (issued l
         ++ setup_accesses hd ap addr a
         ++ [LowAccess ADIV5_LOW_READ (ADIV5_AP_DRW hd) 0]
         ++ flat_map (read_word_accesses hd a addr addr)
              (seq 0 (Z.to_nat (Z.shiftr len (align_val a) - 1)))
         ++ [LowAccess ADIV5_LOW_READ (ADIV5_DP_RDBUFF hd) 0])%list).
Proof.
  intros a. subst a.
  pose proof (mod_4_mod_2 addr) as Ha. pose proof (mod_4_mod_2 len) as Hl.
  split; [|split; [|split; [|split]]].
  - destruct (MIN_ALIGNOF_cases addr len) as [[-> ?]|[[-> ?]|[-> ?]]];
      split; intros; try discriminate; tauto.
  - destruct (MIN_ALIGNOF_cases addr len) as [[-> ?]|[[-> ?]|[-> ?]]];
      split; intros; try discriminate; tauto.
  - destruct (MIN_ALIGNOF_cases addr len) as [[-> ?]|[[-> ?]|[-> ?]]];
      split; intros; try discriminate; tauto.
  - reflexivity.
  - intros l ap dest Hlen. apply firmware_mem_read_issued. exact Hlen.
Qed.

(** C5.  In the loops of [firmware_mem_read] and
    [firmware_mem_write_sized], each word is followed by the test
    [(new ^ old) & 0xFFFFFC00] of the new address against the address
    TAR was last programmed with; TAR is written, with the new address,
    exactly after the words for which the test is non-zero, on a read
    followed by one more DRW read whose value is dropped, and nowhere
    else in the loop. *)
Theorem tar_reprogrammed_exactly_on_crossing :
  (forall n a dest pos src osrc l,
     issued (snd (mem_read_loop hd w n a dest pos src osrc l)) =
     (issued l ++ flat_map (read_word_accesses hd a src osrc) (seq 0 n))%list)
  /\ (forall n a src pos dest odest l,
        issued (mem_write_loop hd w n a src pos dest odest l) =
        (issued l
         ++ flat_map (write_word_accesses hd a src pos dest odest) (seq 0 n))%list).
Proof.
  split; [exact mem_read_loop_issued|exact mem_write_loop_issued].
Qed.

(** C10.  With [len = 0], [firmware_mem_read] returns at once: the
    destination buffer is as it was and so is the link, on which
    nothing was issued and nothing answered, so that CSW and TAR hold
    what they held. *)
Theorem firmware_mem_read_zero_length (l : link) (ap : ADIv5_AP_t)
  (dest : buffer) (src : Z) :
  firmware_mem_read hd w l ap dest src 0 = (dest, l)
  /\ issued (snd (firmware_mem_read hd w l ap dest src 0)) = issued l
  /\ answered (snd (firmware_mem_read hd w l ap dest src 0)) = answered l
  /\ last_write (ADIV5_AP_CSW hd)
        (issued (snd (firmware_mem_read hd w l ap dest src 0)))
      = last_write (ADIV5_AP_CSW hd) (issued l)
  /\ last_write (ADIV5_AP_TAR hd)
        (issued (snd (firmware_mem_read hd w l ap dest src 0)))
      = last_write (ADIV5_AP_TAR hd) (issued l).
Proof. repeat split. Qed.

End Transfers.

(** *** Where TAR is programmed again

    For a transfer that starts with TAR on its first address, as both
    functions start it, the overflow test is the test for the next
    address being the first of a 1 KiB window. *)

Lemma land_high (x k n : Z) :
  0 <= k -> 0 <= n ->
  Z.land x (Z.shiftl (Z.ones n) k) = Z.shiftl (Z.land (Z.shiftr x k) (Z.ones n)) k.
Proof.
  intros Hk Hn. rewrite Z.shiftl_land. apply Z.bits_inj'. intros i Hi.
  rewrite !Z.land_spec. destruct (Z.lt_ge_cases i k) as [Hlt|Hge].
  - rewrite (Z.shiftl_spec_low (Z.ones n)) by lia.
    rewrite !andb_false_r. reflexivity.
  - rewrite (Z.shiftl_spec (Z.shiftr x k)) by lia.
    rewrite Z.shiftr_spec by lia.
    replace (i - k + k) with i by lia. reflexivity.
Qed.
Lemma small_bits (a n i : Z) : 0 <= a < 2 ^ n -> n <= i -> Z.testbit a i = false.
Proof.
  intros Ha Hi. destruct (Z.eq_dec a 0) as [->|Hne]; [apply Z.bits_0|].
  apply Z.bits_above_log2; [lia|].
  assert (Z.log2 a < n) by (apply Z.log2_lt_pow2; lia). lia.
Qed.
Lemma crosses_window (new old : Z) :
  0 <= new < 2 ^ 32 -> 0 <= old < 2 ^ 32 ->
  (crosses new old = false <-> new / 1024 = old / 1024).
Proof.
  intros Hn Ho. unfold crosses, tst. rewrite negb_false_iff, Z.eqb_eq.
  change 0xfffffc00 with (Z.shiftl (Z.ones 22) 10).
  rewrite land_high by lia. rewrite Z.shiftl_eq_0_iff by lia.
  rewrite Z.shiftr_lxor, !Z.shiftr_div_pow2 by lia.
  change (2 ^ 10) with 1024.
  assert (Hn' : 0 <= new / 1024 < 2 ^ 22).
  { split; [apply Z.div_pos; lia|apply Z.div_lt_upper_bound; lia]. }
  assert (Ho' : 0 <= old / 1024 < 2 ^ 22).
  { split; [apply Z.div_pos; lia|apply Z.div_lt_upper_bound; lia]. }
  split.
  - intros E. apply Z.bits_inj'. intros i Hi.
    destruct (Z.lt_ge_cases i 22) as [Hlt|Hge].
    + assert (B : Z.testbit (Z.land (Z.lxor (new / 1024) (old / 1024)) (Z.ones 22)) i
                  = false) by (rewrite E; apply Z.bits_0).
      rewrite Z.land_spec, Z.lxor_spec, Z.ones_spec_low, andb_true_r in B by lia.
      destruct (Z.testbit (new / 1024) i), (Z.testbit (old / 1024) i);
        simpl in B; congruence.
    + rewrite (small_bits _ 22), (small_bits _ 22) by (assumption || lia).
      reflexivity.
  - intros ->. rewrite Z.lxor_nilpotent. reflexivity.
Qed.

Lemma next_window (a : align) (x : Z) :
  0 <= x < 2 ^ 32 -> x mod Z.shiftl 1 (align_val a) = 0 ->
  let new := u32 (x + Z.shiftl 1 (align_val a)) in
  0 <= new < 2 ^ 32
  /\ new mod Z.shiftl 1 (align_val a) = 0
  /\ (new / 1024 = x / 1024 <-> new mod 1024 <> 0).
Proof.
  intros Hx Hm new. subst new. unfold u32.
  destruct a; cbn [align_val] in *;
    change (Z.shiftl 1 0) with 1 in *; change (Z.shiftl 1 1) with 2 in *;
    change (Z.shiftl 1 2) with 4 in *; change (Z.shiftl 1 3) with 8 in *;
    change (2 ^ 32) with 4294967296 in *;
    Z.div_mod_to_equations; lia.
Qed.

Lemma transfer_invariant (a : align) (src : Z) :
  0 <= src < 2 ^ 32 -> src mod Z.shiftl 1 (align_val a) = 0 ->
  forall i,
    0 <= transfer_addr a src i < 2 ^ 32
    /\ transfer_addr a src i mod Z.shiftl 1 (align_val a) = 0
    /\ 0 <= tar_shadow a src src i < 2 ^ 32
    /\ tar_shadow a src src i / 1024 = transfer_addr a src i / 1024.
Proof.
  intros Hs Hm. induction i as [|i [Hr [Ha [Ht Hw]]]].
  - simpl. auto.
  - destruct (next_window a (transfer_addr a src i) Hr Ha) as [Hr' [Ha' Hn]].
    cbn [transfer_addr tar_shadow].
    split; [exact Hr'|]. split; [exact Ha'|].
    destruct (crosses _ (tar_shadow a src src i)) eqn:C.
    + split; [exact Hr'|reflexivity].
    + split; [exact Ht|]. apply crosses_window in C; [|exact Hr'|exact Ht].
      symmetry. exact C.
Qed.

Lemma tar_reprogrammed_at_boundary (a : align) (src : Z) (i : nat) :
  0 <= src < 2 ^ 32 -> src mod Z.shiftl 1 (align_val a) = 0 ->
  (reprograms a src src i = true <-> transfer_addr a src (S i) mod 1024 = 0).
Proof.
  intros Hs Hm.
  destruct (transfer_invariant a src Hs Hm i) as [Hr [Ha [Ht Hw]]].
  destruct (next_window a (transfer_addr a src i) Hr Ha) as [Hr' [Ha' Hn]].
  unfold reprograms. cbn [transfer_addr].
  pose proof (crosses_window _ _ Hr' Ht) as C. rewrite Hw in C.
  destruct (crosses _ (tar_shadow a src src i)).
  - split; [intros _|reflexivity].
    destruct (Z.eq_dec (u32 (transfer_addr a src i + Z.shiftl 1 (align_val a)) mod 1024) 0)
      as [E|E]; [exact E|].
    apply Hn in E. apply C in E. discriminate.
  - split; [discriminate|]. intros E. exfalso.
    assert (F : false = false) by reflexivity. apply C in F. apply Hn in F. auto.
Qed.

(** *** Halting a core *)

Lemma map_seq_S {A : Type} (f : nat -> A) (n : nat) :
  map f (seq 0 (S n)) = f 0%nat :: map (fun i => f (S i)) (seq 0 n).
Proof. simpl. f_equal. rewrite <- seq_shift, map_map. reflexivity. Qed.

Section Halting.
Context (hd : header) (w : wire) (time_ms : nat -> Z) (expired : nat -> bool).
Context (nrst : bool) (wait : Z).

Local Abbreviation attempt := (halt_attempt hd w time_ms).
Local Abbreviation loop := (halt_loop hd w time_ms expired nrst).
Local Abbreviation r_expired := (round_expired hd w time_ms expired).
Local Abbreviation r_dhcsr := (round_dhcsr hd w time_ms expired).
Local Abbreviation is_expired := (platform_timeout_is_expired expired).

Lemma accepted_not_discarded (d : Z) :
  negb (d =? 0xffffffff) && (Z.land d 0xf000fff0 =? 0) = negb (discarded d).
Proof.
  unfold discarded, tst.
  destruct (d =? 0xffffffff); destruct (Z.land d 0xf000fff0 =? 0); reflexivity.
Qed.

Lemma round_expired_0 ap low c st t p :
  r_expired ap low c st t p 0 = expired (polls p).
Proof. reflexivity. Qed.

Lemma round_dhcsr_0 ap low c st t p :
  r_dhcsr ap low c st t p 0 = fst (fst (attempt ap low c st t (snd (is_expired p)))).
Proof. reflexivity. Qed.

Lemma round_expired_S ap low c st t p k :
  r_expired ap low c st t p (S k) =
  r_expired ap low c st
    (snd (fst (attempt ap low c st t (snd (is_expired p)))))
    (snd (attempt ap low c st t (snd (is_expired p)))) k.
Proof.
  unfold round_expired. cbn [halt_round].
  destruct (attempt ap low c st t (snd (is_expired p))) as [[d t'] p'].
  reflexivity.
Qed.

Lemma round_dhcsr_S ap low c st t p k :
  r_dhcsr ap low c st t p (S k) =
  r_dhcsr ap low c st
    (snd (fst (attempt ap low c st t (snd (is_expired p)))))
    (snd (attempt ap low c st t (snd (is_expired p)))) k.
Proof.
  unfold round_dhcsr. cbn [halt_round].
  destruct (attempt ap low c st t (snd (is_expired p))) as [[d t'] p'].
  reflexivity.
Qed.

Lemma halt_loop_unfold fuel ap low c st t rs p :
  loop (S fuel) ap low c st t rs p =
    if expired (polls p) then Some (0, snd (is_expired p))
    else
      let d := fst (fst (attempt ap low c st t (snd (is_expired p)))) in
      let t' := snd (fst (attempt ap low c st t (snd (is_expired p)))) in
      let p' := snd (attempt ap low c st t (snd (is_expired p))) in
      if discarded d then loop fuel ap low c st t' rs p'
      else if tst d (CORTEXM_DHCSR_S_RESET_ST hd) && negb rs then
        if nrst then Some (d, p') else loop fuel ap low c st t' true p'
      else if halted hd d then Some (d, p')
      else loop fuel ap low c st t' rs p'.
Proof.
  cbn [halt_loop]. unfold platform_timeout_is_expired at 1. cbn [fst snd].
  destruct (expired (polls p)); [reflexivity|].
  change {| lnk := lnk p; clock := clock p; polls := S (polls p);
            asked := asked p; allocs := allocs p; calls := calls p |}
    with (snd (is_expired p)).
  destruct (attempt ap low c st t (snd (is_expired p))) as [[d t'] p'].
  cbn [fst snd]. rewrite accepted_not_discarded.
  destruct (discarded d); reflexivity.
Qed.

Lemma halt_loop_scan : forall n fuel ap low c st t rs p,
  (n < fuel)%nat ->
  (forall k, (k < n)%nat -> r_expired ap low c st t p k = false) ->
  match halt_scan hd nrst rs (map (r_dhcsr ap low c st t p) (seq 0 n)) with
  | Some d => option_map fst (loop fuel ap low c st t rs p) = Some d
  | None =>
      r_expired ap low c st t p n = true ->
      option_map fst (loop fuel ap low c st t rs p) = Some 0
  end.
Proof.
  induction n as [|n IH]; intros fuel ap low c st t rs p Hlt Hq;
    (destruct fuel as [|fuel]; [lia|]); rewrite halt_loop_unfold.
  - simpl. rewrite round_expired_0. intros ->. reflexivity.
  - pose proof (Hq 0%nat ltac:(lia)) as H0. rewrite round_expired_0 in H0.
    rewrite H0. rewrite map_seq_S. cbn [halt_scan].
    rewrite round_dhcsr_0.
    rewrite (map_ext _ _ (fun k => round_dhcsr_S ap low c st t p k)).
    rewrite round_expired_S.
    set (d := fst (fst (attempt ap low c st t (snd (is_expired p))))).
    set (t' := snd (fst (attempt ap low c st t (snd (is_expired p))))).
    set (p' := snd (attempt ap low c st t (snd (is_expired p)))).
    cbv zeta.
    assert (Hq' : forall k, (k < n)%nat -> r_expired ap low c st t' p' k = false).
    { intros k Hk. unfold t', p'. rewrite <- round_expired_S. apply Hq. lia. }
    destruct (discarded d); [apply IH; [lia|exact Hq']|].
    destruct (tst d (CORTEXM_DHCSR_S_RESET_ST hd) && negb rs).
    + destruct nrst; [reflexivity|]. apply IH; [lia|exact Hq'].
    + destruct (halted hd d); [reflexivity|]. apply IH; [lia|exact Hq'].
Qed.

(** What a sample that ends the scan looks like. *)
Lemma halt_scan_some : forall samples rs d,
  halt_scan hd nrst rs samples = Some d ->
  In d samples /\ discarded d = false
  /\ (halted hd d = true
      \/ (nrst = true /\ tst d (CORTEXM_DHCSR_S_RESET_ST hd) = true)).
Proof.
  induction samples as [|x xs IH]; intros rs d Hs; [discriminate|].
  cbn [halt_scan] in Hs.
  destruct (discarded x) eqn:D.
  - destruct (IH _ _ Hs) as [? ?]. split; [right; assumption|assumption].
  - destruct (tst x (CORTEXM_DHCSR_S_RESET_ST hd) && negb rs) eqn:R.
    + destruct nrst eqn:N.
      * inversion Hs; subst. apply andb_prop in R. destruct R as [R _].
        split; [left; reflexivity|]. split; [exact D|]. right. auto.
      * destruct (IH _ _ Hs) as [? ?]. split; [right; assumption|assumption].
    + destruct (halted hd x) eqn:Hx.
      * inversion Hs; subst. split; [left; reflexivity|]. auto.
      * destruct (IH _ _ Hs) as [? ?]. split; [right; assumption|assumption].
Qed.

(** C3 (amended).  [cortexm_initial_halt] goes through the DHCSR
    samples in order: a sample equal to 0xFFFFFFFF or with a bit of
    0xF000FFF0 set is dropped; the first other sample with S_RESET_ST,
    when no reset was seen before, is returned at once if
    [connect_assert_nrst] is set and is otherwise passed over, latching
    [reset_seen]; any other sample is returned when it has both
    C_DEBUGEN and S_HALT and passed over when not; and when the timeout
    expires before a sample was returned the result is zero. *)
Theorem cortexm_initial_halt_scans_samples (ap : ADIv5_AP_t) (p : probe)
  (n fuel : nat) (Hfuel : (n < fuel)%nat)
  (Hrun : forall k, (k < n)%nat ->
            halt_expired hd w time_ms expired wait ap p k = false) :
  match halt_scan hd nrst false
          (map (halt_dhcsr hd w time_ms expired wait ap p) (seq 0 n)) with
  | Some d =>
      option_map fst (cortexm_initial_halt hd w time_ms expired nrst wait fuel ap p)
        = Some d
      /\ discarded d = false
      /\ (halted hd d = true
          \/ (nrst = true /\ tst d (CORTEXM_DHCSR_S_RESET_ST hd) = true))
  | None =>
      halt_expired hd w time_ms expired wait ap p n = true ->
      option_map fst (cortexm_initial_halt hd w time_ms expired nrst wait fuel ap p)
        = Some 0
  end.
Proof.
  unfold cortexm_initial_halt, halt_expired, halt_dhcsr in *.
  destruct (halt_entry hd w time_ms wait ap p) as [[c st] p0].
  pose proof (halt_loop_scan n fuel ap (negb (dp_mindp (ap_dp ap))) c st 0x80
                false p0 Hfuel Hrun) as L.
  destruct (halt_scan hd nrst false _) as [d|] eqn:S; [|exact L].
  split; [exact L|]. apply halt_scan_some in S. tauto.
Qed.

End Halting.

(** A run of C3: the first sample is dropped, the second has
    S_RESET_ST and is passed over, the third is returned. *)
Lemma cortexm_initial_halt_scans_samples_witness :
  option_map fst
    (cortexm_initial_halt arm_header waking_wire (fun _ => 0) (fun _ => false)
       false 2000 4 sample_ap probe_init) = Some 0x00030003
  /\ discarded 0x00030003 = false
  /\ (halted arm_header 0x00030003 = true
      \/ (false = true /\ tst 0x00030003 (CORTEXM_DHCSR_S_RESET_ST arm_header) = true)).
Proof.
  apply (cortexm_initial_halt_scans_samples arm_header waking_wire (fun _ => 0)
           (fun _ => false) false 2000 sample_ap probe_init 3 4).
  - lia.
  - intros k Hk.
    destruct k as [|[|[|k]]]; [vm_compute; reflexivity ..|lia].
Defined.

(** C3 (as stated) fails: with [connect_assert_nrst] set, a first
    sample with S_RESET_ST is not passed over but returned, although it
    has neither C_DEBUGEN nor S_HALT. *)
Lemma cortexm_initial_halt_returns_reset_sample :
  option_map fst
    (cortexm_initial_halt arm_header reset_wire (fun _ => 0) (fun _ => false)
       true 2000 1 sample_ap probe_init) = Some 0x02000000
  /\ halt_dhcsr arm_header reset_wire (fun _ => 0) (fun _ => false) 2000
       sample_ap probe_init 0 = 0x02000000
  /\ discarded 0x02000000 = false
  /\ halted arm_header 0x02000000 = false.
Proof. repeat split; vm_compute; reflexivity. Qed.

(** *** The ROM table loop *)

Lemma land_page (a : Z) :
  Z.land a 0xfffff000 = Z.shiftl (Z.land (Z.shiftr a 12) (Z.ones 20)) 12.
Proof.
  change 0xfffff000 with (Z.shiftl (Z.ones 20) 12).
  rewrite Z.shiftl_land. apply Z.bits_inj'. intros n Hn.
  rewrite !Z.land_spec. destruct (Z.lt_ge_cases n 12) as [Hlt|Hge].
  - rewrite (Z.shiftl_spec_low (Z.ones 20)) by lia.
    rewrite !andb_false_r. reflexivity.
  - rewrite (Z.shiftl_spec (Z.shiftr a 12)) by lia.
    rewrite Z.shiftr_spec by lia.
    replace (n - 12 + 12) with n by lia. reflexivity.
Qed.

Lemma land_page_range (a : Z) : 0 <= Z.land a 0xfffff000 <= 0xfffff000.
Proof.
  rewrite land_page, Z.shiftl_mul_pow2, Z.land_ones by lia.
  pose proof (Z.mod_pos_bound (Z.shiftr a 12) (2 ^ 20) ltac:(lia)). lia.
Qed.

Lemma rom_entry_addr (addr : Z) (i : nat) :
  0 <= addr <= 0xfffff000 -> (i < 960)%nat ->
  u32 (addr + Z.of_nat i * 4) = addr + 4 * Z.of_nat i.
Proof.
  intros Ha Hi. unfold u32. rewrite Z.mod_small; lia.
Qed.

Section RomTable.
Context (hd : header) (w : wire) (faults : nat -> bool).
Context (probe_fn : Z -> nat -> nat -> probe -> option probe).

Local Abbreviation rloop := (romtab_loop hd w faults probe_fn).

Lemma romtab_loop_unfold n i ap addr recursion p :
  rloop (S n) i ap addr recursion p =
    let '(entry, err, p) := rom_read hd w faults ap addr i p in
    if err then
      Some ([RomRead i (u32 (addr + Z.of_nat i * 4)) entry true], p)
    else if entry =? 0 then
      Some ([RomRead i (u32 (addr + Z.of_nat i * 4)) entry false], p)
    else if negb (tst entry (ADIV5_ROM_ROMENTRY_PRESENT hd)) then
      match rloop n (S i) ap addr recursion p with
      | None => None
      | Some (steps, p) =>
          Some (RomRead i (u32 (addr + Z.of_nat i * 4)) entry false :: steps, p)
      end
    else
      match probe_fn (u32 (addr + Z.land entry (ADIV5_ROM_ROMENTRY_OFFSET hd)))
              (S recursion) i p with
      | None => None
      | Some p =>
          match rloop n (S i) ap addr recursion p with
          | None => None
          | Some (steps, p) =>
              Some (RomRead i (u32 (addr + Z.of_nat i * 4)) entry false
                    :: RomProbe
                         (u32 (addr + Z.land entry (ADIV5_ROM_ROMENTRY_OFFSET hd)))
                         (S recursion) i
                    :: steps, p)
          end
      end.
Proof.
  cbn [romtab_loop]. unfold rom_read.
  destruct (adiv5_mem_read32 hd w _ ap _) as [entry l].
  destruct (adiv5_dp_error faults (on_link _ l)) as [err p1].
  reflexivity.
Qed.

Lemma rom_account_stop addr recursion n i entry fault :
  0 <= addr <= 0xfffff000 -> (i < 960)%nat ->
  rom_entry_last (entry, fault) = true ->
  rom_account hd addr recursion (S n) i
    [RomRead i (u32 (addr + Z.of_nat i * 4)) entry fault].
Proof.
  intros Ha Hi Hl. exists [(entry, fault)]. split; [simpl; lia|]. split.
  - simpl. rewrite rom_entry_addr by assumption.
    unfold rom_entry_last in Hl. simpl in Hl.
    destruct fault; [reflexivity|]. simpl in Hl. rewrite Hl. reflexivity.
  - split.
    + intros [|k] e Hk _; [reflexivity|]. destruct k; discriminate.
    + intros _. exists (entry, fault). split; [reflexivity|exact Hl].
Qed.

Lemma rom_account_cons addr recursion n i entry steps :
  0 <= addr <= 0xfffff000 -> (i < 960)%nat ->
  (entry =? 0) = false ->
  rom_account hd addr recursion n (S i) steps ->
  rom_account hd addr recursion (S n) i
    (rom_entry_steps hd addr recursion (i, (entry, false)) ++ steps).
Proof.
  intros Ha Hi He [entries [Hlen [Hs [Hstop Hend]]]].
  exists ((entry, false) :: entries). split; [simpl; lia|]. split.
  - cbn [length seq combine flat_map]. rewrite Hs. reflexivity.
  - split.
    + intros [|k] e Hk Hl.
      * injection Hk as <-. unfold rom_entry_last in Hl. simpl in Hl.
        congruence.
      * simpl in Hk. simpl. f_equal. exact (Hstop k e Hk Hl).
    + intros Hlt. simpl in Hlt.
      destruct (Hend ltac:(lia)) as [e [Hn Hl]]. exists e. split; [|exact Hl].
      destruct entries as [|e0 entries]; [simpl in Hn; discriminate|].
      simpl in Hn. rewrite Nat.sub_0_r in Hn. simpl. exact Hn.
Qed.

Lemma romtab_loop_account : forall n i ap addr recursion p steps p',
  0 <= addr <= 0xfffff000 -> (i + n <= 960)%nat ->
  rloop n i ap addr recursion p = Some (steps, p') ->
  rom_account hd addr recursion n i steps.
Proof.
  induction n as [|n IH]; intros i ap addr recursion p steps p' Ha Hi Hrun.
  - injection Hrun as <- <-. exists []. split; [simpl; lia|]. split; [reflexivity|].
    split; [intros [|k] e Hk; discriminate|simpl; lia].
  - rewrite romtab_loop_unfold in Hrun.
    destruct (rom_read hd w faults ap addr i p) as [[entry err] p1].
    destruct err.
    { injection Hrun as <- <-. apply rom_account_stop; [assumption|lia|reflexivity]. }
    destruct (entry =? 0) eqn:He.
    { injection Hrun as <- <-. apply rom_account_stop; [assumption|lia|].
      unfold rom_entry_last. simpl. exact He. }
    destruct (tst entry (ADIV5_ROM_ROMENTRY_PRESENT hd)) eqn:Hp; cbn [negb] in Hrun.
    + destruct (probe_fn _ (S recursion) i p1) as [p2|]; [|discriminate].
      destruct (rloop n (S i) ap addr recursion p2) as [[steps' p3]|] eqn:Hl;
        [|discriminate].
      injection Hrun as <- <-.
      apply IH in Hl; [|assumption|lia].
      pose proof (rom_account_cons addr recursion n i entry steps' Ha
                    ltac:(lia) He Hl) as Hc.
      unfold rom_entry_steps in Hc. rewrite He, Hp in Hc. simpl in Hc.
      rewrite rom_entry_addr by (assumption || lia). exact Hc.
    + destruct (rloop n (S i) ap addr recursion p1) as [[steps' p3]|] eqn:Hl;
        [|discriminate].
      injection Hrun as <- <-.
      apply IH in Hl; [|assumption|lia].
      pose proof (rom_account_cons addr recursion n i entry steps' Ha
                    ltac:(lia) He Hl) as Hc.
      unfold rom_entry_steps in Hc. rewrite He, Hp in Hc. simpl in Hc.
      rewrite rom_entry_addr by (assumption || lia). exact Hc.
Qed.

Lemma romtab_loop_returns :
  (forall a r k q, probe_fn a r k q <> None) ->
  forall n i ap addr recursion p, rloop n i ap addr recursion p <> None.
Proof.
  intros Hfn. induction n as [|n IH]; intros i ap addr recursion p;
    [discriminate|].
  rewrite romtab_loop_unfold.
  destruct (rom_read hd w faults ap addr i p) as [[entry err] p1].
  destruct err; [discriminate|].
  destruct (entry =? 0); [discriminate|].
  destruct (negb (tst entry (ADIV5_ROM_ROMENTRY_PRESENT hd))).
  - specialize (IH (S i) ap addr recursion p1).
    destruct (rloop n (S i) ap addr recursion p1) as [[? ?]|];
      [discriminate|congruence].
  - specialize (Hfn (u32 (addr + Z.land entry (ADIV5_ROM_ROMENTRY_OFFSET hd)))
                  (S recursion) i p1).
    destruct (probe_fn _ (S recursion) i p1) as [p2|]; [|congruence].
    specialize (IH (S i) ap addr recursion p2).
    destruct (rloop n (S i) ap addr recursion p2) as [[? ?]|];
      [discriminate|congruence].
Qed.


End RomTable.

(** *** The scan for APs *)

Section ApScan.
Context (new_ap : Z -> probe -> option ADIv5_AP_t * probe).
Context (examine : ADIv5_AP_t -> probe -> option probe).

Local Abbreviation scan := (ap_scan new_ap examine).

Lemma count_invalid_cons x seen :
  count_invalid (x :: seen) =
  (if is_invalid x then S (count_invalid seen) else count_invalid seen).
Proof. unfold count_invalid. simpl. destruct (is_invalid x); reflexivity. Qed.

Lemma rev_firstn_S {A : Type} (x : A) (r seen : list A) (k : nat) :
  (rev (firstn (S k) (x :: r)) ++ seen = rev (firstn k r) ++ x :: seen)%list.
Proof. simpl. rewrite <- app_assoc. reflexivity. Qed.

Lemma scan_account_cons n seen x r early :
  ends_scan (x :: seen) = false -> r <> [] \/ early = false ->
  scan_account n (x :: seen) r early ->
  scan_account (S n) seen (x :: r) early.
Proof.
  intros Hx Hr [Hlen [Hgo [Hstop Hearly]]].
  split; [simpl; lia|]. split; [|split].
  - intros [|k] Hk; [lia|]. rewrite rev_firstn_S.
    destruct k as [|k]; [exact Hx|]. apply Hgo. simpl in Hk. lia.
  - intros Hlt. simpl in Hlt. split; [discriminate|].
    destruct (Hstop ltac:(lia)) as [_ E]. cbn [rev]. rewrite <- app_assoc. exact E.
  - destruct r as [|y r].
    + cbn [rev app]. rewrite Hx. exact Hearly.
    + rewrite Hearly. cbn [rev]. rewrite <- !app_assoc. reflexivity.
Qed.

Lemma scan_account_stop n seen x :
  ends_scan (x :: seen) = true -> scan_account (S n) seen [x] true.
Proof.
  intros Hx. split; [simpl; lia|]. split; [|split].
  - intros k Hk. simpl in Hk. lia.
  - intros _. split; [discriminate|exact Hx].
  - cbn [rev app]. rewrite Hx. reflexivity.
Qed.

Lemma ap_scan_account : forall n i invalid_aps last_base p seen r early p',
  invalid_aps = count_invalid seen -> last_base = last_valid_base seen ->
  (invalid_aps < 8)%nat ->
  scan n i invalid_aps last_base p = Some (r, early, p') ->
  scan_account n seen r early /\ (r = [] -> early = false).
Proof.
  induction n as [|n IH]; intros i inv lb p seen r early p' Hinv Hlb H8 Hrun.
  - injection Hrun as <- <- <-. split; [|reflexivity].
    split; [simpl; lia|]. split; [intros k Hk; simpl in Hk; lia|].
    split; [simpl; lia|reflexivity].
  - cbn [ap_scan] in Hrun.
    apply Nat.ltb_lt in H8 as H8b. rewrite H8b in Hrun.
    destruct (new_ap (Z.of_nat i) p) as [[ap|] p1].
    + destruct (ap_base ap =? lb) eqn:Hdup.
      * injection Hrun as <- <- <-. split; [|discriminate].
        apply scan_account_stop. simpl. rewrite <- Hlb. exact Hdup.
      * destruct (examine ap p1) as [p2|]; [|discriminate].
        destruct (scan n (S i) inv (ap_base ap) p2) as [[[r' e'] p3]|] eqn:Hs;
          [|discriminate].
        injection Hrun as <- <- <-.
        apply (IH _ _ _ _ (Some ap :: seen)) in Hs;
          [|rewrite count_invalid_cons; exact Hinv|reflexivity|exact H8].
        destruct Hs as [Hs He]. split; [|discriminate].
        apply scan_account_cons; [simpl; rewrite <- Hlb; exact Hdup| |exact Hs].
        destruct r'; [right; apply He; reflexivity|left; discriminate].
    + destruct (S inv =? 8)%nat eqn:H88.
      * injection Hrun as <- <- <-. split; [|discriminate].
        apply scan_account_stop. cbn [ends_scan]. rewrite <- Hinv.
        apply Nat.eqb_eq in H88. rewrite H88. reflexivity.
      * destruct (scan n (S i) (S inv) lb p1) as [[[r' e'] p3]|] eqn:Hs;
          [|discriminate].
        injection Hrun as <- <- <-. apply Nat.eqb_neq in H88.
        apply (IH _ _ _ _ (None :: seen)) in Hs;
          [|rewrite count_invalid_cons; simpl; lia|exact Hlb|lia].
        destruct Hs as [Hs He]. split; [|discriminate].
        apply scan_account_cons; [| |exact Hs].
        -- cbn [ends_scan]. rewrite <- Hinv. apply Nat.leb_gt. lia.
        -- destruct r'; [right; apply He; reflexivity|left; discriminate].
Qed.

Lemma ap_scan_returns :
  (forall ap q, examine ap q <> None) ->
  forall n i invalid_aps last_base p,
    scan n i invalid_aps last_base p <> None.
Proof.
  intros Hex. induction n as [|n IH]; intros i inv lb p; [discriminate|].
  cbn [ap_scan]. destruct (inv <? 8)%nat; [|discriminate].
  destruct (new_ap (Z.of_nat i) p) as [[ap|] p1].
  - destruct (ap_base ap =? lb); [discriminate|].
    specialize (Hex ap p1). destruct (examine ap p1) as [p2|]; [|congruence].
    specialize (IH (S i) inv (ap_base ap) p2).
    destruct (scan n (S i) inv (ap_base ap) p2) as [[[? ?] ?]|];
      [discriminate|congruence].
  - destruct (S inv =? 8)%nat; [discriminate|].
    specialize (IH (S i) (S inv) lb p1).
    destruct (scan n (S i) (S inv) lb p1) as [[[? ?] ?]|];
      [discriminate|congruence].
Qed.


End ApScan.


(** *** SELECT stays on bank 0 *)

Section Banks.
Context (hd : header) (w : wire).
Context (Hhd : select_apart hd).

Local Abbreviation keeps := (keeps_bank hd).

Lemma keeps_refl l : keeps l l.
Proof. exists []. split; [rewrite app_nil_r; reflexivity|constructor]. Qed.

Lemma keeps_trans l1 l2 l3 : keeps l1 l2 -> keeps l2 l3 -> keeps l1 l3.
Proof.
  intros [d1 [E1 F1]] [d2 [E2 F2]]. exists (d1 ++ d2)%list. split.
  - rewrite E2, E1, app_assoc. reflexivity.
  - apply Forall_app. split; assumption.
Qed.

Lemma keeps_issued l l' d :
  issued l' = (issued l ++ d)%list ->
  Forall (fun a => bank2_select hd a = false) d -> keeps l l'.
Proof. intros E F. exists d. split; assumption. Qed.

Lemma low_nibble_of_select apsel addr :
  Z.land (Z.lor (Z.shiftl apsel 24) (Z.land addr 0xF0)) 0xF = 0.
Proof.
  apply Z.bits_inj'. intros n Hn.
  rewrite Z.land_spec, Z.lor_spec, Z.land_spec, Z.bits_0.
  destruct (Z.lt_ge_cases n 4) as [Hlt|Hge].
  - rewrite Z.shiftl_spec_low by lia.
    change 0xF0 with (Z.shiftl 0xF 4). rewrite Z.shiftl_spec_low by lia.
    rewrite andb_false_r. reflexivity.
  - change 0xF with (Z.ones 4). rewrite Z.ones_spec_high by lia.
    apply andb_false_r.
Qed.

Lemma not_select_write addr val :
  ADIV5_DP_SELECT hd <> addr -> bank2_select hd (DpWrite addr val) = false.
Proof.
  intros Hne. unfold bank2_select.
  destruct (addr =? ADIV5_DP_SELECT hd) eqn:E; [|reflexivity].
  apply Z.eqb_eq in E. congruence.
Qed.

Lemma not_select_low addr val :
  ADIV5_DP_SELECT hd <> addr ->
  bank2_select hd (LowAccess ADIV5_LOW_WRITE addr val) = false.
Proof.
  intros Hne. unfold bank2_select.
  destruct (addr =? ADIV5_DP_SELECT hd) eqn:E; [|reflexivity].
  apply Z.eqb_eq in E. congruence.
Qed.

Lemma ap_select_is_bank0 apsel addr :
  bank2_select hd
    (DpWrite (ADIV5_DP_SELECT hd)
       (Z.lor (Z.shiftl apsel 24) (Z.land addr 0xF0))) = false.
Proof.
  unfold bank2_select. rewrite low_nibble_of_select. apply andb_false_r.
Qed.

Lemma keeps_dp_write l addr val :
  ADIV5_DP_SELECT hd <> addr -> keeps l (adiv5_dp_write l addr val).
Proof.
  intros Hne. apply (keeps_issued _ _ [DpWrite addr val]); [reflexivity|].
  repeat constructor. apply not_select_write. exact Hne.
Qed.

Lemma keeps_dp_read l addr : keeps l (snd (adiv5_dp_read w l addr)).
Proof.
  apply (keeps_issued _ _ [DpRead addr]); [reflexivity|]. repeat constructor.
Qed.

Lemma keeps_low_read l addr val :
  keeps l (snd (adiv5_dp_low_access w l ADIV5_LOW_READ addr val)).
Proof.
  apply (keeps_issued _ _ [LowAccess ADIV5_LOW_READ addr val]); [reflexivity|].
  repeat constructor.
Qed.

Lemma keeps_low_write l addr val :
  ADIV5_DP_SELECT hd <> addr ->
  keeps l (snd (adiv5_dp_low_access w l ADIV5_LOW_WRITE addr val)).
Proof.
  intros Hne.
  apply (keeps_issued _ _ [LowAccess ADIV5_LOW_WRITE addr val]); [reflexivity|].
  repeat constructor. apply not_select_low. exact Hne.
Qed.

Lemma keeps_ap_write l ap addr val :
  ADIV5_DP_SELECT hd <> addr -> keeps l (firmware_ap_write hd l ap addr val).
Proof.
  intros Hne.
  apply (keeps_issued _ _
           [DpWrite (ADIV5_DP_SELECT hd)
              (Z.lor (Z.shiftl (ap_apsel ap) 24) (Z.land addr 0xF0));
            DpWrite addr val]).
  - unfold firmware_ap_write, adiv5_dp_write. simpl.
    rewrite <- app_assoc. reflexivity.
  - repeat constructor; [apply ap_select_is_bank0|apply not_select_write, Hne].
Qed.

Lemma keeps_ap_read l ap addr : keeps l (snd (firmware_ap_read hd w l ap addr)).
Proof.
  apply (keeps_issued _ _
           [DpWrite (ADIV5_DP_SELECT hd)
              (Z.lor (Z.shiftl (ap_apsel ap) 24) (Z.land addr 0xF0));
            DpRead addr]).
  - unfold firmware_ap_read, adiv5_dp_read, adiv5_dp_write. simpl.
    rewrite <- app_assoc. reflexivity.
  - repeat constructor. apply ap_select_is_bank0.
Qed.

Lemma setup_accesses_bank ap addr a :
  Forall (fun x => bank2_select hd x = false) (setup_accesses hd ap addr a).
Proof.
  destruct Hhd as [_ [Hcsw [Htar _]]].
  repeat constructor;
    [apply ap_select_is_bank0|apply not_select_write, Hcsw
     |apply not_select_low, Htar].
Qed.

Lemma read_words_bank a addr oaddr l0 :
  Forall (fun x => bank2_select hd x = false)
    (flat_map (read_word_accesses hd a addr oaddr) l0).
Proof.
  destruct Hhd as [_ [_ [Htar _]]].
  induction l0 as [|i l0 IH]; [constructor|]. cbn [flat_map].
  apply Forall_app. split; [|exact IH].
  unfold read_word_accesses. destruct (reprograms a addr oaddr i);
    repeat constructor; apply not_select_low, Htar.
Qed.

Lemma write_words_bank a src pos addr oaddr l0 :
  Forall (fun x => bank2_select hd x = false)
    (flat_map (write_word_accesses hd a src pos addr oaddr) l0).
Proof.
  destruct Hhd as [_ [_ [Htar Hdrw]]].
  induction l0 as [|i l0 IH]; [constructor|]. cbn [flat_map].
  apply Forall_app. split; [|exact IH].
  unfold write_word_accesses. destruct (reprograms a addr oaddr i);
    repeat constructor; apply not_select_low; assumption.
Qed.

Lemma keeps_mem_read l ap dest src len :
  keeps l (snd (firmware_mem_read hd w l ap dest src len)).
Proof.
  destruct (Z.eq_dec len 0) as [->|Hlen]; [apply keeps_refl|].
  eapply keeps_issued; [apply firmware_mem_read_issued; exact Hlen|].
  apply Forall_app. split; [apply setup_accesses_bank|].
  apply Forall_app. split; [repeat constructor|].
  apply Forall_app. split; [apply read_words_bank|repeat constructor].
Qed.

Lemma keeps_mem_write_sized l ap dest src len a :
  keeps l (firmware_mem_write_sized hd w l ap dest src len a).
Proof.
  eapply keeps_issued; [apply firmware_mem_write_sized_issued|].
  apply Forall_app. split; [apply setup_accesses_bank|].
  apply Forall_app. split; [apply write_words_bank|repeat constructor].
Qed.

Lemma keeps_mem_write l ap dest src len :
  keeps l (adiv5_mem_write hd w l ap dest src len).
Proof. apply keeps_mem_write_sized. Qed.

Lemma keeps_mem_read32 l ap addr :
  keeps l (snd (adiv5_mem_read32 hd w l ap addr)).
Proof.
  unfold adiv5_mem_read32, adiv5_mem_read.
  pose proof (keeps_mem_read l ap [0; 0; 0; 0] addr 4) as K.
  destruct (firmware_mem_read hd w l ap [0; 0; 0; 0] addr 4). exact K.
Qed.

Lemma keeps_ap_read_id l ap addr :
  keeps l (snd (adiv5_ap_read_id hd w l ap addr)).
Proof.
  unfold adiv5_ap_read_id, adiv5_mem_read.
  pose proof (keeps_mem_read l ap (repeat 0 16) addr 16) as K.
  destruct (firmware_mem_read hd w l ap (repeat 0 16) addr 16). exact K.
Qed.

Lemma keeps_ap_read_pidr l ap addr :
  keeps l (snd (adiv5_ap_read_pidr hd w l ap addr)).
Proof.
  unfold adiv5_ap_read_pidr.
  pose proof (keeps_ap_read_id l ap (u32 (addr + PIDR4_OFFSET))) as K1.
  destruct (adiv5_ap_read_id hd w l ap (u32 (addr + PIDR4_OFFSET))) as [v1 l1].
  pose proof (keeps_ap_read_id l1 ap (u32 (addr + PIDR0_OFFSET))) as K2.
  destruct (adiv5_ap_read_id hd w l1 ap (u32 (addr + PIDR0_OFFSET))) as [v2 l2].
  exact (keeps_trans _ _ _ K1 K2).
Qed.

End Banks.

Section BanksProbe.
Context (hd : header) (w : wire).
Context (time_ms : nat -> Z) (expired : nat -> bool) (faults : nat -> bool).
Context (raises : nat -> bool) (malloc_fails : nat -> bool).
Context (nrst : bool) (wait : Z).
Context (Hhd : select_apart hd).

Local Abbreviation keeps := (keeps_bank hd).

Lemma keeps_halt_attempt ap low c st t p :
  keeps (lnk p) (lnk (snd (halt_attempt hd w time_ms ap low c st t p))).
Proof.
  destruct Hhd as [Hctrl [_ [_ Hdrw]]].
  unfold halt_attempt. destruct low.
  - destruct (t <? 0xfff); cbn [platform_time_ms on_link lnk snd fst
                                 adiv5_dp_low_access];
      (eapply keeps_issued;
       [cbn [issued]; rewrite <- !app_assoc; reflexivity|]);
      repeat constructor; apply not_select_low; assumption.
  - pose proof (keeps_mem_write hd w Hhd (lnk p) ap (CORTEXM_DHCSR hd)
                  (le_bytes 4 (dhcsr_ctl hd)) 4) as K1.
    set (l1 := adiv5_mem_write hd w (lnk p) ap (CORTEXM_DHCSR hd)
                 (le_bytes 4 (dhcsr_ctl hd)) 4) in *.
    pose proof (keeps_mem_read32 hd w Hhd l1 ap (CORTEXM_DHCSR hd)) as K2.
    destruct (adiv5_mem_read32 hd w l1 ap (CORTEXM_DHCSR hd)) as [d l2].
    exact (keeps_trans hd _ _ _ K1 K2).
Qed.

Lemma keeps_halt_loop : forall fuel ap low c st t rs p d p',
  halt_loop hd w time_ms expired nrst fuel ap low c st t rs p = Some (d, p') ->
  keeps (lnk p) (lnk p').
Proof.
  induction fuel as [|fuel IH]; intros ap low c st t rs p d p' Hrun;
    [discriminate|].
  cbn [halt_loop] in Hrun. unfold platform_timeout_is_expired at 1 in Hrun.
  cbn [fst snd] in Hrun.
  destruct (expired (polls p)).
  { injection Hrun as _ <-. apply keeps_refl. }
  match type of Hrun with
  | context [halt_attempt hd w time_ms ap low c st t ?q] =>
      pose proof (keeps_halt_attempt ap low c st t q) as K;
      destruct (halt_attempt hd w time_ms ap low c st t q) as [[x t'] p1]
  end.
  cbn [snd lnk] in K.
  destruct (negb (x =? 0xffffffff) && (Z.land x 0xf000fff0 =? 0)).
  - destruct (tst x (CORTEXM_DHCSR_S_RESET_ST hd) && negb rs).
    + destruct nrst.
      * injection Hrun as _ <-. exact K.
      * exact (keeps_trans hd _ _ _ K (IH _ _ _ _ _ _ _ _ _ Hrun)).
    + destruct (Z.land x (dhcsr_valid hd) =? dhcsr_valid hd).
      * injection Hrun as _ <-. exact K.
      * exact (keeps_trans hd _ _ _ K (IH _ _ _ _ _ _ _ _ _ Hrun)).
  - exact (keeps_trans hd _ _ _ K (IH _ _ _ _ _ _ _ _ _ Hrun)).
Qed.

Lemma keeps_halt_entry ap p :
  keeps (lnk p) (lnk (snd (halt_entry hd w time_ms wait ap p))).
Proof.
  destruct Hhd as [_ [Hcsw [Htar _]]].
  unfold halt_entry.
  pose proof (keeps_dp_read hd w (lnk p) (ADIV5_DP_CTRLSTAT hd)) as K1.
  destruct (adiv5_dp_read w (lnk p) (ADIV5_DP_CTRLSTAT hd)) as [c l1].
  cbn [snd] in K1.
  destruct (negb (dp_mindp (ap_dp ap)));
    cbn [platform_time_ms on_link called lnk snd]; [|exact K1].
  refine (keeps_trans hd _ _ _ K1 _).
  refine (keeps_trans hd _ _ _
            (keeps_ap_write hd l1 ap (ADIV5_AP_CSW hd) _ Hcsw) _).
  apply keeps_low_write. exact Htar.
Qed.

Lemma keeps_initial_halt fuel ap p d p' :
  cortexm_initial_halt hd w time_ms expired nrst wait fuel ap p = Some (d, p') ->
  keeps (lnk p) (lnk p').
Proof.
  unfold cortexm_initial_halt. pose proof (keeps_halt_entry ap p) as K.
  destruct (halt_entry hd w time_ms wait ap p) as [[c st] p0]. cbn [snd] in K.
  intros Hrun. exact (keeps_trans hd _ _ _ K (keeps_halt_loop _ _ _ _ _ _ _ _ _ _ Hrun)).
Qed.

Lemma keeps_prepare_wait : forall fuel ap p r p',
  prepare_wait hd w expired fuel ap p = Some (r, p') -> keeps (lnk p) (lnk p').
Proof.
  induction fuel as [|fuel IH]; intros ap p r p' Hrun; [discriminate|].
  cbn [prepare_wait] in Hrun.
  pose proof (keeps_mem_read32 hd w Hhd (lnk p) ap (CORTEXM_DHCSR hd)) as K.
  destruct (adiv5_mem_read32 hd w (lnk p) ap (CORTEXM_DHCSR hd)) as [d l1].
  cbn [snd] in K.
  destruct (negb (tst d (CORTEXM_DHCSR_S_RESET_ST hd))).
  - injection Hrun as _ <-. exact K.
  - unfold platform_timeout_is_expired in Hrun. cbn [on_link polls] in Hrun.
    destruct (expired (polls p)).
    + injection Hrun as _ <-. exact K.
    + apply IH in Hrun. exact (keeps_trans hd _ _ _ K Hrun).
Qed.

Lemma keeps_cortexm_prepare fuel ap p r ap' p' :
  cortexm_prepare hd w time_ms expired nrst wait fuel ap p = Some (r, ap', p') ->
  keeps (lnk p) (lnk p').
Proof.
  unfold cortexm_prepare.
  destruct (cortexm_initial_halt hd w time_ms expired nrst wait fuel ap p)
    as [[d p1]|] eqn:Hh; [|discriminate].
  apply keeps_initial_halt in Hh.
  destruct (d =? 0).
  { intros Hrun. injection Hrun as _ _ <-. exact Hh. }
  pose proof (keeps_mem_read32 hd w Hhd (lnk p1) ap (CORTEXM_DEMCR hd)) as K1.
  destruct (adiv5_mem_read32 hd w (lnk p1) ap (CORTEXM_DEMCR hd)) as [demcr l1].
  cbn [snd] in K1.
  match goal with
  | |- context [adiv5_mem_write hd w l1 ?a ?b ?c ?n] =>
      pose proof (keeps_mem_write hd w Hhd l1 a b c n) as K2;
      set (l2 := adiv5_mem_write hd w l1 a b c n) in *
  end.
  match goal with
  | |- context [prepare_wait hd w expired fuel ?a ?q] =>
      destruct (prepare_wait hd w expired fuel a q) as [[r0 p2]|] eqn:Hw;
        [|discriminate]
  end.
  apply keeps_prepare_wait in Hw. cbn [called on_link lnk] in Hw.
  intros Hrun. injection Hrun as _ _ <-.
  exact (keeps_trans hd _ _ _ Hh
           (keeps_trans hd _ _ _ K1 (keeps_trans hd _ _ _ K2 Hw))).
Qed.

Lemma keeps_rom_read ap addr i p :
  keeps (lnk p) (lnk (snd (rom_read hd w faults ap addr i p))).
Proof.
  unfold rom_read. cbn [adiv5_dp_error dp_fault snd lnk].
  match goal with
  | |- context [adiv5_mem_read32 hd w ?l ap ?a] =>
      pose proof (keeps_mem_read32 hd w Hhd l ap a) as K;
      destruct (adiv5_mem_read32 hd w l ap a) as [e l1]
  end.
  exact K.
Qed.

Lemma keeps_romtab_loop (probe_fn : Z -> nat -> nat -> probe -> option probe) :
  (forall a r k q q', probe_fn a r k q = Some q' -> keeps (lnk q) (lnk q')) ->
  forall n i ap addr recursion p steps p',
    romtab_loop hd w faults probe_fn n i ap addr recursion p = Some (steps, p') ->
    keeps (lnk p) (lnk p').
Proof.
  intros Hfn. induction n as [|n IH]; intros i ap addr recursion p steps p' Hrun.
  - injection Hrun as _ <-. apply keeps_refl.
  - rewrite romtab_loop_unfold in Hrun.
    pose proof (keeps_rom_read ap addr i p) as K.
    destruct (rom_read hd w faults ap addr i p) as [[entry err] p1].
    cbn [snd] in K.
    destruct err; [injection Hrun as _ <-; exact K|].
    destruct (entry =? 0); [injection Hrun as _ <-; exact K|].
    destruct (negb (tst entry (ADIV5_ROM_ROMENTRY_PRESENT hd))).
    + destruct (romtab_loop hd w faults probe_fn n (S i) ap addr recursion p1)
        as [[s1 p2]|] eqn:Hl; [|discriminate].
      injection Hrun as _ <-. apply IH in Hl. exact (keeps_trans hd _ _ _ K Hl).
    + destruct (probe_fn _ (S recursion) i p1) as [p2|] eqn:Hp; [|discriminate].
      apply Hfn in Hp.
      destruct (romtab_loop hd w faults probe_fn n (S i) ap addr recursion p2)
        as [[s1 p3]|] eqn:Hl; [|discriminate].
      injection Hrun as _ <-. apply IH in Hl.
      exact (keeps_trans hd _ _ _ K (keeps_trans hd _ _ _ Hp Hl)).
Qed.

Lemma keeps_component_dispatch ap addr cls dc pn p :
  keeps (lnk p) (lnk (component_dispatch hd w ap addr cls dc pn p)).
Proof.
  unfold component_dispatch.
  destruct (negb (dc =? JEP106_MANUFACTURER_ARM hd)); [apply keeps_refl|].
  destruct (cls =? cid_class_val cidc_dc).
  - pose proof (keeps_mem_read32 hd w Hhd (lnk p) ap (u32 (addr + DEVTYPE_OFFSET)))
      as K1.
    destruct (adiv5_mem_read32 hd w (lnk p) ap (u32 (addr + DEVTYPE_OFFSET)))
      as [v l1]. cbn [snd] in K1.
    pose proof (keeps_mem_read32 hd w Hhd l1 ap (u32 (addr + DEVARCH_OFFSET)))
      as K2.
    destruct (adiv5_mem_read32 hd w l1 ap (u32 (addr + DEVARCH_OFFSET)))
      as [v2 l2]. cbn [snd] in K2.
    pose proof (keeps_trans hd _ _ _ K1 K2) as K.
    destruct (lut_find arm_component_lut pn _ _) as [e|]; [|exact K].
    destruct (arch e); exact K.
  - destruct (lut_find arm_component_lut pn 0 0) as [e|]; [|apply keeps_refl].
    destruct (arch e); apply keeps_refl.
Qed.

Lemma keeps_component_probe : forall fuel ap addr recursion num_entry p ap' p',
  adiv5_component_probe hd w faults fuel ap addr recursion num_entry p
    = Some (ap', p') ->
  keeps (lnk p) (lnk p').
Proof.
  induction fuel as [|fuel IH]; intros ap addr recursion num_entry p ap' p' Hrun;
    [discriminate|].
  cbn [adiv5_component_probe] in Hrun.
  destruct (Z.land addr 0xfffff000 =? 0).
  { injection Hrun as _ <-. apply keeps_refl. }
  match type of Hrun with
  | context [adiv5_ap_read_id hd w ?l ?a ?x] =>
      pose proof (keeps_ap_read_id hd w Hhd l a x) as K1;
      destruct (adiv5_ap_read_id hd w l a x) as [cidr l1]
  end.
  cbn [snd] in K1. cbn [dp_fault on_link lnk asked] in Hrun.
  destruct (faults (asked p)); [injection Hrun as _ <-; exact K1|].
  destruct (negb (Z.land cidr (u32 (Z.lnot CID_CLASS_MASK)) =? CID_PREAMBLE));
    [injection Hrun as _ <-; exact K1|].
  cbn [adiv5_dp_error dp_fault lnk asked] in Hrun.
  destruct (faults (S (asked p))); [injection Hrun as _ <-; exact K1|].
  cbn [lnk] in Hrun.
  match type of Hrun with
  | context [adiv5_ap_read_pidr hd w ?l ?a ?x] =>
      pose proof (keeps_ap_read_pidr hd w Hhd l a x) as K2;
      destruct (adiv5_ap_read_pidr hd w l a x) as [pidr l2]
  end.
  cbn [snd] in K2. pose proof (keeps_trans hd _ _ _ K1 K2) as K12.
  cbn [on_link lnk] in Hrun.
  destruct (_ =? cid_class_val cidc_romtab).
  - match type of Hrun with
    | context [match recursion with O => ?a | S _ => ?b end] =>
        assert (K3 : keeps l2 (lnk (snd (fst
                   (match recursion with O => a | S _ => b end)))));
        [|destruct (match recursion with O => a | S _ => b end)
            as [[ap1 p1] prot]]
    end.
    { destruct recursion; [|apply keeps_refl].
      cbn [ap_designer_code ap_partno].
      destruct ((pidr_designer_code hd pidr =? JEP106_MANUFACTURER_ATMEL hd)
                && (Z.land pidr PIDR_PN_MASK =? 0xcd0)); [|apply keeps_refl].
      match goal with
      | |- context [adiv5_mem_read32 hd w ?l ?a ?x] =>
          pose proof (keeps_mem_read32 hd w Hhd l a x) as K;
          destruct (adiv5_mem_read32 hd w l a x) as [cs l3]
      end.
      exact K. }
    cbn [fst snd] in K3.
    destruct prot.
    + injection Hrun as _ <-. exact (keeps_trans hd _ _ _ K12 K3).
    + match type of Hrun with
      | context [romtab_loop hd w faults ?f 960 0 ?a ?x ?r ?q] =>
          destruct (romtab_loop hd w faults f 960 0 a x r q)
            as [[steps p2]|] eqn:Hl; [|discriminate]
      end.
      injection Hrun as _ <-.
      apply keeps_romtab_loop in Hl.
      * exact (keeps_trans hd _ _ _ K12 (keeps_trans hd _ _ _ K3 Hl)).
      * intros a r k q q' Hq.
        destruct (adiv5_component_probe hd w faults fuel ap1 a r k q)
          as [[ap2 q2]|] eqn:Hc; [|discriminate].
        injection Hq as <-. exact (IH _ _ _ _ _ _ _ Hc).
  - injection Hrun as _ <-.
    refine (keeps_trans hd _ _ _ K12 _).
    match goal with
    | |- keeps_bank hd _ (lnk (component_dispatch hd w ?a ?b ?c ?d ?e ?q)) =>
        exact (keeps_component_dispatch a b c d e q)
    end.
Qed.

Lemma keeps_new_ap dp apsel p :
  keeps (lnk p) (lnk (snd (adiv5_new_ap hd w malloc_fails dp apsel p))).
Proof.
  unfold adiv5_new_ap, adiv5_ap_read.
  match goal with
  | |- context [firmware_ap_read hd w (lnk p) ?a ?x] =>
      pose proof (keeps_ap_read hd w (lnk p) a x) as K1;
      destruct (firmware_ap_read hd w (lnk p) a x) as [idr l1]
  end.
  match goal with
  | |- context [firmware_ap_read hd w l1 ?a ?x] =>
      pose proof (keeps_ap_read hd w l1 a x) as K2;
      destruct (firmware_ap_read hd w l1 a x) as [base l2]
  end.
  cbn [snd] in K1, K2. pose proof (keeps_trans hd _ _ _ K1 K2) as K12.
  destruct (base =? 0xffffffff); [exact K12|].
  destruct (idr =? 0); [exact K12|].
  cbn [on_link lnk].
  match goal with
  | |- context [firmware_ap_read hd w l2 ?a ?x] =>
      pose proof (keeps_ap_read hd w l2 a x) as K3;
      destruct (firmware_ap_read hd w l2 a x) as [csw l3]
  end.
  cbn [snd] in K3. pose proof (keeps_trans hd _ _ _ K12 K3) as K.
  destruct (tst _ (ADIV5_AP_CSW_TRINPROG hd)); [exact K|].
  unfold malloc. cbn [on_link allocs].
  destruct (negb (negb (malloc_fails (allocs p)))); exact K.
Qed.

Lemma keeps_examine_ap fuel ap p p' :
  examine_ap hd w time_ms expired faults nrst wait fuel ap p = Some p' ->
  keeps (lnk p) (lnk p').
Proof.
  unfold examine_ap.
  set (p0 := called (called (called p (KinetisMdmProbe ap)) (Nrf51MdmProbe ap))
               (Efm32AapProbe ap)).
  assert (K0 : keeps (lnk p) (lnk p0)) by apply keeps_refl.
  destruct ((ap_apsel ap =? 0) && (Z.land (ap_idr ap) 0xf =? ARM_AP_TYPE_AHB)).
  - destruct (cortexm_prepare hd w time_ms expired nrst wait fuel ap p0)
      as [[[r ap1] p1]|] eqn:Hp; [|discriminate].
    apply keeps_cortexm_prepare in Hp.
    destruct (adiv5_component_probe hd w faults fuel ap1 (ap_base ap1) 0 0 p1)
      as [[ap2 p2]|] eqn:Hc; [|discriminate].
    apply keeps_component_probe in Hc.
    intros E. injection E as <-.
    exact (keeps_trans hd _ _ _ K0 (keeps_trans hd _ _ _ Hp Hc)).
  - destruct (adiv5_component_probe hd w faults fuel ap (ap_base ap) 0 0 p0)
      as [[ap2 p2]|] eqn:Hc; [|discriminate].
    apply keeps_component_probe in Hc.
    intros E. injection E as <-. exact (keeps_trans hd _ _ _ K0 Hc).
Qed.

Lemma keeps_ap_scan (new_ap : Z -> probe -> option ADIv5_AP_t * probe)
  (examine : ADIv5_AP_t -> probe -> option probe) :
  (forall a q, keeps (lnk q) (lnk (snd (new_ap a q)))) ->
  (forall a q q', examine a q = Some q' -> keeps (lnk q) (lnk q')) ->
  forall n i invalid_aps last_base p r early p',
    ap_scan new_ap examine n i invalid_aps last_base p = Some (r, early, p') ->
    keeps (lnk p) (lnk p').
Proof.
  intros Hnew Hex. induction n as [|n IH]; intros i inv lb p r early p' Hrun.
  - injection Hrun as _ _ <-. apply keeps_refl.
  - cbn [ap_scan] in Hrun.
    destruct (inv <? 8)%nat; [|injection Hrun as _ _ <-; apply keeps_refl].
    pose proof (Hnew (Z.of_nat i) p) as K.
    destruct (new_ap (Z.of_nat i) p) as [[ap|] p1]; cbn [snd] in K.
    + destruct (ap_base ap =? lb); [injection Hrun as _ _ <-; exact K|].
      destruct (examine ap p1) as [p2|] eqn:He; [|discriminate].
      apply Hex in He.
      destruct (ap_scan new_ap examine n (S i) inv (ap_base ap) p2)
        as [[[r1 e1] p3]|] eqn:Hs; [|discriminate].
      injection Hrun as _ _ <-. apply IH in Hs.
      exact (keeps_trans hd _ _ _ K (keeps_trans hd _ _ _ He Hs)).
    + destruct (S inv =? 8)%nat; [injection Hrun as _ _ <-; exact K|].
      destruct (ap_scan new_ap examine n (S i) (S inv) lb p1)
        as [[[r1 e1] p3]|] eqn:Hs; [|discriminate].
      injection Hrun as _ _ <-. apply IH in Hs.
      exact (keeps_trans hd _ _ _ K Hs).
Qed.

Lemma keeps_power_up_wait : forall fuel p r c p',
  power_up_wait hd w expired fuel p = Some (r, c, p') -> keeps (lnk p) (lnk p').
Proof.
  induction fuel as [|fuel IH]; intros p r c p' Hrun; [discriminate|].
  cbn [power_up_wait] in Hrun.
  pose proof (keeps_dp_read hd w (lnk p) (ADIV5_DP_CTRLSTAT hd)) as K.
  destruct (adiv5_dp_read w (lnk p) (ADIV5_DP_CTRLSTAT hd)) as [cs l1].
  cbn [snd] in K.
  destruct (Z.land cs _ =? _); [injection Hrun as _ _ <-; exact K|].
  unfold platform_timeout_is_expired in Hrun. cbn [on_link polls] in Hrun.
  destruct (expired (polls p)); [injection Hrun as _ _ <-; exact K|].
  apply IH in Hrun. exact (keeps_trans hd _ _ _ K Hrun).
Qed.

Lemma keeps_reset_wait : forall fuel p p',
  reset_wait hd w expired fuel p = Some p' -> keeps (lnk p) (lnk p').
Proof.
  induction fuel as [|fuel IH]; intros p p' Hrun; [discriminate|].
  cbn [reset_wait] in Hrun. cbn [called lnk] in Hrun.
  pose proof (keeps_dp_read hd w (lnk p) (ADIV5_DP_CTRLSTAT hd)) as K.
  destruct (adiv5_dp_read w (lnk p) (ADIV5_DP_CTRLSTAT hd)) as [cs l1].
  cbn [snd] in K.
  destruct (tst cs _); [injection Hrun as <-; exact K|].
  unfold platform_timeout_is_expired in Hrun.
  cbn [on_link called polls] in Hrun.
  destruct (expired (polls p)); [injection Hrun as <-; exact K|].
  apply IH in Hrun. exact (keeps_trans hd _ _ _ K Hrun).
Qed.

Lemma keeps_dp_read_try l addr :
  keeps l (snd (adiv5_dp_read_try w raises l addr)).
Proof.
  unfold adiv5_dp_read_try. destruct (raises (answered l)).
  - apply (keeps_issued hd _ _ [DpRead addr]); [reflexivity|].
    repeat constructor.
  - apply (keeps_dp_read hd w l addr).
Qed.

Lemma keeps_bring_up fuel dp p r p' :
  dp_init_bring_up hd w time_ms expired faults raises malloc_fails nrst wait
    fuel dp p = Some (r, p') ->
  keeps (lnk p) (lnk p').
Proof.
  pose proof Hhd as [Hctrl _].
  unfold dp_init_bring_up.
  destruct ((dp_designer_code dp =? JEP106_MANUFACTURER_RASPBERRY hd)
            && (dp_partno dp =? 0x2)).
  { intros E. injection E as _ <-. unfold rp_rescue_setup, malloc.
    destruct (negb (negb (malloc_fails (allocs p)))); apply keeps_refl. }
  pose proof (keeps_dp_read_try (lnk p) (ADIV5_DP_CTRLSTAT hd)) as K1.
  destruct (adiv5_dp_read_try w raises (lnk p) (ADIV5_DP_CTRLSTAT hd)) as [c l1].
  cbn [snd] in K1.
  assert (K2 : exists l2, keeps l1 l2 /\
            forall cs0 p0,
              (match c with
               | Some ctrlstat => (ctrlstat, on_link p l1)
               | None =>
                   let (ctrlstat, l) :=
                     adiv5_dp_read w
                       (lnk (called (on_link p l1)
                               (Adiv5DpAbort (ADIV5_DP_ABORT_DAPABORT hd))))
                       (ADIV5_DP_CTRLSTAT hd) in
                   (ctrlstat,
                    on_link (called (on_link p l1)
                               (Adiv5DpAbort (ADIV5_DP_ABORT_DAPABORT hd))) l)
               end) = (cs0, p0) -> lnk p0 = l2).
  { destruct c as [cs|].
    - exists l1. split; [apply keeps_refl|]. intros cs0 p0 E.
      injection E as _ <-. reflexivity.
    - cbn [called on_link lnk].
      pose proof (keeps_dp_read hd w l1 (ADIV5_DP_CTRLSTAT hd)) as K.
      destruct (adiv5_dp_read w l1 (ADIV5_DP_CTRLSTAT hd)) as [cs l2].
      exists l2. split; [exact K|]. intros cs0 p0 E.
      injection E as _ <-. reflexivity. }
  destruct K2 as [l2 [K2 Hl2]].
  match goal with
  | |- context [let (_, _) := ?m in _] =>
      destruct m as [cs p1] eqn:Em
  end.
  specialize (Hl2 cs p1 eq_refl).
  cbn [called on_link lnk].
  match goal with
  | |- context [power_up_wait hd w expired fuel ?q] =>
      assert (K3 : keeps (lnk p1) (lnk q))
        by (apply keeps_dp_write; exact Hctrl);
      destruct (power_up_wait hd w expired fuel q) as [[[ok cs1] p2]|] eqn:Hp;
        [|discriminate]
  end.
  apply keeps_power_up_wait in Hp. rewrite <- Hl2 in K2.
  pose proof (keeps_trans hd _ _ _ K1
                (keeps_trans hd _ _ _ K2 (keeps_trans hd _ _ _ K3 Hp))) as K.
  destruct ok; [|intros E; injection E as _ <-; exact K].
  match goal with
  | |- context [reset_wait hd w expired fuel ?q] =>
      assert (K4 : keeps (lnk p2) (lnk q));
      [|destruct (reset_wait hd w expired fuel q) as [p3|] eqn:Hr; [|discriminate]]
  end.
  { cbn [on_link lnk].
    refine (keeps_trans hd _ _ _
              (keeps_dp_write hd (lnk p2) (ADIV5_DP_CTRLSTAT hd) _ Hctrl) _).
    apply keeps_dp_write; exact Hctrl. }
  apply keeps_reset_wait in Hr.
  match goal with
  | |- context [ap_scan ?f ?g 256 0 0 0 p3] =>
      destruct (ap_scan f g 256 0 0 0 p3) as [[[r1 e1] p4]|] eqn:Hs; [|discriminate]
  end.
  apply keeps_ap_scan in Hs;
    [|intros a q; apply keeps_new_ap
     |intros a q q' E; exact (keeps_examine_ap _ _ _ _ E)].
  pose proof (keeps_trans hd _ _ _ K
                (keeps_trans hd _ _ _ K4 (keeps_trans hd _ _ _ Hr Hs))) as Kall.
  destruct e1; intros E; injection E as _ <-; [exact Kall|].
  destruct nrst; exact Kall.
Qed.


End BanksProbe.

(** A run of C4: six bytes from an address that is a multiple of 2
    only are read as three half-words. *)
Lemma transfer_width_is_min_alignment_witness :
  MIN (ALIGNOF 0x20000002) (ALIGNOF 6) = ALIGN_HALFWORD
  /\ issued (snd (firmware_mem_read arm_header romtable_wire link_init sample_ap
                    (repeat 0 6) 0x20000002 6)) =
     [DpWrite 0x8 0; DpWrite 0x100 0x23000051;
      LowAccess ADIV5_LOW_WRITE 0x104 0x20000002;
      LowAccess ADIV5_LOW_READ 0x10C 0; LowAccess ADIV5_LOW_READ 0x10C 0;
      LowAccess ADIV5_LOW_READ 0x10C 0; LowAccess ADIV5_LOW_READ 0xC 0].
Proof.
  pose proof (transfer_width_is_min_alignment arm_header romtable_wire
                0x20000002 6) as T.
  cbv zeta in T. destruct T as [_ [Hh [_ [_ Hr]]]]. split.
  - apply Hh. split; [split; reflexivity|]. intros [E _]. discriminate E.
  - rewrite (Hr link_init sample_ap (repeat 0 6)) by lia. reflexivity.
Defined.



Lemma arm_header_select_apart : select_apart arm_header.
Proof. repeat split; discriminate. Qed.


(** *** Sample runs *)

(** A word read: the data come with the read of RDBUFF. *)
Example firmware_mem_read_word :
  firmware_mem_read arm_header beef_wire link_init sample_ap [0; 0; 0; 0]
    0x20000000 4 =
    ([0xEF; 0xBE; 0xAD; 0xDE],
     {| answered := 2;
        issued := [DpWrite 0x8 0; DpWrite 0x100 0x23000052;
                   LowAccess ADIV5_LOW_WRITE 0x104 0x20000000;
                   LowAccess ADIV5_LOW_READ 0x10C 0;
                   LowAccess ADIV5_LOW_READ 0xC 0] |})
  /\ fst (adiv5_mem_read32 arm_header beef_wire link_init sample_ap 0x20000000)
     = 0xDEADBEEF.
Proof. split; vm_compute; reflexivity. Qed.

(** A byte read from an address ending in 3: the byte is taken from
    the top lane. *)
Example firmware_mem_read_byte_lane :
  fst (firmware_mem_read arm_header beef_wire link_init sample_ap [0]
         0x20000003 1) = [0xDE].
Proof. vm_compute. reflexivity. Qed.

(** Two words read across the end of a 1 KiB window: TAR is written
    again with 0x20000400, and the answer to the read that follows is
    not stored. *)
Example firmware_mem_read_crossing :
  firmware_mem_read arm_header counting_wire link_init sample_ap (repeat 0 8)
    0x200003FC 8 =
    ([1; 1; 1; 1; 3; 3; 3; 3],
     {| answered := 4;
        issued := [DpWrite 0x8 0; DpWrite 0x100 0x23000052;
                   LowAccess ADIV5_LOW_WRITE 0x104 0x200003FC;
                   LowAccess ADIV5_LOW_READ 0x10C 0;
                   LowAccess ADIV5_LOW_READ 0x10C 0;
                   LowAccess ADIV5_LOW_WRITE 0x104 0x20000400;
                   LowAccess ADIV5_LOW_READ 0x10C 0;
                   LowAccess ADIV5_LOW_READ 0xC 0] |}).
Proof. vm_compute. reflexivity. Qed.

(** Two half-words written across the end of a window. *)
Example firmware_mem_write_crossing :
  issued (firmware_mem_write_sized arm_header counting_wire link_init sample_ap
            0x200003FE [0x11; 0x22; 0x33; 0x44] 4 ALIGN_HALFWORD) =
    [DpWrite 0x8 0; DpWrite 0x100 0x23000051;
     LowAccess ADIV5_LOW_WRITE 0x104 0x200003FE;
     LowAccess ADIV5_LOW_WRITE 0x10C 0x22110000;
     LowAccess ADIV5_LOW_WRITE 0x104 0x20000400;
     LowAccess ADIV5_LOW_WRITE 0x10C 0x4433; DpRead 0xC].
Proof. vm_compute. reflexivity. Qed.

(** *** The data of a read *)

Lemma store_nil_bytes buf pos : store buf pos [] = buf.
Proof. destruct buf; reflexivity. Qed.

Lemma store_splice : forall buf pos bytes,
  (pos + length bytes <= length buf)%nat ->
  store buf pos bytes =
  (firstn pos buf ++ bytes ++ skipn (pos + length bytes) buf)%list.
Proof.
  induction buf as [|y buf IH]; intros pos bytes H.
  - destruct bytes as [|x bytes]; simpl in H.
    + destruct pos; [reflexivity|lia].
    + lia.
  - destruct bytes as [|x bytes].
    + rewrite store_nil_bytes. cbn [length app]. rewrite Nat.add_0_r.
      symmetry. apply firstn_skipn.
    + destruct pos as [|pos].
      * cbn [store firstn app length Nat.add skipn]. f_equal.
        cbn [length] in H.
        rewrite (IH 0%nat bytes) by (cbn [length] in H; lia).
        reflexivity.
      * cbn [store firstn app]. f_equal.
        rewrite (IH pos (x :: bytes)) by (cbn [length] in *; lia).
        reflexivity.
Qed.

Lemma lane_bytes_length a addr val :
  a <> ALIGN_DWORD -> length (lane_bytes a addr val) = width a.
Proof. destruct a; intros H; try reflexivity. contradiction. Qed.

Lemma extract_lane dest pos src val a :
  extract dest pos src val a =
  (store dest pos (lane_bytes a src val), (pos + width a)%nat).
Proof. destruct a; reflexivity. Qed.

Lemma answers_before_shift a addr oaddr i :
  answers_before a addr oaddr (S i) =
  ((if crosses (step_addr a addr) oaddr then 2 else 1)
   + answers_before a (step_addr a addr) (step_tar a addr oaddr) i)%nat.
Proof.
  induction i as [|i IH].
  - cbn [answers_before]. unfold reprograms. cbn [transfer_addr tar_shadow].
    unfold step_addr. lia.
  - change (answers_before a addr oaddr (S (S i)))
      with (answers_before a addr oaddr (S i)
            + (if reprograms a addr oaddr (S i) then 2 else 1))%nat.
    rewrite IH, reprograms_shift. cbn [answers_before]. lia.
Qed.

Lemma flat_map_length_const {A B : Type} (k : nat) (g : A -> list B)
  (xs : list A) :
  (forall x, length (g x) = k) -> length (flat_map g xs) = (length xs * k)%nat.
Proof.
  intros H. induction xs as [|x xs IH]; [reflexivity|].
  cbn [flat_map length]. rewrite length_app, H, IH. reflexivity.
Qed.

Section ReadData.
Context (hd : header) (w : wire).

(** The word stored for position [i] of a read loop entered with
    [answered] answers taken. *)
Local Abbreviation word_at a src osrc k i :=
  (lane_bytes a (transfer_addr a src i)
     (w (Nat.add k (answers_before a src osrc i)))).

Lemma mem_read_loop_data : forall n a dest pos src osrc l,
  a <> ALIGN_DWORD ->
  (pos + n * width a <= length dest)%nat ->
  exists l',
    mem_read_loop hd w n a dest pos src osrc l =
      ((firstn pos dest
        ++ flat_map (fun i => word_at a src osrc (answered l) i) (seq 0 n)
        ++ skipn (pos + n * width a) dest)%list,
       (pos + n * width a)%nat, transfer_addr a src n, l')
    /\ answered l' = (answered l + answers_before a src osrc n)%nat.
Proof.
  induction n as [|n IH]; intros a dest pos src osrc l Ha Hlen.
  - exists l. cbn [mem_read_loop seq flat_map app transfer_addr answers_before].
    rewrite Nat.mul_0_l, !Nat.add_0_r, firstn_skipn. split; reflexivity.
  - cbn [mem_read_loop]. cbn [adiv5_dp_low_access]. rewrite extract_lane.
    fold (step_addr a src). fold (crosses (step_addr a src) osrc).
    set (bytes := lane_bytes a src (w (answered l))).
    assert (Hb : length bytes = width a) by (apply lane_bytes_length; exact Ha).
    assert (Hs : store dest pos bytes =
                 (firstn pos dest ++ bytes ++ skipn (pos + width a) dest)%list).
    { rewrite store_splice by (rewrite Hb; lia). rewrite Hb. reflexivity. }
    assert (Hl1 : length (store dest pos bytes) = length dest).
    { rewrite Hs, !length_app, length_firstn, length_skipn, Hb. lia. }
    assert (Hf : firstn (pos + width a) (store dest pos bytes)
                 = (firstn pos dest ++ bytes)%list).
    { rewrite Hs, app_assoc. rewrite firstn_app.
      replace (pos + width a - length (firstn pos dest ++ bytes))%nat with 0%nat
        by (rewrite length_app, length_firstn, Hb; lia).
      rewrite firstn_O, app_nil_r. apply firstn_all2.
      rewrite length_app, length_firstn, Hb. lia. }
    assert (Hk : skipn (pos + width a + n * width a) (store dest pos bytes)
                 = skipn (pos + S n * width a) dest).
    { rewrite Hs, app_assoc. rewrite skipn_app.
      rewrite (skipn_all2 (firstn pos dest ++ bytes))
        by (rewrite length_app, length_firstn, Hb; lia).
      rewrite length_app, length_firstn, Hb, skipn_skipn. cbn [app].
      f_equal. lia. }
    rewrite flat_map_seq_S.
    rewrite (flat_map_ext _ (fun i =>
               word_at a (step_addr a src) (step_tar a src osrc)
                 (answered l + (if crosses (step_addr a src) osrc then 2 else 1)) i)).
    2:{ intros i. rewrite transfer_addr_shift, answers_before_shift.
        f_equal. f_equal. lia. }
    rewrite (transfer_addr_shift a src n), (answers_before_shift a src osrc n).
    change (transfer_addr a src 0) with src.
    change (answers_before a src osrc 0) with 0%nat.
    rewrite Nat.add_0_r. fold bytes.
    unfold step_tar.
    destruct (crosses (step_addr a src) osrc) eqn:C.
    + match goal with
      | |- context [mem_read_loop hd w n a ?d ?p ?s ?o ?q] =>
          destruct (IH a d p s o q Ha) as [l' [E A]]
      end.
      * rewrite Hl1. lia.
      * exists l'. rewrite E. cbn [snd answered] in *. rewrite Hf, Hk.
        split.
        -- replace (S (S (answered l))) with (answered l + 2)%nat by lia.
           replace (pos + width a + n * width a)%nat
             with (pos + S n * width a)%nat by lia.
           rewrite <- !app_assoc. reflexivity.
        -- rewrite A. lia.
    + match goal with
      | |- context [mem_read_loop hd w n a ?d ?p ?s ?o ?q] =>
          destruct (IH a d p s o q Ha) as [l' [E A]]
      end.
      * rewrite Hl1. lia.
      * exists l'. rewrite E. cbn [snd answered] in *. rewrite Hf, Hk.
        split.
        -- replace (S (answered l)) with (answered l + 1)%nat by lia.
           replace (pos + width a + n * width a)%nat
             with (pos + S n * width a)%nat by lia.
           rewrite <- !app_assoc. reflexivity.
        -- rewrite A. lia.
Qed.

Lemma ap_mem_access_setup_answered l ap addr a :
  answered (ap_mem_access_setup hd w l ap addr a) = answered l.
Proof. destruct a; reflexivity. Qed.

Lemma transfer_words (src len : Z) :
  0 < len ->
  let a := MIN (ALIGNOF src) (ALIGNOF len) in
  a <> ALIGN_DWORD
  /\ exists m,
       Z.to_nat (Z.shiftr len (align_val a)) = S m
       /\ Z.to_nat (Z.shiftr len (align_val a) - 1) = m
       /\ (S m * width a)%nat = Z.to_nat len.
Proof.
  intros Hlen a. subst a.
  destruct (MIN_ALIGNOF_cases src len) as [[-> [_ H]]|[[-> [[_ H] _]]|[-> _]]];
    (split; [discriminate|]); unfold width; cbn [align_val];
    rewrite Z.shiftr_div_pow2 by lia.
  - change (2 ^ 2) with 4. change (Z.shiftl 1 2) with 4.
    exists (Z.to_nat (len / 4 - 1)).
    assert (len = 4 * (len / 4)) by (pose proof (Z.div_mod len 4); lia).
    assert (1 <= len / 4) by lia.
    split; [lia|]. split; [reflexivity|]. lia.
  - change (2 ^ 1) with 2. change (Z.shiftl 1 1) with 2.
    exists (Z.to_nat (len / 2 - 1)).
    assert (len = 2 * (len / 2)) by (pose proof (Z.div_mod len 2); lia).
    assert (1 <= len / 2) by lia.
    split; [lia|]. split; [reflexivity|]. lia.
  - change (2 ^ 0) with 1. change (Z.shiftl 1 0) with 1.
    rewrite Z.div_1_r.
    exists (Z.to_nat (len - 1)).
    split; [lia|]. split; [reflexivity|]. lia.
Qed.

(** What [firmware_mem_read] leaves in the buffer and on the link. *)
Lemma firmware_mem_read_words l ap dest src len :
  0 < len -> (Z.to_nat len <= length dest)%nat ->
  exists l',
    firmware_mem_read hd w l ap dest src len =
      ((flat_map
          (fun i => word_at (MIN (ALIGNOF src) (ALIGNOF len)) src src
                      (S (answered l)) i)
          (seq 0 (Z.to_nat
                    (Z.shiftr len (align_val (MIN (ALIGNOF src) (ALIGNOF len))))))
        ++ skipn (Z.to_nat len) dest)%list, l')
    /\ answered l' =
         (S (S (answered l))
          + answers_before (MIN (ALIGNOF src) (ALIGNOF len)) src src
              (Z.to_nat
                 (Z.shiftr len (align_val (MIN (ALIGNOF src) (ALIGNOF len))))
               - 1))%nat.
Proof.
  intros Hlen Hdest. unfold firmware_mem_read.
  replace (len =? 0) with false by (symmetry; apply Z.eqb_neq; lia).
  destruct (transfer_words src len Hlen) as [Ha [m [Hn [Hm Hw]]]].
  set (a := MIN (ALIGNOF src) (ALIGNOF len)) in *.
  rewrite Hn, Hm.
  match goal with
  | |- context [mem_read_loop hd w m a dest 0%nat src src ?q] =>
      destruct (mem_read_loop_data m a dest 0%nat src src q Ha) as [l1 [E A]];
        [lia|]
  end.
  rewrite E. cbn [adiv5_dp_low_access snd answered] in *.
  rewrite ap_mem_access_setup_answered in A.
  rewrite ap_mem_access_setup_answered.
  rewrite extract_lane. cbn [fst firstn app Nat.add].
  set (body := flat_map _ (seq 0 m)).
  assert (Hbody : length body = (m * width a)%nat).
  { subst body. rewrite (flat_map_length_const (width a)), length_seq; [lia|].
    intros i. apply lane_bytes_length. exact Ha. }
  set (last := lane_bytes a (transfer_addr a src m) _).
  assert (Hlast : length last = width a) by (apply lane_bytes_length; exact Ha).
  assert (Hskip : length (skipn (m * width a) dest) = (length dest - m * width a)%nat)
    by apply length_skipn.
  exists (snd (adiv5_dp_low_access w l1 ADIV5_LOW_READ (ADIV5_DP_RDBUFF hd) 0)).
  split.
  - cbn [adiv5_dp_low_access snd]. f_equal.
    rewrite store_splice by (rewrite length_app, Hbody, Hskip, Hlast; lia).
    rewrite firstn_app, Hbody, Nat.sub_diag, firstn_O, app_nil_r.
    rewrite firstn_all2 by lia.
    rewrite skipn_app, Hbody, Hlast.
    rewrite skipn_all2 by lia. cbn [app].
    rewrite skipn_skipn.
    replace (m * width a + width a - m * width a + m * width a)%nat
      with (Z.to_nat len) by lia.
    rewrite seq_S, flat_map_app. cbn [flat_map Nat.add].
    rewrite app_nil_r, <- app_assoc. subst body last.
    rewrite A. reflexivity.
  - cbn [adiv5_dp_low_access snd answered]. rewrite A.
    replace (S m - 1)%nat with m by lia. lia.
Qed.

End ReadData.

(** X12.  [firmware_mem_read] of [len] bytes at width [1 << a] fills
    the first [len] bytes of the buffer and leaves the rest alone.
    Word [i] is taken, by its byte lane, from the answer after the
    one the DRW read for it got: the first answer of the transfer is
    dropped, and so is one more for each time TAR was programmed
    again before the word; the last word is the answer of RDBUFF. *)
Theorem firmware_mem_read_data (hd : header) (w : wire) (l : link)
  (ap : ADIv5_AP_t) (dest : buffer) (src len : Z)
  (Hlen : 0 < len) (Hdest : (Z.to_nat len <= length dest)%nat) :
  fst (firmware_mem_read hd w l ap dest src len) =
    (flat_map
       (fun i =>
          lane_bytes (MIN (ALIGNOF src) (ALIGNOF len))
            (transfer_addr (MIN (ALIGNOF src) (ALIGNOF len)) src i)
            (w (S (answered l)
                + answers_before (MIN (ALIGNOF src) (ALIGNOF len)) src src i)%nat))
       (seq 0 (Z.to_nat
                 (Z.shiftr len (align_val (MIN (ALIGNOF src) (ALIGNOF len))))))
     ++ skipn (Z.to_nat len) dest)%list
  /\ answered (snd (firmware_mem_read hd w l ap dest src len)) =
       (S (S (answered l))
        + answers_before (MIN (ALIGNOF src) (ALIGNOF len)) src src
            (Z.to_nat
               (Z.shiftr len (align_val (MIN (ALIGNOF src) (ALIGNOF len))))
             - 1))%nat.
Proof.
  destruct (firmware_mem_read_words hd w l ap dest src len Hlen Hdest)
    as [l' [E A]].
  rewrite E. split; [reflexivity|exact A].
Qed.

(** A read of two words across the end of a 1 KiB window, into a
    buffer of nine bytes. *)
Lemma firmware_mem_read_data_witness :
  fst (firmware_mem_read arm_header counting_wire link_init sample_ap
         (repeat 0xAA 9) 0x200003FC 8) =
    [1; 1; 1; 1; 3; 3; 3; 3; 0xAA]
  /\ answered (snd (firmware_mem_read arm_header counting_wire link_init
                      sample_ap (repeat 0xAA 9) 0x200003FC 8)) = 4%nat.
Proof.
  destruct (firmware_mem_read_data arm_header counting_wire link_init sample_ap
              (repeat 0xAA 9) 0x200003FC 8) as [D A].
  - reflexivity.
  - vm_compute. lia.
  - rewrite D, A. split; vm_compute; reflexivity.
Defined.

(** *** Byte lanes *)

Lemma byte_of_0 (v : Z) : byte_of v 0 = v mod 256.
Proof.
  unfold byte_of. change (8 * Z.of_nat 0) with 0. rewrite Z.shiftr_0_r.
  change 0xFF with (Z.ones 8). rewrite Z.land_ones by lia. reflexivity.
Qed.

Lemma byte_of_S (v : Z) (i : nat) : byte_of v (S i) = byte_of (v / 256) i.
Proof.
  unfold byte_of. f_equal.
  replace (8 * Z.of_nat (S i)) with (8 + 8 * Z.of_nat i) by lia.
  rewrite <- Z.shiftr_shiftr by lia. rewrite (Z.shiftr_div_pow2 v 8) by lia.
  reflexivity.
Qed.

Lemma le_bytes_S (n : nat) (v : Z) :
  le_bytes (S n) v = v mod 256 :: le_bytes n (v / 256).
Proof.
  unfold le_bytes. rewrite map_seq_S, byte_of_0. f_equal.
  apply map_ext. intros i. apply byte_of_S.
Qed.

Lemma le_value_cons (x : Z) (bytes : list Z) :
  is_byte x -> le_value (x :: bytes) = x + 256 * le_value bytes.
Proof.
  intros Hx. cbn [le_value]. rewrite Z.shiftl_mul_pow2 by lia.
  rewrite (SamdFacts.lor_disjoint _ _ 8); [change (2 ^ 8) with 256; lia|lia| |].
  - exact Hx.
  - apply Z.mod_mul. lia.
Qed.

Lemma le_value_range (bytes : list Z) :
  Forall is_byte bytes -> 0 <= le_value bytes < 2 ^ (8 * Z.of_nat (length bytes)).
Proof.
  induction 1 as [|x bytes Hx _ IH]; [cbn; lia|].
  rewrite le_value_cons by exact Hx. cbn [length].
  replace (8 * Z.of_nat (S (length bytes))) with (8 + 8 * Z.of_nat (length bytes))
    by lia.
  rewrite Z.pow_add_r by lia. change (2 ^ 8) with 256.
  unfold is_byte in Hx. nia.
Qed.

(** Bytes put together and taken apart again. *)
Lemma le_bytes_le_value (bytes : list Z) :
  Forall is_byte bytes -> le_bytes (length bytes) (le_value bytes) = bytes.
Proof.
  induction 1 as [|x bytes Hx _ IH]; [reflexivity|].
  cbn [length]. rewrite le_bytes_S, le_value_cons by exact Hx.
  unfold is_byte in Hx.
  replace ((x + 256 * le_value bytes) mod 256) with x
    by (Z.div_mod_to_equations; lia).
  replace ((x + 256 * le_value bytes) / 256) with (le_value bytes)
    by (Z.div_mod_to_equations; lia).
  rewrite IH. reflexivity.
Qed.

(** A value taken apart and put together again. *)
Lemma le_value_le_bytes : forall (n : nat) (v : Z),
  le_value (le_bytes n v) = v mod 2 ^ (8 * Z.of_nat n).
Proof.
  induction n as [|n IH]; intros v.
  - cbn. rewrite Z.mod_1_r. reflexivity.
  - rewrite le_bytes_S, le_value_cons, IH.
    + replace (8 * Z.of_nat (S n)) with (8 + 8 * Z.of_nat n) by lia.
      rewrite Z.pow_add_r by lia. change (2 ^ 8) with 256.
      rewrite Z.rem_mul_r by lia. reflexivity.
    + unfold is_byte. apply Z.mod_pos_bound. lia.
Qed.

(** A value shifted into its lane, cut to 32 bits and taken out of
    the lane again. *)
Lemma lane_echo (v s k : Z) :
  0 <= s -> 0 <= k -> s + k <= 32 -> 0 <= v < 2 ^ k ->
  Z.land (Z.shiftr (u32 (Z.shiftl v s)) s) (Z.ones k) = v.
Proof.
  intros Hs Hk Hsk Hv. unfold u32.
  rewrite Z.shiftl_mul_pow2 by lia.
  assert (P : 0 < 2 ^ s) by (apply Z.pow_pos_nonneg; lia).
  assert (Q : 2 ^ s * 2 ^ k <= 2 ^ 32).
  { rewrite <- Z.pow_add_r by lia. apply Z.pow_le_mono_r; lia. }
  rewrite Z.mod_small by nia.
  rewrite Z.shiftr_div_pow2 by lia. rewrite Z.div_mul by lia.
  rewrite Z.land_ones by lia. apply Z.mod_small. exact Hv.
Qed.

Lemma byte_lane_shift (addr : Z) :
  0 <= Z.shiftl (Z.land addr 0x3) 3 /\ Z.shiftl (Z.land addr 0x3) 3 + 8 <= 32.
Proof.
  rewrite land_3_mod, Z.shiftl_mul_pow2 by lia. change (2 ^ 3) with 8.
  pose proof (Z.mod_pos_bound addr 4). lia.
Qed.

Lemma halfword_lane_shift (addr : Z) :
  0 <= Z.shiftl (Z.land addr 0x2) 3 /\ Z.shiftl (Z.land addr 0x2) 3 + 16 <= 32.
Proof.
  change 0x2 with (Z.shiftl (Z.ones 1) 1). rewrite land_high by lia.
  rewrite Z.land_ones, !Z.shiftl_mul_pow2 by lia.
  change (2 ^ 1) with 2. change (2 ^ 3) with 8.
  pose proof (Z.mod_pos_bound (Z.shiftr addr 1) 2). lia.
Qed.

Lemma load_lane_source a src pos :
  load src pos (width a) = le_value (lane_source a src pos).
Proof. reflexivity. Qed.

Lemma lane_source_length a src pos : length (lane_source a src pos) = width a.
Proof. unfold lane_source. rewrite length_map, length_seq. reflexivity. Qed.

(** What a write packs into a DRW word for an address, a read at the
    address unpacks. *)
Lemma lane_bytes_lane_word a src pos addr :
  a <> ALIGN_DWORD -> Forall is_byte (lane_source a src pos) ->
  lane_bytes a addr (lane_word a src pos addr) = lane_source a src pos.
Proof.
  intros Ha Hb. pose proof (le_value_range _ Hb) as R.
  pose proof (le_bytes_le_value _ Hb) as E.
  rewrite lane_source_length in R, E.
  destruct a; [| | |contradiction].
  - unfold lane_bytes, lane_word.
    change (load src pos 1) with (le_value (lane_source ALIGN_BYTE src pos)).
    change 0xFF with (Z.ones 8).
    destruct (byte_lane_shift addr) as [S1 S2].
    rewrite lane_echo by (try lia; exact R). exact E.
  - unfold lane_bytes, lane_word.
    change (load src pos 2) with (le_value (lane_source ALIGN_HALFWORD src pos)).
    change 0xFFFF with (Z.ones 16).
    destruct (halfword_lane_shift addr) as [S1 S2].
    rewrite lane_echo by (try lia; exact R). exact E.
  - exact E.
Qed.

Lemma firstn_S_nth {A : Type} (d : A) : forall (xs : list A) (p : nat),
  (p < length xs)%nat -> firstn (S p) xs = (firstn p xs ++ [nth p xs d])%list.
Proof.
  induction xs as [|x xs IH]; intros p H; [simpl in H; lia|].
  destruct p as [|p]; [reflexivity|].
  cbn [firstn nth app]. cbn [firstn] in IH. rewrite IH by (simpl in H; lia).
  reflexivity.
Qed.

Lemma firstn_chunk {A : Type} (d : A) (xs : list A) (p : nat) : forall k,
  (p + k <= length xs)%nat ->
  firstn (p + k) xs =
  (firstn p xs ++ map (fun j => nth (p + j) xs d) (seq 0 k))%list.
Proof.
  induction k as [|k IH]; intros H.
  - rewrite Nat.add_0_r. cbn. rewrite app_nil_r. reflexivity.
  - rewrite seq_S, map_app, app_assoc, <- IH by lia.
    rewrite Nat.add_succ_r. apply firstn_S_nth. lia.
Qed.

(** A buffer cut into accesses and stuck together again. *)
Lemma chunks_of_buffer {A : Type} (d : A) (k : nat) (xs : list A) : forall n,
  (n * k <= length xs)%nat ->
  flat_map (fun i => map (fun j => nth (i * k + j) xs d) (seq 0 k)) (seq 0 n)
  = firstn (n * k) xs.
Proof.
  induction n as [|n IH]; intros H; [reflexivity|].
  rewrite seq_S, flat_map_app, IH by lia. cbn [flat_map Nat.add].
  rewrite app_nil_r, <- firstn_chunk by lia. f_equal. lia.
Qed.

Lemma nth_is_byte (xs : list Z) (i : nat) :
  Forall is_byte xs -> is_byte (nth i xs 0).
Proof.
  intros H. destruct (Nat.lt_ge_cases i (length xs)) as [Hi|Hi].
  - rewrite Forall_forall in H. apply H. apply nth_In. exact Hi.
  - rewrite nth_overflow by exact Hi. unfold is_byte. lia.
Qed.

Lemma lane_source_bytes a src pos :
  Forall is_byte src -> Forall is_byte (lane_source a src pos).
Proof.
  intros H. unfold lane_source. apply Forall_forall. intros x Hx.
  apply in_map_iff in Hx. destruct Hx as [j [<- _]].
  apply nth_is_byte. exact H.
Qed.

(** X13.  Reading back what was written: when the target answers the
    reads of a transfer with the words that [adiv5_mem_write] puts on
    DRW for the bytes [buf] at the same address (the word for access
    [i] being [lane_word] of the bytes at [i] widths into [buf]),
    [firmware_mem_read] puts [buf] into the first [len] bytes of the
    buffer, at any of the three widths. *)
Theorem firmware_mem_read_echoes_write (hd : header) (w : wire) (l : link)
  (ap : ADIv5_AP_t) (dest buf : buffer) (src len : Z)
  (Hlen : 0 < len) (Hdest : (Z.to_nat len <= length dest)%nat)
  (Hbuf : length buf = Z.to_nat len) (Hbytes : Forall is_byte buf)
  (Hecho : forall i,
     (i < Z.to_nat (Z.shiftr len (align_val (MIN (ALIGNOF src) (ALIGNOF len)))))%nat ->
     w (S (answered l)
        + answers_before (MIN (ALIGNOF src) (ALIGNOF len)) src src i)%nat
     = lane_word (MIN (ALIGNOF src) (ALIGNOF len)) buf
         (i * width (MIN (ALIGNOF src) (ALIGNOF len)))
         (transfer_addr (MIN (ALIGNOF src) (ALIGNOF len)) src i)) :
  fst (firmware_mem_read hd w l ap dest src len)
  = (buf ++ skipn (Z.to_nat len) dest)%list.
Proof.
  destruct (firmware_mem_read_words hd w l ap dest src len Hlen Hdest)
    as [l' [E _]].
  rewrite E. cbn [fst]. f_equal.
  destruct (transfer_words src len Hlen) as [Ha [m [Hn [_ Hw]]]].
  set (a := MIN (ALIGNOF src) (ALIGNOF len)) in *.
  rewrite flat_map_concat_map.
  rewrite (map_ext_in _ (fun i => map (fun j => nth (i * width a + j) buf 0)
                                    (seq 0 (width a)))).
  - rewrite <- flat_map_concat_map, chunks_of_buffer by (rewrite Hn; lia).
    rewrite Hn, Hw, <- Hbuf. apply firstn_all.
  - intros i Hi. apply in_seq in Hi. rewrite Hecho by lia.
    apply lane_bytes_lane_word; [exact Ha|].
    apply lane_source_bytes. exact Hbytes.
Qed.

(** A run of X13 at half-word width. *)
Lemma firmware_mem_read_echoes_write_witness :
  fst (firmware_mem_read arm_header echo_wire link_init sample_ap
         [0; 0; 0; 0; 0xAA] 0x20000002 4)
  = ([0x11; 0x22; 0x33; 0x44] ++ skipn (Z.to_nat 4) [0; 0; 0; 0; 0xAA])%list.
Proof.
  apply (firmware_mem_read_echoes_write arm_header echo_wire link_init sample_ap
           [0; 0; 0; 0; 0xAA] [0x11; 0x22; 0x33; 0x44] 0x20000002 4).
  - reflexivity.
  - vm_compute. lia.
  - reflexivity.
  - repeat constructor; unfold is_byte; lia.
  - intros i Hi. destruct i as [|[|i]]; [reflexivity|reflexivity|].
    vm_compute in Hi. lia.
Defined.

(** X14.  [adiv5_mem_read32] of a word-aligned address takes two
    answers from the link, drops the first, which the DRW read got,
    and returns the low 32 bits of the second, which the read of
    RDBUFF got; on the link it leaves the setup of a word transfer and
    these two reads. *)
Theorem adiv5_mem_read32_aligned (hd : header) (w : wire) (l : link)
  (ap : ADIv5_AP_t) (addr : Z) (Haddr : addr mod 4 = 0) :
  fst (adiv5_mem_read32 hd w l ap addr) = w (S (answered l)) mod 2 ^ 32
  /\ answered (snd (adiv5_mem_read32 hd w l ap addr)) = S (S (answered l))
  /\ issued (snd (adiv5_mem_read32 hd w l ap addr)) =
       (issued l ++ setup_accesses hd ap addr ALIGN_WORD
        ++ [LowAccess ADIV5_LOW_READ (ADIV5_AP_DRW hd) 0;
            LowAccess ADIV5_LOW_READ (ADIV5_DP_RDBUFF hd) 0])%list.
Proof.
  unfold adiv5_mem_read32, adiv5_mem_read.
  assert (Ha : MIN (ALIGNOF addr) (ALIGNOF 4) = ALIGN_WORD).
  { apply ALIGNOF_word in Haddr. rewrite Haddr. reflexivity. }
  destruct (firmware_mem_read_words hd w l ap [0; 0; 0; 0] addr 4)
    as [l' [E A]]; [lia|vm_compute; lia|].
  pose proof (firmware_mem_read_issued hd w l ap [0; 0; 0; 0] addr 4) as I.
  rewrite Ha in E, A, I. rewrite E in *. cbn [fst snd] in *.
  split; [|split].
  - change (Z.to_nat (Z.shiftr 4 (align_val ALIGN_WORD))) with 1%nat.
    cbn [seq flat_map answers_before transfer_addr lane_bytes].
    rewrite Nat.add_0_r.
    change (load ((le_bytes 4 (w (S (answered l))) ++ [])
                  ++ skipn (Z.to_nat 4) [0; 0; 0; 0]) 0 4)
      with (le_value (le_bytes 4 (w (S (answered l))))).
    rewrite le_value_le_bytes. reflexivity.
  - rewrite A.
    change (Z.to_nat (Z.shiftr 4 (align_val ALIGN_WORD)) - 1)%nat with 0%nat.
    cbn [answers_before]. lia.
  - rewrite I by lia. reflexivity.
Qed.

(** A run of X14. *)
Lemma adiv5_mem_read32_aligned_witness :
  fst (adiv5_mem_read32 arm_header beef_wire link_init sample_ap 0x20000000)
    = beef_wire (S (answered link_init)) mod 2 ^ 32
  /\ answered (snd (adiv5_mem_read32 arm_header beef_wire link_init sample_ap
                      0x20000000)) = S (S (answered link_init))
  /\ issued (snd (adiv5_mem_read32 arm_header beef_wire link_init sample_ap
                    0x20000000)) =
       (issued link_init ++ setup_accesses arm_header sample_ap 0x20000000 ALIGN_WORD
        ++ [LowAccess ADIV5_LOW_READ (ADIV5_AP_DRW arm_header) 0;
            LowAccess ADIV5_LOW_READ (ADIV5_DP_RDBUFF arm_header) 0])%list.
Proof.
  apply (adiv5_mem_read32_aligned arm_header beef_wire link_init sample_ap
           0x20000000).
  reflexivity.
Defined.

(** *** Access ports *)

Lemma masked_bits_clear (c m : Z) : Z.land (Z.land c (u32 (Z.lnot m))) m = 0.
Proof.
  apply Z.bits_inj'. intros i Hi.
  rewrite !Z.land_spec, Z.bits_0. unfold u32.
  rewrite Z.testbit_mod_pow2 by lia. rewrite Z.lnot_spec by lia.
  destruct (Z.testbit m i); rewrite ?andb_false_r; reflexivity.
Qed.

(** X15.  An AP that [adiv5_new_ap] returns is never one whose BASE
    reads 0xFFFFFFFF or whose IDR reads zero, and its CSW has the
    size and address-increment fields and TRINPROG clear.  It carries
    the DP and selector given and the IDR and BASE read, of the three
    registers read in the order IDR, BASE, CSW. *)
Theorem adiv5_new_ap_valid (hd : header) (w : wire) (malloc_fails : nat -> bool)
  (dp : ADIv5_DP_t) (apsel : Z) (p p' : probe) (ap : ADIv5_AP_t)
  (Hnew : adiv5_new_ap hd w malloc_fails dp apsel p = (Some ap, p')) :
  ap_base ap <> 0xffffffff
  /\ ap_idr ap <> 0
  /\ Z.land (ap_csw ap)
       (Z.lor (ADIV5_AP_CSW_SIZE_MASK hd) (ADIV5_AP_CSW_ADDRINC_MASK hd)) = 0
  /\ tst (ap_csw ap) (ADIV5_AP_CSW_TRINPROG hd) = false
  /\ ap_dp ap = dp /\ ap_apsel ap = apsel
  /\ ap_idr ap = w (answered (lnk p))
  /\ ap_base ap = w (S (answered (lnk p)))
  /\ answered (lnk p') = S (S (S (answered (lnk p))))
  /\ malloc_fails (allocs p) = false.
Proof.
  unfold adiv5_new_ap, adiv5_ap_read, firmware_ap_read, adiv5_dp_read,
    adiv5_dp_write, malloc, on_link in Hnew.
  cbn [answered issued lnk allocs clock polls asked calls] in Hnew.
  destruct (w (S (answered (lnk p))) =? 0xffffffff) eqn:B; [discriminate|].
  destruct (w (answered (lnk p)) =? 0) eqn:I; [discriminate|].
  destruct (tst _ (ADIV5_AP_CSW_TRINPROG hd)) eqn:T; [discriminate|].
  destruct (malloc_fails (allocs p)) eqn:M; [discriminate|].
  cbn [negb] in Hnew. injection Hnew as <- <-.
  cbn [ap_base ap_idr ap_csw ap_dp ap_apsel lnk answered].
  apply Z.eqb_neq in B, I.
  repeat split; try assumption. apply masked_bits_clear.
Qed.

(** A run of X15 on an AHB-AP. *)
Lemma adiv5_new_ap_valid_witness :
  exists ap p',
    adiv5_new_ap arm_header ahb_ap_wire (fun _ => false) sample_dp 0 probe_init
      = (Some ap, p')
    /\ ap_base ap <> 0xffffffff
    /\ ap_idr ap <> 0
    /\ Z.land (ap_csw ap)
         (Z.lor (ADIV5_AP_CSW_SIZE_MASK arm_header)
                (ADIV5_AP_CSW_ADDRINC_MASK arm_header)) = 0
    /\ tst (ap_csw ap) (ADIV5_AP_CSW_TRINPROG arm_header) = false
    /\ ap_dp ap = sample_dp /\ ap_apsel ap = 0
    /\ ap_idr ap = ahb_ap_wire (answered (lnk probe_init))
    /\ ap_base ap = ahb_ap_wire (S (answered (lnk probe_init)))
    /\ answered (lnk p') = S (S (S (answered (lnk probe_init))))
    /\ false = false.
Proof.
  eexists. eexists. split; [vm_compute; reflexivity|].
  eapply (adiv5_new_ap_valid arm_header ahb_ap_wire (fun _ => false) sample_dp 0
            probe_init).
  vm_compute. reflexivity.
Defined.

(** *** The table of components *)

Lemma lut_find_sound : forall lut pn dt aid e,
  lut_find lut pn dt aid = Some e ->
  In e lut /\ part_number e = pn /\ dev_type e = dt /\ arch_id e = aid
  /\ arch e <> aa_end.
Proof.
  induction lut as [|x lut IH]; intros pn dt aid e H; [discriminate|].
  cbn [lut_find] in H.
  destruct (arch x) eqn:A; try discriminate;
    (destruct (part_number x =? pn) eqn:E1;
     [destruct (dev_type x =? dt) eqn:E2;
      [destruct (arch_id x =? aid) eqn:E3|]|];
     cbn [negb orb] in H;
     [injection H as <-; apply Z.eqb_eq in E1, E2, E3;
      repeat split; try assumption; [left; reflexivity|congruence]
     |apply IH in H; destruct H as [H1 H2]; split; [right; exact H1|exact H2] ..]).
Qed.

(** X16.  The components that [adiv5_component_probe] takes for a
    Cortex-M, by the table [arm_component_lut]: the entry found for a
    part number, device type and architecture id has [aa_cortexm]
    exactly for the five keys of [cortexm_keys], and [aa_cortexa]
    exactly for the four of [cortexa_keys]. *)
Theorem lut_arch_cortex (pn dt aid : Z) :
  (lut_arch pn dt aid = Some aa_cortexm <-> In (pn, dt, aid) cortexm_keys)
  /\ (lut_arch pn dt aid = Some aa_cortexa <-> In (pn, dt, aid) cortexa_keys).
Proof.
  unfold lut_arch. split; split.
  - destruct (lut_find arm_component_lut pn dt aid) as [e|] eqn:F;
      [|discriminate].
    cbn [option_map]. intros A. injection A as A.
    destruct (lut_find_sound _ _ _ _ _ F) as [Hin [<- [<- [<- _]]]].
    cbn [arm_component_lut In] in Hin.
    repeat (destruct Hin as [<-|Hin];
            [first [discriminate A | cbn; tauto]|]).
    contradiction.
  - intros H. cbn [cortexm_keys In] in H.
    repeat (destruct H as [H|H]; [injection H as <- <- <-; reflexivity|]).
    contradiction.
  - destruct (lut_find arm_component_lut pn dt aid) as [e|] eqn:F;
      [|discriminate].
    cbn [option_map]. intros A. injection A as A.
    destruct (lut_find_sound _ _ _ _ _ F) as [Hin [<- [<- [<- _]]]].
    cbn [arm_component_lut In] in Hin.
    repeat (destruct Hin as [<-|Hin];
            [first [discriminate A | cbn; tauto]|]).
    contradiction.
  - intros H. cbn [cortexa_keys In] in H.
    repeat (destruct H as [H|H]; [injection H as <- <- <-; reflexivity|]).
    contradiction.
Qed.

(** *** Designer codes *)

Lemma pidr_code_fields (pidr : Z) :
  Z.lor (Z.shiftr (Z.land pidr PIDR_JEP106_CONT_MASK)
                  (PIDR_JEP106_CONT_OFFSET - 8))
        (Z.shiftr (Z.land pidr PIDR_JEP106_CODE_MASK) PIDR_JEP106_CODE_OFFSET)
  = 256 * pidr_jep106_cont pidr + pidr_jep106_code pidr.
Proof.
  unfold pidr_jep106_cont, pidr_jep106_code.
  change PIDR_JEP106_CONT_MASK with (Z.shiftl (Z.ones 4) 32).
  change PIDR_JEP106_CODE_MASK with (Z.shiftl (Z.ones 7) 12).
  change (PIDR_JEP106_CONT_OFFSET - 8) with 24.
  change PIDR_JEP106_CODE_OFFSET with 12.
  rewrite !land_high by lia.
  rewrite (Z.shiftr_shiftl_l _ 32 24) by lia.
  rewrite (Z.shiftr_shiftl_l _ 12 12) by lia.
  change (32 - 24) with 8. change (12 - 12) with 0. rewrite Z.shiftl_0_r.
  rewrite !Z.land_ones, !Z.shiftr_div_pow2, Z.shiftl_mul_pow2 by lia.
  change (2 ^ 4) with 16. change (2 ^ 7) with 128. change (2 ^ 8) with 256.
  rewrite Z.lor_comm, Z.add_comm, (Z.mul_comm 256).
  apply (SamdFacts.lor_disjoint _ _ 8); [lia| |apply Z.mod_mul; lia].
  pose proof (Z.mod_pos_bound (pidr / 2 ^ 12) 128). change (2 ^ 8) with 256. lia.
Qed.

(** X17.  The designer code [adiv5_component_probe] takes from a PIDR
    with the JEP-106 flag set is 256 times the continuation count of
    bits 35:32 plus the identity code of bits 18:12, so that bit 7 and
    the bits from 12 up are clear, unless that is one of the two
    errata codes, which give the code of ST.  Without the flag it is
    the identity code with [ASCII_CODE_FLAG] set, cut to 16 bits. *)
Theorem pidr_designer_code_fields (hd : header) (pidr : Z) :
  pidr_designer_code hd pidr =
    if tst pidr PIDR_JEP106_USED then
      if (256 * pidr_jep106_cont pidr + pidr_jep106_code pidr
            =? JEP106_MANUFACTURER_ERRATA_STM32WX hd)
         || (256 * pidr_jep106_cont pidr + pidr_jep106_code pidr
               =? JEP106_MANUFACTURER_ERRATA_CS hd)
      then JEP106_MANUFACTURER_STM hd mod 2 ^ 16
      else 256 * pidr_jep106_cont pidr + pidr_jep106_code pidr
    else Z.lor (pidr_jep106_code pidr) (ASCII_CODE_FLAG hd) mod 2 ^ 16.
Proof.
  unfold pidr_designer_code. rewrite pidr_code_fields.
  change 0xFFFF with (Z.ones 16). rewrite !Z.land_ones by lia.
  destruct (tst pidr PIDR_JEP106_USED); [reflexivity|].
  f_equal. f_equal. unfold pidr_jep106_code.
  change PIDR_JEP106_CODE_MASK with (Z.shiftl (Z.ones 7) 12).
  change PIDR_JEP106_CODE_OFFSET with 12.
  rewrite land_high by lia. rewrite (Z.shiftr_shiftl_l _ 12 12) by lia.
  change (12 - 12) with 0. rewrite Z.shiftl_0_r.
  rewrite Z.land_ones, Z.shiftr_div_pow2 by lia. reflexivity.
Qed.

(** *** Windows of 1 KiB *)



(** *** Identification registers *)

Lemma id_block_no_crossing (addr : Z) (i : nat) :
  0 <= addr < 2 ^ 32 -> addr mod 16 = 0 -> (i < 3)%nat ->
  reprograms ALIGN_WORD addr addr i = false.
Proof.
  intros Ha Hm Hi.
  assert (Hw : addr mod Z.shiftl 1 (align_val ALIGN_WORD) = 0).
  { cbn [align_val]. change (Z.shiftl 1 2) with 4.
    Z.div_mod_to_equations. lia. }
  pose proof (tar_reprogrammed_at_boundary ALIGN_WORD addr i Ha Hw) as B.
  destruct (reprograms ALIGN_WORD addr addr i); [|reflexivity].
  exfalso. assert (E : transfer_addr ALIGN_WORD addr (S i) mod 1024 = 0)
    by (apply B; reflexivity).
  clear B. change (2 ^ 32) with 4294967296 in Ha.
  destruct i as [|[|[|i]]]; [| | |lia];
    cbn [transfer_addr align_val] in E; unfold u32 in E;
    change (Z.shiftl 1 2) with 4 in E; change (2 ^ 32) with 4294967296 in E;
    Z.div_mod_to_equations; lia.
Qed.

Lemma lor_byte_at (x v k : Z) :
  0 <= k -> 0 <= x < 2 ^ k ->
  Z.lor x (Z.shiftl v k) = x + 2 ^ k * v.
Proof.
  intros Hk Hx. rewrite Z.shiftl_mul_pow2 by lia.
  rewrite (SamdFacts.lor_disjoint _ _ k); [lia|exact Hk|exact Hx|].
  apply Z.mod_mul. lia.
Qed.

(** X19.  [adiv5_ap_read_id] of a 32-bit address that is a multiple
    of 16, as the addresses of CIDR0, PIDR0 and PIDR4 of a 4 KiB
    component are, reads four words in one transfer of five answers
    and puts the low bytes of the four words together, the first being
    the least significant. *)
Theorem adiv5_ap_read_id_bytes (hd : header) (w : wire) (l : link)
  (ap : ADIv5_AP_t) (addr : Z)
  (Haddr : 0 <= addr < 2 ^ 32) (Haligned : addr mod 16 = 0) :
  fst (adiv5_ap_read_id hd w l ap addr) =
    w (answered l + 1)%nat mod 256
    + 2 ^ 8 * (w (answered l + 2)%nat mod 256)
    + 2 ^ 16 * (w (answered l + 3)%nat mod 256)
    + 2 ^ 24 * (w (answered l + 4)%nat mod 256)
  /\ answered (snd (adiv5_ap_read_id hd w l ap addr)) = (answered l + 5)%nat.
Proof.
  unfold adiv5_ap_read_id, adiv5_mem_read.
  assert (Ha : MIN (ALIGNOF addr) (ALIGNOF 16) = ALIGN_WORD).
  { assert (H4 : addr mod 4 = 0) by (Z.div_mod_to_equations; lia).
    apply ALIGNOF_word in H4. rewrite H4. reflexivity. }
  destruct (firmware_mem_read_words hd w l ap (repeat 0 16) addr 16)
    as [l' [E A]]; [lia|vm_compute; lia|].
  rewrite Ha in E, A. rewrite E. cbn [fst snd].
  change (Z.to_nat (Z.shiftr 16 (align_val ALIGN_WORD))) with 4%nat in *.
  pose proof (id_block_no_crossing addr 0 Haddr Haligned ltac:(lia)) as R0.
  pose proof (id_block_no_crossing addr 1 Haddr Haligned ltac:(lia)) as R1.
  pose proof (id_block_no_crossing addr 2 Haddr Haligned ltac:(lia)) as R2.
  cbn [Nat.sub answers_before] in A. rewrite R0, R1, R2 in A.
  split; [|rewrite A; lia].
  cbn [seq flat_map answers_before lane_bytes]. rewrite R0, R1, R2.
  unfold le_bytes. cbn [seq map app nth fold_left Nat.mul Nat.add].
  rewrite !byte_of_0.
  change (Z.of_nat 0 * 8) with 0. change (Z.of_nat 1 * 8) with 8.
  change (Z.of_nat 2 * 8) with 16. change (Z.of_nat 3 * 8) with 24.
  rewrite Z.shiftl_0_r, Z.lor_0_l.
  replace (S (answered l + 0)) with (answered l + 1)%nat by lia.
  replace (S (answered l + 1)) with (answered l + 2)%nat by lia.
  replace (S (answered l + 2)) with (answered l + 3)%nat by lia.
  replace (S (answered l + 3)) with (answered l + 4)%nat by lia.
  pose proof (Z.mod_pos_bound (w (answered l + 1)%nat) 256 ltac:(lia)) as B1.
  pose proof (Z.mod_pos_bound (w (answered l + 2)%nat) 256 ltac:(lia)) as B2.
  pose proof (Z.mod_pos_bound (w (answered l + 3)%nat) 256 ltac:(lia)) as B3.
  change (2 ^ 8) with 256. change (2 ^ 16) with 65536.
  change (2 ^ 24) with 16777216.
  rewrite (lor_byte_at _ _ 8) by (change (2 ^ 8) with 256; lia).
  rewrite (lor_byte_at _ _ 16) by (change (2 ^ 8) with 256;
                                  change (2 ^ 16) with 65536; lia).
  rewrite (lor_byte_at _ _ 24) by (change (2 ^ 8) with 256;
                                  change (2 ^ 16) with 65536;
                                  change (2 ^ 24) with 16777216; lia).
  reflexivity.
Qed.

(** A run of X19 on the CIDR of a component at 0xE00FF000. *)
Lemma adiv5_ap_read_id_bytes_witness :
  fst (adiv5_ap_read_id arm_header counting_wire link_init sample_ap 0xE00FFFF0) =
    counting_wire (answered link_init + 1)%nat mod 256
    + 2 ^ 8 * (counting_wire (answered link_init + 2)%nat mod 256)
    + 2 ^ 16 * (counting_wire (answered link_init + 3)%nat mod 256)
    + 2 ^ 24 * (counting_wire (answered link_init + 4)%nat mod 256)
  /\ answered (snd (adiv5_ap_read_id arm_header counting_wire link_init sample_ap
                      0xE00FFFF0)) = (answered link_init + 5)%nat.
Proof.
  apply (adiv5_ap_read_id_bytes arm_header counting_wire link_init sample_ap
           0xE00FFFF0).
  - vm_compute. split; [discriminate|reflexivity].
  - reflexivity.
Defined.

(** *** Releasing the targets *)

Lemma halt_resumes_app (c1 c2 : list call) :
  halt_resumes (c1 ++ c2) = (halt_resumes c1 + halt_resumes c2)%nat.
Proof.
  induction c1 as [|c c1 IH]; [reflexivity|].
  destruct c; cbn [app halt_resumes]; rewrite IH; reflexivity.
Qed.

Section Resumes.
Context (hd : header) (w : wire).
Context (time_ms : nat -> Z) (expired : nat -> bool) (faults : nat -> bool).
Context (raises : nat -> bool) (malloc_fails : nat -> bool).
Context (nrst : bool) (wait : Z).

(** Nothing between [p] and [p'] released the targets. *)
Local Abbreviation still p p' :=
  (halt_resumes (calls p') = halt_resumes (calls p)).

Lemma calls_halt_attempt ap low c st t p :
  calls (snd (halt_attempt hd w time_ms ap low c st t p)) = calls p.
Proof.
  unfold halt_attempt. destruct low.
  - destruct (t <? 0xfff); reflexivity.
  - destruct (adiv5_mem_read32 hd w _ ap (CORTEXM_DHCSR hd)) as [d l2].
    reflexivity.
Qed.

Lemma calls_halt_loop : forall fuel ap low c st t rs p d p',
  halt_loop hd w time_ms expired nrst fuel ap low c st t rs p = Some (d, p') ->
  calls p' = calls p.
Proof.
  induction fuel as [|fuel IH]; intros ap low c st t rs p d p' Hrun;
    [discriminate|].
  cbn [halt_loop] in Hrun. unfold platform_timeout_is_expired at 1 in Hrun.
  cbn [fst snd] in Hrun.
  destruct (expired (polls p)).
  { injection Hrun as _ <-. reflexivity. }
  match type of Hrun with
  | context [halt_attempt hd w time_ms ap low c st t ?q] =>
      pose proof (calls_halt_attempt ap low c st t q) as K;
      destruct (halt_attempt hd w time_ms ap low c st t q) as [[x t'] p1]
  end.
  cbn [snd calls] in K.
  destruct (negb (x =? 0xffffffff) && (Z.land x 0xf000fff0 =? 0)).
  - destruct (tst x (CORTEXM_DHCSR_S_RESET_ST hd) && negb rs).
    + destruct nrst.
      * injection Hrun as _ <-. exact K.
      * rewrite (IH _ _ _ _ _ _ _ _ _ Hrun). exact K.
    + destruct (Z.land x (dhcsr_valid hd) =? dhcsr_valid hd).
      * injection Hrun as _ <-. exact K.
      * rewrite (IH _ _ _ _ _ _ _ _ _ Hrun). exact K.
  - rewrite (IH _ _ _ _ _ _ _ _ _ Hrun). exact K.
Qed.

Lemma still_initial_halt fuel ap p d p' :
  cortexm_initial_halt hd w time_ms expired nrst wait fuel ap p = Some (d, p') ->
  still p p'.
Proof.
  unfold cortexm_initial_halt, halt_entry.
  destruct (adiv5_dp_read w (lnk p) (ADIV5_DP_CTRLSTAT hd)) as [c l1].
  cbn [platform_time_ms on_link called lnk clock polls asked allocs calls].
  intros Hrun. apply calls_halt_loop in Hrun. rewrite Hrun. cbn [calls].
  rewrite halt_resumes_app. cbn. lia.
Qed.

Lemma calls_prepare_wait : forall fuel ap p r p',
  prepare_wait hd w expired fuel ap p = Some (r, p') -> calls p' = calls p.
Proof.
  induction fuel as [|fuel IH]; intros ap p r p' Hrun; [discriminate|].
  cbn [prepare_wait] in Hrun.
  destruct (adiv5_mem_read32 hd w (lnk p) ap (CORTEXM_DHCSR hd)) as [d l1].
  destruct (negb (tst d (CORTEXM_DHCSR_S_RESET_ST hd))).
  - injection Hrun as _ <-. reflexivity.
  - unfold platform_timeout_is_expired in Hrun. cbn [on_link polls] in Hrun.
    destruct (expired (polls p)).
    + injection Hrun as _ <-. reflexivity.
    + apply IH in Hrun. exact Hrun.
Qed.

Lemma still_cortexm_prepare fuel ap p r ap' p' :
  cortexm_prepare hd w time_ms expired nrst wait fuel ap p = Some (r, ap', p') ->
  still p p'.
Proof.
  unfold cortexm_prepare.
  destruct (cortexm_initial_halt hd w time_ms expired nrst wait fuel ap p)
    as [[d p1]|] eqn:Hh; [|discriminate].
  apply still_initial_halt in Hh.
  destruct (d =? 0).
  { intros Hrun. injection Hrun as _ _ <-. exact Hh. }
  destruct (adiv5_mem_read32 hd w (lnk p1) ap (CORTEXM_DEMCR hd)) as [demcr l1].
  match goal with
  | |- context [prepare_wait hd w expired fuel ?a ?q] =>
      destruct (prepare_wait hd w expired fuel a q) as [[r0 p2]|] eqn:Hw;
        [|discriminate]
  end.
  apply calls_prepare_wait in Hw. cbn [called on_link calls] in Hw.
  intros Hrun. injection Hrun as _ _ <-. rewrite Hw, <- Hh.
  rewrite !halt_resumes_app. cbn. lia.
Qed.

Lemma calls_rom_read ap addr i p :
  calls (snd (rom_read hd w faults ap addr i p)) = calls p.
Proof.
  unfold rom_read. cbn [adiv5_dp_error dp_fault snd lnk].
  destruct (adiv5_mem_read32 hd w (lnk p) ap _) as [e l1]. reflexivity.
Qed.

Lemma still_romtab_loop (probe_fn : Z -> nat -> nat -> probe -> option probe) :
  (forall a r k q q', probe_fn a r k q = Some q' -> still q q') ->
  forall n i ap addr recursion p steps p',
    romtab_loop hd w faults probe_fn n i ap addr recursion p = Some (steps, p') ->
    still p p'.
Proof.
  intros Hfn. induction n as [|n IH]; intros i ap addr recursion p steps p' Hrun.
  - injection Hrun as _ <-. reflexivity.
  - rewrite romtab_loop_unfold in Hrun.
    pose proof (calls_rom_read ap addr i p) as K.
    destruct (rom_read hd w faults ap addr i p) as [[entry err] p1].
    cbn [snd] in K.
    destruct err; [injection Hrun as _ <-; rewrite K; reflexivity|].
    destruct (entry =? 0); [injection Hrun as _ <-; rewrite K; reflexivity|].
    destruct (negb (tst entry (ADIV5_ROM_ROMENTRY_PRESENT hd))).
    + destruct (romtab_loop hd w faults probe_fn n (S i) ap addr recursion p1)
        as [[s1 p2]|] eqn:Hl; [|discriminate].
      injection Hrun as _ <-. apply IH in Hl. rewrite Hl, K. reflexivity.
    + destruct (probe_fn _ (S recursion) i p1) as [p2|] eqn:Hp; [|discriminate].
      apply Hfn in Hp.
      destruct (romtab_loop hd w faults probe_fn n (S i) ap addr recursion p2)
        as [[s1 p3]|] eqn:Hl; [|discriminate].
      injection Hrun as _ <-. apply IH in Hl. rewrite Hl, Hp, K. reflexivity.
Qed.

Lemma still_component_dispatch ap addr cls dc pn p :
  still p (component_dispatch hd w ap addr cls dc pn p).
Proof.
  unfold component_dispatch.
  destruct (negb (dc =? JEP106_MANUFACTURER_ARM hd)); [reflexivity|].
  destruct (cls =? cid_class_val cidc_dc).
  - destruct (adiv5_mem_read32 hd w (lnk p) ap (u32 (addr + DEVTYPE_OFFSET)))
      as [v l1].
    destruct (adiv5_mem_read32 hd w l1 ap (u32 (addr + DEVARCH_OFFSET)))
      as [v2 l2].
    destruct (lut_find arm_component_lut pn _ _) as [e|]; [|reflexivity].
    destruct (arch e); cbn [called on_link calls]; rewrite ?halt_resumes_app;
      cbn; lia.
  - destruct (lut_find arm_component_lut pn 0 0) as [e|]; [|reflexivity].
    destruct (arch e); cbn [called on_link calls]; rewrite ?halt_resumes_app;
      cbn; lia.
Qed.

Lemma still_component_probe : forall fuel ap addr recursion num_entry p ap' p',
  adiv5_component_probe hd w faults fuel ap addr recursion num_entry p
    = Some (ap', p') ->
  still p p'.
Proof.
  induction fuel as [|fuel IH]; intros ap addr recursion num_entry p ap' p' Hrun;
    [discriminate|].
  cbn [adiv5_component_probe] in Hrun.
  destruct (Z.land addr 0xfffff000 =? 0).
  { injection Hrun as _ <-. reflexivity. }
  match type of Hrun with
  | context [adiv5_ap_read_id hd w ?l ?a ?x] =>
      destruct (adiv5_ap_read_id hd w l a x) as [cidr l1]
  end.
  cbn [dp_fault on_link lnk asked] in Hrun.
  destruct (faults (asked p)); [injection Hrun as _ <-; reflexivity|].
  destruct (negb (Z.land cidr (u32 (Z.lnot CID_CLASS_MASK)) =? CID_PREAMBLE));
    [injection Hrun as _ <-; reflexivity|].
  cbn [adiv5_dp_error dp_fault lnk asked] in Hrun.
  destruct (faults (S (asked p))); [injection Hrun as _ <-; reflexivity|].
  cbn [lnk] in Hrun.
  match type of Hrun with
  | context [adiv5_ap_read_pidr hd w ?l ?a ?x] =>
      destruct (adiv5_ap_read_pidr hd w l a x) as [pidr l2]
  end.
  cbn [on_link lnk] in Hrun.
  destruct (_ =? cid_class_val cidc_romtab).
  - match type of Hrun with
    | context [match recursion with O => ?a | S _ => ?b end] =>
        assert (K3 : calls (snd (fst
                   (match recursion with O => a | S _ => b end))) = calls p);
        [|destruct (match recursion with O => a | S _ => b end)
            as [[ap1 p1] prot]]
    end.
    { destruct recursion; [|reflexivity].
      cbn [ap_designer_code ap_partno].
      destruct ((pidr_designer_code hd pidr =? JEP106_MANUFACTURER_ATMEL hd)
                && (Z.land pidr PIDR_PN_MASK =? 0xcd0)); [|reflexivity].
      match goal with
      | |- context [adiv5_mem_read32 hd w ?l ?a ?x] =>
          destruct (adiv5_mem_read32 hd w l a x) as [cs l3]
      end.
      reflexivity. }
    cbn [fst snd] in K3.
    destruct prot.
    + injection Hrun as _ <-. cbn [called calls].
      rewrite halt_resumes_app, K3. cbn. lia.
    + match type of Hrun with
      | context [romtab_loop hd w faults ?f 960 0 ?a ?x ?r ?q] =>
          destruct (romtab_loop hd w faults f 960 0 a x r q)
            as [[steps p2]|] eqn:Hl; [|discriminate]
      end.
      injection Hrun as _ <-.
      apply still_romtab_loop in Hl.
      * rewrite Hl, K3. reflexivity.
      * intros a r k q q' Hq.
        destruct (adiv5_component_probe hd w faults fuel ap1 a r k q)
          as [[ap2 q2]|] eqn:Hc; [|discriminate].
        injection Hq as <-. exact (IH _ _ _ _ _ _ _ Hc).
  - injection Hrun as _ <-.
    match goal with
    | |- still _ (component_dispatch hd w ?a ?b ?c ?d ?e ?q) =>
        exact (still_component_dispatch a b c d e q)
    end.
Qed.

Lemma calls_new_ap dp apsel p :
  calls (snd (adiv5_new_ap hd w malloc_fails dp apsel p)) = calls p.
Proof.
  unfold adiv5_new_ap, adiv5_ap_read, firmware_ap_read, adiv5_dp_read, malloc.
  cbn [answered issued lnk on_link allocs calls].
  destruct (_ =? 0xffffffff); [reflexivity|].
  destruct (_ =? 0); [reflexivity|].
  destruct (tst _ (ADIV5_AP_CSW_TRINPROG hd)); [reflexivity|].
  destruct (negb (negb (malloc_fails (allocs p)))); reflexivity.
Qed.

Lemma still_examine_ap fuel ap p p' :
  examine_ap hd w time_ms expired faults nrst wait fuel ap p = Some p' ->
  still p p'.
Proof.
  unfold examine_ap.
  set (p0 := called (called (called p (KinetisMdmProbe ap)) (Nrf51MdmProbe ap))
               (Efm32AapProbe ap)).
  assert (K0 : still p p0).
  { subst p0. cbn [called calls]. rewrite !halt_resumes_app. cbn. lia. }
  destruct ((ap_apsel ap =? 0) && (Z.land (ap_idr ap) 0xf =? ARM_AP_TYPE_AHB)).
  - destruct (cortexm_prepare hd w time_ms expired nrst wait fuel ap p0)
      as [[[r ap1] p1]|] eqn:Hp; [|discriminate].
    apply still_cortexm_prepare in Hp.
    destruct (adiv5_component_probe hd w faults fuel ap1 (ap_base ap1) 0 0 p1)
      as [[ap2 p2]|] eqn:Hc; [|discriminate].
    apply still_component_probe in Hc.
    intros E. injection E as <-. rewrite Hc, Hp. exact K0.
  - destruct (adiv5_component_probe hd w faults fuel ap (ap_base ap) 0 0 p0)
      as [[ap2 p2]|] eqn:Hc; [|discriminate].
    apply still_component_probe in Hc.
    intros E. injection E as <-. rewrite Hc. exact K0.
Qed.

Lemma still_ap_scan (new_ap : Z -> probe -> option ADIv5_AP_t * probe)
  (examine : ADIv5_AP_t -> probe -> option probe) :
  (forall a q, still q (snd (new_ap a q))) ->
  (forall a q q', examine a q = Some q' -> still q q') ->
  forall n i invalid_aps last_base p r early p',
    ap_scan new_ap examine n i invalid_aps last_base p = Some (r, early, p') ->
    still p p'.
Proof.
  intros Hnew Hex. induction n as [|n IH]; intros i inv lb p r early p' Hrun.
  - injection Hrun as _ _ <-. reflexivity.
  - cbn [ap_scan] in Hrun.
    destruct (inv <? 8)%nat; [|injection Hrun as _ _ <-; reflexivity].
    pose proof (Hnew (Z.of_nat i) p) as K.
    destruct (new_ap (Z.of_nat i) p) as [[ap|] p1]; cbn [snd] in K.
    + destruct (ap_base ap =? lb); [injection Hrun as _ _ <-; exact K|].
      destruct (examine ap p1) as [p2|] eqn:He; [|discriminate].
      apply Hex in He.
      destruct (ap_scan new_ap examine n (S i) inv (ap_base ap) p2)
        as [[[r1 e1] p3]|] eqn:Hs; [|discriminate].
      injection Hrun as _ _ <-. apply IH in Hs. rewrite Hs, He. exact K.
    + destruct (S inv =? 8)%nat; [injection Hrun as _ _ <-; exact K|].
      destruct (ap_scan new_ap examine n (S i) (S inv) lb p1)
        as [[[r1 e1] p3]|] eqn:Hs; [|discriminate].
      injection Hrun as _ _ <-. apply IH in Hs. rewrite Hs. exact K.
Qed.

Lemma calls_power_up_wait : forall fuel p r c p',
  power_up_wait hd w expired fuel p = Some (r, c, p') -> calls p' = calls p.
Proof.
  induction fuel as [|fuel IH]; intros p r c p' Hrun; [discriminate|].
  cbn [power_up_wait] in Hrun.
  destruct (adiv5_dp_read w (lnk p) (ADIV5_DP_CTRLSTAT hd)) as [cs l1].
  destruct (Z.land cs _ =? _); [injection Hrun as _ _ <-; reflexivity|].
  unfold platform_timeout_is_expired in Hrun. cbn [on_link polls] in Hrun.
  destruct (expired (polls p)); [injection Hrun as _ _ <-; reflexivity|].
  apply IH in Hrun. exact Hrun.
Qed.

Lemma still_reset_wait : forall fuel p p',
  reset_wait hd w expired fuel p = Some p' -> still p p'.
Proof.
  induction fuel as [|fuel IH]; intros p p' Hrun; [discriminate|].
  cbn [reset_wait] in Hrun. cbn [called lnk] in Hrun.
  destruct (adiv5_dp_read w (lnk p) (ADIV5_DP_CTRLSTAT hd)) as [cs l1].
  assert (K : forall l, still p (on_link (called p (PlatformDelay 20)) l)).
  { intros l. cbn [on_link called calls]. rewrite halt_resumes_app. cbn. lia. }
  destruct (tst cs _); [injection Hrun as <-; apply K|].
  unfold platform_timeout_is_expired in Hrun.
  cbn [on_link called polls] in Hrun.
  destruct (expired (polls p)).
  - injection Hrun as <-. cbn [calls]. rewrite halt_resumes_app. cbn. lia.
  - apply IH in Hrun. rewrite Hrun. apply (K l1).
Qed.

(** The scan is left through the condition of its loop only after all
    256 indices. *)
Lemma ap_scan_full (new_ap : Z -> probe -> option ADIv5_AP_t * probe)
  (examine : ADIv5_AP_t -> probe -> option probe) p r early p' :
  ap_scan new_ap examine 256 0 0 0 p = Some (r, early, p') ->
  early = (negb (length r =? 256)%nat || scan_stops r)
  /\ (early = true -> scan_stops r = true).
Proof.
  intros Hrun.
  destruct (ap_scan_account new_ap examine 256 0 0 0 p [] r early p' eq_refl
              eq_refl ltac:(lia) Hrun) as [[Hlen [_ [Hstop Hearly]]] _].
  unfold scan_stops.
  destruct (Nat.eq_dec (length r) 256) as [E|E].
  - rewrite E. cbn [Nat.eqb negb orb].
    destruct r as [|x r]; [discriminate E|].
    rewrite app_nil_r in Hearly. rewrite Hearly. split; [reflexivity|tauto].
  - destruct (Hstop ltac:(lia)) as [Hne Hends]. rewrite app_nil_r in Hends.
    destruct r as [|x r]; [contradiction|].
    rewrite app_nil_r in Hearly. rewrite Hearly, Hends.
    rewrite orb_true_r. split; reflexivity.
Qed.

Lemma still_bring_up fuel dp p r p' :
  dp_init_bring_up hd w time_ms expired faults raises malloc_fails nrst wait
    fuel dp p = Some (r, p') ->
  halt_resumes (calls p') =
    (halt_resumes (calls p)
     + (if (length r =? 256)%nat && negb (scan_stops r) && negb nrst
        then 1 else 0))%nat.
Proof.
  unfold dp_init_bring_up.
  destruct ((dp_designer_code dp =? JEP106_MANUFACTURER_RASPBERRY hd)
            && (dp_partno dp =? 0x2)).
  { intros E. injection E as <- <-. unfold rp_rescue_setup, malloc.
    destruct (negb (negb (malloc_fails (allocs p)))); cbn [called calls length];
      rewrite ?halt_resumes_app; cbn; lia. }
  unfold adiv5_dp_read_try.
  destruct (raises (answered (lnk p)));
    cbn [adiv5_dp_read on_link called lnk calls clock polls asked allocs];
    (match goal with
     | |- context [power_up_wait hd w expired fuel ?q] =>
         assert (K1 : still p q)
           by (cbn [calls on_link called]; rewrite ?halt_resumes_app; cbn; lia);
         destruct (power_up_wait hd w expired fuel q) as [[[ok cs1] p2]|] eqn:Hp;
           [|discriminate]
     end);
    apply calls_power_up_wait in Hp;
    (destruct ok;
     [|intros E; injection E as <- <-; cbn [called calls length];
       rewrite halt_resumes_app, Hp, K1; cbn; lia]);
    (match goal with
     | |- context [reset_wait hd w expired fuel ?q] =>
         assert (K4 : calls q = calls p2) by reflexivity;
         destruct (reset_wait hd w expired fuel q) as [p3|] eqn:Hr; [|discriminate]
     end);
    apply still_reset_wait in Hr; rewrite K4, Hp, K1 in Hr;
    (match goal with
     | |- context [ap_scan ?f ?g 256 0 0 0 ?q] =>
         destruct (ap_scan f g 256 0 0 0 q) as [[[r1 e1] p4]|] eqn:Hs;
           [|discriminate]
     end);
    pose proof (ap_scan_full _ _ _ _ _ _ Hs) as [He Hst];
    (apply still_ap_scan in Hs;
     [|intros a q; rewrite calls_new_ap; reflexivity
      |intros a q q' E; exact (still_examine_ap _ _ _ _ E)]);
    rewrite Hr in Hs;
    (destruct e1; intros E; injection E as <- <-;
     [rewrite Hs, (Hst eq_refl), andb_false_r; cbn; lia|]);
    symmetry in He; apply orb_false_iff in He; destruct He as [He1 He2];
    apply negb_false_iff in He1; rewrite He1, He2; cbn [negb andb];
    (destruct nrst; cbn [called calls negb];
     [rewrite Hs; lia|rewrite halt_resumes_app, Hs; cbn; lia]).
Qed.


End Resumes.


End Adiv5Facts.
